(** * VectraBank agentic RAG: risk scoring, report synthesis and the
      sequential analysis run of [main_starter.py]

    Shallow embedding of the deterministic core of
    [EnhancedBankingSequentialOrchestration]:
    [_calculate_enhanced_risk_score], [_determine_risk_tier],
    [_generate_enhanced_findings], [_generate_enhanced_recommendations],
    [_prepare_enhanced_context], [create_enhanced_agents] and
    [run_enhanced_analysis].

    Numbers.  Python floats are embedded as exact rationals ([Q]).  Every
    literal of the scoring code is a decimal with at most three places and
    the score is passed through [round(_, 3)] before it is compared with
    anything, so the binary64 result of the code is the double nearest to
    the rational computed here, and comparisons between such values agree
    with the comparisons on [Q]; module [Binary64] and
    [binary64_score_agrees] check this on IEEE doubles.  Integers
    ([credit_score], lengths) are [Z] and [nat]. *)

From Stdlib Require Import QArith Qround Lqa ZArith Lia List String Ascii Floats.
From stdpp Require Import base option list strings gmap pretty.

Local Open Scope string_scope.
Local Open Scope list_scope.
Local Open Scope Z_scope.
Set Warnings "-inexact-float".

(** ** Python prelude *)

Module Py.

(** Exceptions, all of them subclasses of Python's [Exception]; the payload
    is the message that [str(e)] returns. *)
Inductive exn : Type :=
  | ValueError (msg : string)
  | TimeoutError (msg : string)
  | RuntimeError (msg : string).

Definition str_exn (e : exn) : string :=
  match e with
  | ValueError m | TimeoutError m | RuntimeError m => m
  end.

Definition is_ValueError (e : exn) : bool :=
  match e with ValueError _ => true | _ => false end.

(** A Python computation either returns a value or raises. *)
Inductive result (A : Type) : Type :=
  | Ok (a : A)
  | Raise (e : exn).
Arguments Ok {A} a.
Arguments Raise {A} e.

#[global] Instance result_ret : MRet result := fun A a => Ok a.
#[global] Instance result_bind : MBind result := fun A B f m =>
  match m with
  | Ok a => f a
  | Raise e => Raise e
  end.

Definition is_Ok {A} (r : result A) : bool :=
  match r with Ok _ => true | Raise _ => false end.

(** [try: body  except <catches>: handler]; an exception that the clause does
    not catch propagates. *)
Definition try_except {A} (body : result A) (catches : exn -> bool)
    (handler : exn -> result A) : result A :=
  match body with
  | Ok a => Ok a
  | Raise e => if catches e then handler e else Raise e
  end.

(** Comparisons on floats, as booleans. *)
Definition Qltb (x y : Q) : bool :=
  match (x ?= y)%Q with Lt => true | _ => false end.
Definition Qgeb (x y : Q) : bool := Qle_bool y x.
Definition Qgtb (x y : Q) : bool := Qltb y x.

(** [min(a, b)] and [max(a, b)]: the first argument wins a tie. *)
Definition min2 (a b : Q) : Q := if Qltb b a then b else a.
Definition max2 (a b : Q) : Q := if Qgtb b a then b else a.

(** [max(xs)] and [min(xs)] of a non-empty list, scanning left to right. *)
Definition max_list (x : Q) (xs : list Q) : Q :=
  fold_left (fun m item => if Qgtb item m then item else m) xs x.
Definition min_list (x : Q) (xs : list Q) : Q :=
  fold_left (fun m item => if Qltb item m then item else m) xs x.

(** Rounding to the nearest integer, ties to the even neighbour. *)
Definition round_half_even (q : Q) : Z :=
  let f := Qfloor q in
  match (q - inject_Z f ?= 1 # 2)%Q with
  | Lt => f
  | Gt => f + 1
  | Eq => if Z.even f then f else f + 1
  end.

(** [round(x, ndigits)] for [ndigits >= 0]. *)
Definition round (x : Q) (ndigits : nat) : Q :=
  let scale := Pos.pow 10 (Pos.of_nat ndigits) in
  match ndigits with
  | O => inject_Z (round_half_even x)
  | S _ => round_half_even (x * inject_Z (Zpos scale)) # scale
  end.

(** Truthiness of a string and of a list. *)
Definition truthy_str (s : string) : bool :=
  match s with EmptyString => false | _ => true end.
Definition truthy_list {A} (l : list A) : bool :=
  match l with [] => false | _ => true end.

(** [d.get(key, default)] on a key that may be absent. *)
Definition get {A} (field : option A) (default : A) : A :=
  match field with Some v => v | None => default end.

End Py.
Import Py.

Declare Scope py_scope.
Delimit Scope py_scope with py.
Infix ">=?" := Qgeb (at level 70, no associativity) : py_scope.
Infix "<?" := Qltb (at level 70, no associativity) : py_scope.
Infix ">?" := Qgtb (at level 70, no associativity) : py_scope.

(** ** Dates: the part of [datetime] that the tenure factor uses *)

Module Datetime.

Record datetime : Type := mk_datetime {
  year : Z; month : Z; day : Z;
  hour : Z; minute : Z; second : Z; microsecond : Z
}.

Definition _is_leap (y : Z) : bool :=
  (y mod 4 =? 0) && (negb (y mod 100 =? 0) || (y mod 400 =? 0)).

Definition _days_in_month (y m : Z) : Z :=
  if (m =? 2) && _is_leap y then 29
  else nth (Z.to_nat m) [-1; 31; 28; 31; 30; 31; 30; 31; 31; 30; 31; 30; 31] 0.

Definition _days_before_year (y : Z) : Z :=
  let y := y - 1 in y * 365 + y / 4 - y / 100 + y / 400.

Definition _days_before_month (y m : Z) : Z :=
  nth (Z.to_nat m) [-1; 0; 31; 59; 90; 120; 151; 181; 212; 243; 273; 304; 334] 0
  + (if (2 <? m) && _is_leap y then 1 else 0).

Definition _ymd2ord (y m d : Z) : Z :=
  _days_before_year y + _days_before_month y m + d.

Definition toordinal (dt : datetime) : Z :=
  _ymd2ord (year dt) (month dt) (day dt).

(** A [timedelta] is kept as its total number of microseconds. *)
Definition microseconds_per_day : Z := 86400 * 1000000.

Definition to_microseconds (dt : datetime) : Z :=
  toordinal dt * microseconds_per_day
  + ((hour dt * 60 + minute dt) * 60 + second dt) * 1000000 + microsecond dt.

(** [a - b] on naive datetimes. *)
Definition sub (a b : datetime) : Z := to_microseconds a - to_microseconds b.

(** [delta.days]: normalised, so it is the floor. *)
Definition days (delta : Z) : Z := delta / microseconds_per_day.

(** *** [datetime.strptime(s, "%Y-%m-%d")]

    The format compiles to the regular expression
    [(\d\d\d\d)-(1[0-2]|0[1-9]|[1-9])-(3[0-1]|[1-2]\d|0[1-9]|[1-9]| [1-9])],
    matched at the start of the string with ordered alternatives; the match
    must then cover the whole string and the fields must form a calendar
    date with [1 <= year <= 9999].  Every failure is a [ValueError].
    Characters are the code points 0..255, among which [\d] is ['0'..'9']. *)

Definition is_digit (c : ascii) : bool :=
  let n := nat_of_ascii c in (48 <=? n)%nat && (n <=? 57)%nat.

Definition digit (c : ascii) : Z := Z.of_nat (nat_of_ascii c) - 48.

Definition in_range (lo hi : Z) (c : ascii) : bool :=
  is_digit c && (lo <=? digit c) && (digit c <=? hi).

Definition is_char (c d : ascii) : bool := (nat_of_ascii c =? nat_of_ascii d)%nat.

(** A matcher returns every way to match a prefix, best alternative first. *)
Definition matcher (A : Type) : Type := list ascii -> list (A * list ascii).

Definition two (p1 p2 : ascii -> bool) : matcher Z := fun s =>
  match s with
  | a :: b :: rest => if p1 a && p2 b then [(10 * digit a + digit b, rest)] else []
  | _ => []
  end.

Definition one (p : ascii -> bool) : matcher Z := fun s =>
  match s with
  | a :: rest => if p a then [(digit a, rest)] else []
  | _ => []
  end.

Definition space_one (p : ascii -> bool) : matcher Z := fun s =>
  match s with
  | a :: b :: rest => if is_char a " " && p b then [(digit b, rest)] else []
  | _ => []
  end.

Definition literal (c : ascii) : matcher unit := fun s =>
  match s with
  | a :: rest => if is_char a c then [(tt, rest)] else []
  | _ => []
  end.

Definition alt {A} (ms : list (matcher A)) : matcher A := fun s =>
  concat (map (fun m => m s) ms).

Definition re_Y : matcher Z := fun s =>
  match s with
  | a :: b :: c :: d :: rest =>
      if is_digit a && is_digit b && is_digit c && is_digit d
      then [(1000 * digit a + 100 * digit b + 10 * digit c + digit d, rest)]
      else []
  | _ => []
  end.

Definition re_m : matcher Z :=
  alt [two (in_range 1 1) (in_range 0 2);
       two (in_range 0 0) (in_range 1 9);
       one (in_range 1 9)].

Definition re_d : matcher Z :=
  alt [two (in_range 3 3) (in_range 0 1);
       two (in_range 1 2) is_digit;
       two (in_range 0 0) (in_range 1 9);
       one (in_range 1 9);
       space_one (in_range 1 9)].

Definition re_Y_m_d : matcher (Z * Z * Z) := fun s =>
  '(y, s) ← re_Y s;
  '(_, s) ← literal "-" s;
  '(m, s) ← re_m s;
  '(_, s) ← literal "-" s;
  '(d, s) ← re_d s;
  [((y, m, d), s)].

Definition strptime_Y_m_d (data_string : string) : result datetime :=
  match re_Y_m_d (list_ascii_of_string data_string) with
  | [] => Raise (ValueError "time data does not match format '%Y-%m-%d'")
  | ((y, m, d), rest) :: _ =>
      match rest with
      | _ :: _ => Raise (ValueError "unconverted data remains")
      | [] =>
          if (1 <=? y) && (y <=? 9999) && (1 <=? m) && (m <=? 12)
             && (1 <=? d) && (d <=? _days_in_month y m)
          then Ok (mk_datetime y m d 0 0 0 0)
          else Raise (ValueError "day is out of range for month")
      end
  end.

End Datetime.
Import Datetime.

(** ** Data model *)

(** A transaction is a [Dict[str, Any]] read with [.get]: a key may be
    absent; an amount that is present is a number. *)
Record Transaction : Type := mk_Transaction {
  tx_amount : option Q;
  tx_description : option string;
  tx_ts : option string
}.

(** One hit of the hybrid search, also a dictionary read with [.get]. *)
Record SearchResult : Type := mk_SearchResult {
  filename : option string;
  collection : option string;
  final_score : option Q;
  relevance_score : option Q;
  document : option string
}.

Record CustomerProfile : Type := mk_CustomerProfile {
  customer_id : string;
  income : Q;
  credit_score : Z;
  account_type : string;
  customer_since : string;
  risk_tier : string;
  recent_transactions : list Transaction;
  banking_products : list string;
  last_review_date : string
}.

(** [CustomerProfile(customer_id=cid)]: every other field at its default. *)
Definition default_CustomerProfile (cid : string) : CustomerProfile :=
  mk_CustomerProfile cid 0.0%Q 0 "standard" "" "medium" [] [] "".

Definition set_income (p : CustomerProfile) (v : Q) : CustomerProfile :=
  mk_CustomerProfile (customer_id p) v (credit_score p) (account_type p)
    (customer_since p) (risk_tier p) (recent_transactions p)
    (banking_products p) (last_review_date p).

Definition set_credit_score (p : CustomerProfile) (v : Z) : CustomerProfile :=
  mk_CustomerProfile (customer_id p) (income p) v (account_type p)
    (customer_since p) (risk_tier p) (recent_transactions p)
    (banking_products p) (last_review_date p).

Definition set_customer_since (p : CustomerProfile) (v : string) : CustomerProfile :=
  mk_CustomerProfile (customer_id p) (income p) (credit_score p) (account_type p)
    v (risk_tier p) (recent_transactions p)
    (banking_products p) (last_review_date p).

Definition set_recent_transactions (p : CustomerProfile) (v : list Transaction)
    : CustomerProfile :=
  mk_CustomerProfile (customer_id p) (income p) (credit_score p) (account_type p)
    (customer_since p) (risk_tier p) v
    (banking_products p) (last_review_date p).

(** ** Risk scoring engine *)

Section RiskScore.
Local Open Scope Q_scope.
Local Open Scope py_scope.

(** [amounts = [t.get("amount", 0) for t in transactions]] *)
Definition amounts (transactions : list Transaction) : list Q :=
  map (fun t => get (tx_amount t) 0) transactions.

(** [max(amounts) if amounts else 0] *)
Definition max_amount (amounts : list Q) : Q :=
  match amounts with
  | [] => 0
  | a :: rest => max_list a rest
  end.

(** [min(amounts)]; the list is never empty where the code takes it. *)
Definition min_amount (amounts : list Q) : Q :=
  match amounts with
  | [] => 0
  | a :: rest => min_list a rest
  end.

(** [years = (datetime.now() - since).days / 365.25] *)
Definition tenure_years (now since : datetime) : Q :=
  inject_Z (days (sub now since)) / 365.25.

(** [_calculate_enhanced_risk_score]; [now] is the value that
    [datetime.now()] returns during the call. *)
Definition _calculate_enhanced_risk_score (now : datetime)
    (customer_profile : CustomerProfile) (search_results : list SearchResult)
    : result Q :=
  let base_score := 0.5 in
  (* Income-based risk factor *)
  let base_score :=
    if income customer_profile >=? 100000 then base_score - 0.15
    else if income customer_profile >=? 75000 then base_score - 0.10
    else if income customer_profile >=? 50000 then base_score - 0.05
    else if income customer_profile <? 30000 then base_score + 0.10
    else base_score in
  (* Credit score-based factor *)
  let base_score :=
    if (credit_score customer_profile >=? 750)%Z then base_score - 0.15
    else if (credit_score customer_profile >=? 700)%Z then base_score - 0.08
    else if (credit_score customer_profile >=? 650)%Z then base_score + 0.05
    else if (credit_score customer_profile >? 0)%Z then base_score + 0.15
    else base_score in
  (* Customer tenure *)
  base_score ←
    (if truthy_str (customer_since customer_profile) then
       try_except
         (since ← strptime_Y_m_d (customer_since customer_profile);
          let years := tenure_years now since in
          mret (if years >=? 5 then base_score - 0.10
                else if years >=? 3 then base_score - 0.05
                else if years <? 1 then base_score + 0.08
                else base_score))
         is_ValueError
         (fun _ => mret base_score)
     else mret base_score);
  (* Product diversification *)
  let num_products := length (banking_products customer_profile) in
  let base_score :=
    if (4 <=? num_products)%nat then base_score - 0.08
    else if (2 <=? num_products)%nat then base_score - 0.03
    else if (num_products <=? 1)%nat then base_score + 0.05
    else base_score in
  (* Transaction pattern analysis *)
  let transactions := recent_transactions customer_profile in
  let base_score :=
    if truthy_list transactions then
      let max_amount := max_amount (amounts transactions) in
      if max_amount >? 10000 then base_score + 0.10
      else if max_amount >? 5000 then base_score + 0.03
      else base_score
    else base_score in
  mret (max2 0.0 (min2 1.0 (round base_score 3))).

(** [_determine_risk_tier] *)
Definition _determine_risk_tier (risk_score : Q) : string :=
  if risk_score <? 0.25 then "low"
  else if risk_score <? 0.50 then "medium-low"
  else if risk_score <? 0.65 then "medium"
  else if risk_score <? 0.80 then "high"
  else "critical".


End RiskScore.

(** ** Stages and external collaborators *)

(** A [ChatCompletionAgent]: its name and its prompt. *)
Record Agent : Type := mk_Agent {
  name : string;
  instructions : string
}.

(** [create_enhanced_agents]; of each prompt only the opening sentence is
    kept, the text is opaque to the program. *)
Definition create_enhanced_agents : list Agent :=
  let data_agent := mk_Agent "Enhanced_Data_Gatherer"
    "You are a Senior Banking Data Analyst specializing in customer financial profiling." in
  let fraud_agent := mk_Agent "Enhanced_Fraud_Analyst"
    "You are a Senior Fraud Detection Specialist with expertise in banking transaction analysis." in
  let loan_agent := mk_Agent "Enhanced_Loan_Analyst"
    "You are a Senior Credit Risk Analyst specializing in loan eligibility assessment." in
  let support_agent := mk_Agent "Enhanced_Support_Specialist"
    "You are a Senior Customer Experience Specialist focused on banking service optimization." in
  let risk_agent := mk_Agent "Enhanced_Risk_Analyst"
    "You are a Senior Enterprise Risk Analyst specializing in banking compliance and risk management." in
  let synthesis_agent := mk_Agent "Enhanced_Synthesis_Coordinator"
    "You are a Senior Banking Strategy Coordinator responsible for synthesizing multi-agent analyses into executive reports." in
  [data_agent; fraud_agent; loan_agent; support_agent; risk_agent; synthesis_agent].

(** What the run takes from outside the class: number formatting and set
    iteration of the language runtime, the clock and the id generator, the
    policy summary of [rag_utils], the vector store, the SQL connector, and
    from the semantic-kernel package what the orchestration does with its
    member list before the first member runs (it registers the members with
    the runtime, which may raise) and the chat-completion service behind
    the agents. *)
Record Env : Type := mk_Env {
  format_money : Q -> string;               (* f"{x:,.2f}" *)
  format_3f : Q -> string;                  (* f"{x:.3f}" *)
  iter_set : gset string -> list string;    (* iteration order of a set *)
  now : datetime;                           (* datetime.now() *)
  isoformat_now : string;                   (* datetime.now().isoformat() *)
  elapsed : Q;                              (* time.time() - start_time *)
  uuid4_hex : string;                       (* uuid.uuid4().hex *)
  semantic_kernel_context : string;         (* create_semantic_kernel_context(self.banking_policies) *)
  load_enhanced_documents : result unit;
  hybrid_search : string -> list string -> nat -> result (list SearchResult);
  connection_string : bool;
  fetch_income : string -> option Q;
  fetch_transactions : string -> list Transaction;
  prepare_members : list Agent -> result unit;
  generate : Agent -> string -> result string
}.

Definition nl : string := String (ascii_of_nat 10) "".

(** [sep.join(items)] *)
Definition join (sep : string) (items : list string) : string :=
  String.concat sep items.

(** [s[:n]] *)
Definition str_take (n : nat) (s : string) : string := substring 0 n s.

(** ** Report synthesizer *)

Section Synthesizer.
Local Open Scope Q_scope.
Local Open Scope py_scope.
Variable env : Env.

(** [_generate_enhanced_findings] *)
Definition _generate_enhanced_findings (customer_profile : CustomerProfile)
    (search_results : list SearchResult)
    (agent_contributions : gmap string string) : list string :=
  let findings :=
    ["Customer " +:+ customer_id customer_profile +:+ " analysis completed with "
       +:+ pretty (size agent_contributions) +:+ " agent contributions"] in
  (* Income findings *)
  let money := format_money env (income customer_profile) in
  let findings :=
    if income customer_profile >=? 75000 then
      findings ++ ["Customer qualifies for Tier A+ or A lending products (income: $" +:+ money +:+ ")"]
    else if income customer_profile >=? 50000 then
      findings ++ ["Customer qualifies for Tier B lending products (income: $" +:+ money +:+ ")"]
    else if income customer_profile >=? 30000 then
      findings ++ ["Customer qualifies for Tier C lending products (income: $" +:+ money +:+ ")"]
    else
      findings ++ ["Customer income ($" +:+ money +:+ ") may limit product eligibility"] in
  (* Credit score findings *)
  let score := pretty (credit_score customer_profile) in
  let findings :=
    if (credit_score customer_profile >=? 750)%Z then
      findings ++ ["Excellent credit score (" +:+ score +:+ ") - eligible for best rates (3.5% APR)"]
    else if (credit_score customer_profile >=? 700)%Z then
      findings ++ ["Good credit score (" +:+ score +:+ ") - eligible for competitive rates (4.5% APR)"]
    else if (credit_score customer_profile >=? 650)%Z then
      findings ++ ["Fair credit score (" +:+ score +:+ ") - standard rates apply (6.0% APR)"]
    else if (credit_score customer_profile >? 0)%Z then
      findings ++ ["Credit score (" +:+ score +:+ ") requires case-by-case assessment"]
    else findings in
  (* Product usage findings *)
  let products := banking_products customer_profile in
  let findings :=
    if (4 <=? length products)%nat then
      findings ++ ["High product engagement (" +:+ pretty (length products)
                   +:+ " products) indicates strong customer relationship"]
    else if (length products <=? 1)%nat then
      findings ++ ["Low product engagement (" +:+ pretty (length products)
                   +:+ " product) - cross-sell opportunity identified"]
    else findings in
  (* Transaction pattern findings *)
  let findings :=
    if truthy_list (recent_transactions customer_profile) then
      let amounts := amounts (recent_transactions customer_profile) in
      findings ++ ["Recent transaction activity: " +:+ pretty (length amounts)
                   +:+ " transactions, range $" +:+ format_money env (min_amount amounts)
                   +:+ "-$" +:+ format_money env (max_amount amounts)]
    else findings in
  (* Policy relevance from search results *)
  let findings :=
    if truthy_list search_results then
      let collections : gset string :=
        list_to_set (map (fun r => get (collection r) "") (take 5 search_results)) in
      findings ++ ["Relevant policy areas identified: " +:+ join ", " (iter_set env collections)]
    else findings in
  findings.

(** The recommendations built by the rules of
    [_generate_enhanced_recommendations], before its closing
    [if len(recommendations) < 2]. *)
Definition rule_based_recommendations (customer_profile : CustomerProfile)
    (risk_score : Q) : list string :=
  let recommendations := [] in
  (* Risk-based recommendations *)
  let risk_tier := _determine_risk_tier risk_score in
  let recommendations :=
    if String.eqb risk_tier "high" || String.eqb risk_tier "critical" then
      (recommendations ++ ["Implement enhanced monitoring with quarterly risk reviews"])
        ++ ["Consider requiring additional documentation for high-value transactions"]
    else if String.eqb risk_tier "medium" then
      recommendations ++ ["Maintain standard monitoring with semi-annual reviews"]
    else
      recommendations ++ ["Continue standard monitoring with annual reviews"] in
  (* Product recommendations based on profile *)
  let products : gset string := list_to_set (banking_products customer_profile) in
  let recommendations :=
    if bool_decide ("investment" ∉ products) && (income customer_profile >=? 50000) then
      recommendations ++ ["Recommend investment portfolio services based on income level"]
    else recommendations in
  let recommendations :=
    if bool_decide ("savings" ∉ products) then
      recommendations ++ ["Recommend high-yield savings account to improve financial health"]
    else recommendations in
  let recommendations :=
    if bool_decide ("credit_card" ∉ products) && (credit_score customer_profile >=? 650)%Z then
      recommendations ++ ["Eligible for rewards credit card based on credit profile"]
    else recommendations in
  let recommendations :=
    if bool_decide ("mortgage" ∉ products) && (income customer_profile >=? 75000)
       && (credit_score customer_profile >=? 700)%Z then
      recommendations ++ ["Pre-qualify for mortgage products at competitive rates"]
    else recommendations in
  (* Customer relationship recommendations *)
  let recommendations :=
    if String.eqb (account_type customer_profile) "basic"
       && (income customer_profile >=? 50000) then
      recommendations ++ ["Upgrade to premium account tier based on income qualification"]
    else recommendations in
  let recommendations :=
    if (length (banking_products customer_profile) <=? 1)%nat then
      recommendations ++ ["Initiate cross-sell engagement program to deepen customer relationship"]
    else recommendations in
  (* Credit improvement recommendations *)
  let recommendations :=
    if (credit_score customer_profile <? 700)%Z && (credit_score customer_profile >? 0)%Z then
      recommendations ++ ["Offer credit-building program to improve eligibility for premium products"]
    else recommendations in
  recommendations.

Definition general_advisory : string :=
  "Schedule periodic financial health review to identify emerging opportunities".

(** [_generate_enhanced_recommendations] *)
Definition _generate_enhanced_recommendations (customer_profile : CustomerProfile)
    (risk_score : Q) : list string :=
  let recommendations := rule_based_recommendations customer_profile risk_score in
  (* Ensure at least a general advisory recommendation *)
  let recommendations :=
    if (length recommendations <? 2)%nat then recommendations ++ [general_advisory]
    else recommendations in
  recommendations.

End Synthesizer.

(** ** Context assembler *)

Section ContextAssembler.
Variable env : Env.

(** One pass of the loop over [recent_transactions[:10]]. *)
Definition tx_line (tx : Transaction) : string :=
  "- $" +:+ format_money env (get (tx_amount tx) 0%Q) +:+ " - "
    +:+ get (tx_description tx) "N/A" +:+ " (" +:+ get (tx_ts tx) "N/A" +:+ ")" +:+ nl.

(** One pass of the loop over [enumerate(search_results[:6], 1)]. *)
Definition policy_block (policy_context : string) (entry : nat * SearchResult) : string :=
  let '(i, result) := entry in
  let policy_context :=
    policy_context +:+ nl +:+ "--- Policy Reference " +:+ pretty i
      +:+ " (Source: " +:+ get (filename result) "Unknown" +:+ ", " in
  let policy_context :=
    policy_context +:+ "Collection: " +:+ get (collection result) "Unknown" +:+ ", " in
  let policy_context :=
    policy_context +:+ "Relevance: "
      +:+ format_3f env (get (final_score result) (get (relevance_score result) 0%Q))
      +:+ ") ---" +:+ nl in
  policy_context +:+ str_take 500 (get (document result) "") +:+ nl.

(** [enumerate(l, start)] *)
Definition enumerate {A} (l : list A) (start : nat) : list (nat * A) :=
  zip (seq start (length l)) l.

(** What one pass of the policy loop appends to [policy_context]. *)
Definition policy_entry (entry : nat * SearchResult) : string :=
  policy_block "" entry.

Definition customer_context (customer_profile : CustomerProfile) : string :=
  nl +:+ "CUSTOMER PROFILE:" +:+ nl
  +:+ "- Customer ID: " +:+ customer_id customer_profile +:+ nl
  +:+ "- Annual Income: $" +:+ format_money env (income customer_profile) +:+ nl
  +:+ "- Credit Score: " +:+ pretty (credit_score customer_profile) +:+ nl
  +:+ "- Account Type: " +:+ account_type customer_profile +:+ nl
  +:+ "- Customer Since: " +:+ customer_since customer_profile +:+ nl
  +:+ "- Risk Tier: " +:+ risk_tier customer_profile +:+ nl
  +:+ "- Banking Products: "
  +:+ (if truthy_list (banking_products customer_profile)
       then join ", " (banking_products customer_profile) else "None") +:+ nl
  +:+ "- Last Review Date: " +:+ last_review_date customer_profile +:+ nl.

Definition tx_context (customer_profile : CustomerProfile) : string :=
  fold_left (fun tx_context tx => tx_context +:+ tx_line tx)
    (take 10 (recent_transactions customer_profile))
    (nl +:+ "RECENT TRANSACTIONS:" +:+ nl).

Definition policy_context (search_results : list SearchResult) : string :=
  fold_left policy_block
    (enumerate (take 6 search_results) 1)
    (nl +:+ "RELEVANT BANKING POLICIES:" +:+ nl).

Definition policy_summary : string :=
  (nl +:+ "POLICY FRAMEWORK SUMMARY:" +:+ nl) +:+ semantic_kernel_context env.

(** [_prepare_enhanced_context] *)
Definition _prepare_enhanced_context (customer_profile : CustomerProfile)
    (search_results : list SearchResult) (customer_query : string) : string :=
  nl +:+ "BANKING ANALYSIS REQUEST: " +:+ customer_query +:+ nl
  +:+ nl +:+ customer_context customer_profile +:+ nl
  +:+ tx_context customer_profile +:+ nl
  +:+ policy_context search_results +:+ nl
  +:+ policy_summary +:+ nl
  +:+ nl +:+ "ANALYSIS SCOPE:" +:+ nl
  +:+ "Provide a comprehensive analysis covering fraud detection, loan eligibility," +:+ nl
  +:+ "customer service optimization, enterprise risk assessment, and strategic recommendations." +:+ nl.

End ContextAssembler.

(** A search result cut down to the first 500 characters of its text. *)
Definition truncate_document (r : SearchResult) : SearchResult :=
  mk_SearchResult (filename r) (collection r) (final_score r) (relevance_score r)
    (Some (str_take 500 (get (document r) ""))).

(** The pieces of a string laid end to end. *)
Definition str_concat (pieces : list string) : string :=
  fold_right String.append "" pieces.

(** ** Customer profiles *)

Definition sample_tx (amount : Q) (description ts : string) : Transaction :=
  mk_Transaction (Some amount) (Some description) (Some ts).

Definition default_profiles : gmap string CustomerProfile :=
  list_to_map [
    ("12345", mk_CustomerProfile "12345" 75000.0%Q 780 "premium_plus" "2019-05-15" "low"
       [sample_tx 4500.00%Q "Salary Deposit" "2024-03-20";
        sample_tx 1500.00%Q "Mortgage Payment" "2024-03-15";
        sample_tx 300.00%Q "Investment Contribution" "2024-03-10";
        sample_tx 200.00%Q "Utility Bills" "2024-03-05"]
       ["checking"; "savings"; "mortgage"; "investment"; "credit_card"] "2024-01-10");
    ("67890", mk_CustomerProfile "67890" 45000.0%Q 680 "standard" "2021-08-20" "medium"
       [sample_tx 3200.00%Q "Salary Deposit" "2024-03-20";
        sample_tx 1200.00%Q "Rent Payment" "2024-03-14";
        sample_tx 400.00%Q "Car Payment" "2024-03-08";
        sample_tx 150.00%Q "Student Loan" "2024-03-02"]
       ["checking"; "savings"; "credit_card"] "2024-02-15");
    ("11111", mk_CustomerProfile "11111" 28000.0%Q 620 "basic" "2023-01-10" "high"
       [sample_tx 2300.00%Q "Salary Deposit" "2024-03-20";
        sample_tx 800.00%Q "Rent Payment" "2024-03-12";
        sample_tx 300.00%Q "Credit Card Payment" "2024-03-07";
        sample_tx 150.00%Q "Overdraft Fee" "2024-03-01"]
       ["checking"] "2024-03-01")
  ].

(** [_load_customer_profiles]: the sample profiles, with income and
    transactions overridden from SQL where the connector has them. *)
Definition _load_customer_profiles (env : Env) : gmap string CustomerProfile :=
  if connection_string env then
    fold_left
      (fun (default_profiles : gmap string CustomerProfile) cid =>
         let income := fetch_income env cid in
         let transactions := fetch_transactions env cid in
         match income with
         | Some income =>
             let profile := default (default_CustomerProfile cid) (default_profiles !! cid) in
             let profile := set_income profile income in
             let profile :=
               if truthy_list transactions
               then set_recent_transactions profile transactions else profile in
             <[cid := profile]> default_profiles
         | None => default_profiles
         end)
      ["12345"; "67890"; "11111"] default_profiles
  else default_profiles.

(** ** Interaction log *)

(** Modelled from the spec: the [SharedState] class of module [shared_state],
    which is not among the sources.  Section 4.7 gives it an append-only log:
    recording an outcome for a customer appends one Interaction Record, and
    section 3 lists the record's content: the customer id, the report id or
    the failure reason, the risk score if any, and a timestamp. *)
Module SharedState.

Inductive Outcome : Type :=
  | Completed (query report_id : string) (risk_score : Q)
  | Failed (reason : string).

Record InteractionRecord : Type := mk_InteractionRecord {
  ir_customer_id : string;
  ir_outcome : Outcome;
  ir_timestamp : string
}.

Definition update_interaction (log : list InteractionRecord) (customer_id : string)
    (query report_id : string) (risk_score : Q) (timestamp : string)
    : list InteractionRecord :=
  log ++ [mk_InteractionRecord customer_id (Completed query report_id risk_score) timestamp].

Definition record_failure (log : list InteractionRecord) (customer_id reason : string)
    (timestamp : string) : list InteractionRecord :=
  log ++ [mk_InteractionRecord customer_id (Failed reason) timestamp].

Definition is_failure (r : InteractionRecord) : bool :=
  match ir_outcome r with Failed _ => true | Completed _ _ _ => false end.

(** The failure records of one customer. *)
Definition failures_of (log : list InteractionRecord) (customer_id : string)
    : list InteractionRecord :=
  filter (fun r => is_failure r = true /\ ir_customer_id r = customer_id) log.

End SharedState.

(** ** Analysis report *)

Module Report.

Record ProcessingMetrics : Type := mk_ProcessingMetrics {
  total_processing_time_seconds : Q;
  agents_used : nat;
  policies_referenced : nat;
  search_results_analyzed : nat;
  metrics_risk_score : Q
}.

(** [EnhancedBankingReport]; [generated_at] keeps its class-level default and
    is left out. *)
Record EnhancedBankingReport : Type := mk_EnhancedBankingReport {
  report_id : string;
  customer_id : string;
  query : string;
  summary : string;
  key_findings : list string;
  risk_assessment : string;
  risk_score : Q;
  recommendations : list string;
  actions_taken : list string;
  policy_references : list string;
  agent_contributions : gmap string string;
  processing_metrics : ProcessingMetrics;
  generated_by : string
}.

End Report.

(** ** The analysis run *)

(** The mutable part of [self]. *)
Record System : Type := mk_System {
  customer_profiles : gmap string CustomerProfile;
  total_requests : Z;
  successful_analyses : Z;
  shared_state : list SharedState.InteractionRecord
}.

(** What one call of [run_enhanced_analysis] leaves behind: the report or
    the exception that reaches the caller, the new state of [self], and the
    names of the agents whose chat-completion service was invoked, in order. *)
Record Run : Type := mk_Run {
  returned : result Report.EnhancedBankingReport;
  system : System;
  generation_calls : list string
}.

(** The members of a [SequentialOrchestration] at work: they run one after
    the other in list order, each on the output of its predecessor, and
    [agent_response_callback] is called with every response; the source's
    callback stores the content under the agent's name. *)
Fixpoint sequential_orchestration (generate : Agent -> string -> result string)
    (members : list Agent) (input : string)
    (agent_contributions : gmap string string) (calls : list string)
    : result string * gmap string string * list string :=
  match members with
  | [] => (Ok input, agent_contributions, calls)
  | agent :: rest =>
      match generate agent input with
      | Raise e => (Raise e, agent_contributions, calls ++ [name agent])
      | Ok content =>
          sequential_orchestration generate rest content
            (<[name agent := content]> agent_contributions) (calls ++ [name agent])
      end
  end.

(** Stage [failing] is reached and its capability invocation raises [e]. *)
Inductive stage_fails (generate : Agent -> string -> result string)
    : list Agent -> string -> Agent -> exn -> Prop :=
  | stage_fails_here agent rest input e :
      generate agent input = Raise e ->
      stage_fails generate (agent :: rest) input agent e
  | stage_fails_later agent rest input content failing e :
      generate agent input = Ok content ->
      stage_fails generate rest content failing e ->
      stage_fails generate (agent :: rest) input failing e.

Definition orchestration_task (banking_context : string) : string :=
  nl +:+ "ENHANCED BANKING CUSTOMER ANALYSIS REQUEST" +:+ nl
  +:+ "============================================" +:+ nl
  +:+ nl +:+ banking_context +:+ nl
  +:+ nl +:+ "ANALYSIS INSTRUCTIONS:" +:+ nl
  +:+ "Each agent should perform their specialized analysis in sequence:" +:+ nl
  +:+ "1. Data Gatherer: Analyze the customer profile, calculate financial metrics, and identify applicable policies." +:+ nl
  +:+ "2. Fraud Analyst: Review transaction patterns for suspicious activity and assess fraud risk." +:+ nl
  +:+ "3. Loan Analyst: Evaluate loan eligibility, credit risk, and recommend suitable products." +:+ nl
  +:+ "4. Support Specialist: Assess customer service needs, retention risk, and engagement opportunities." +:+ nl
  +:+ "5. Risk Analyst: Perform enterprise risk assessment across all risk categories and verify compliance." +:+ nl
  +:+ "6. Synthesis Coordinator: Integrate all findings into an executive report with prioritized recommendations." +:+ nl
  +:+ nl
  +:+ "Provide specific, actionable insights based on the customer data and banking policies provided." +:+ nl.

Definition search_collections : list string :=
  ["fraud_detection"; "loan_policies"; "customer_support";
   "risk_assessment"; "transaction_monitoring"; "compliance"].

(** [{r.get("filename", "Unknown") for r in search_results if r.get("filename")}] *)
Definition policy_ref_set (search_results : list SearchResult) : gset string :=
  list_to_set
    (omap (fun r => match filename r with
                    | Some f => if truthy_str f then Some f else None
                    | None => None
                    end) search_results).

(** The [try] / [except Exception] block of [run_enhanced_analysis], for the
    stage list [agents]: run the orchestration, score, build the report and
    log the interaction; on any exception log one failure and re-raise. *)
Definition orchestrate (env : Env) (self : System) (agents : list Agent)
    (customer_id customer_query : string) (customer_profile : CustomerProfile)
    (search_results : list SearchResult) (banking_context : string) : Run :=
  let orchestration_task := orchestration_task banking_context in
  let '(final_output, agent_contributions, calls) :=
    (* sequential_orchestration.invoke(...), then orchestration_result.get() *)
    match prepare_members env agents with
    | Raise e => (Raise e, ∅, [])
    | Ok _ => sequential_orchestration (generate env) agents orchestration_task ∅ []
    end in
  let attempt : result (Report.EnhancedBankingReport * System) :=
    final_output ← final_output;
    risk_score ← _calculate_enhanced_risk_score (now env) customer_profile search_results;
    let risk_assessment := _determine_risk_tier risk_score in
    let policy_refs := iter_set env (policy_ref_set search_results) in
    let report :=
      Report.mk_EnhancedBankingReport
        ("enhanced_" +:+ str_take 8 (uuid4_hex env))
        customer_id
        customer_query
        final_output
        (_generate_enhanced_findings env customer_profile search_results agent_contributions)
        risk_assessment
        risk_score
        (_generate_enhanced_recommendations customer_profile risk_score)
        ["Enhanced multi-agent sequential analysis completed";
         "Comprehensive policy compliance verification performed";
         "Enterprise risk assessment conducted";
         "Analyzed " +:+ pretty (length search_results) +:+ " relevant policy documents";
         pretty (size agent_contributions) +:+ " specialized agents contributed to analysis"]
        policy_refs
        agent_contributions
        (Report.mk_ProcessingMetrics (round (elapsed env) 2) (length agents)
           (length policy_refs) (length search_results) risk_score)
        "EnhancedBankingSequentialOrchestration" in
    let self :=
      mk_System (customer_profiles self) (total_requests self)
        (successful_analyses self + 1) (shared_state self) in
    let self :=
      mk_System (customer_profiles self) (total_requests self) (successful_analyses self)
        (SharedState.update_interaction (shared_state self) customer_id
           customer_query (Report.report_id report) risk_score (isoformat_now env)) in
    mret (report, self) in
  match attempt with
  | Ok (report, self) => mk_Run (Ok report) self calls
  | Raise e =>
      (* except Exception as e: record_failure(customer_id, str(e)); raise *)
      let self :=
        mk_System (customer_profiles self) (total_requests self) (successful_analyses self)
          (SharedState.record_failure (shared_state self) customer_id (str_exn e)
             (isoformat_now env)) in
      mk_Run (Raise e) self calls
  end.

(** [run_enhanced_analysis] *)
Definition run_enhanced_analysis (env : Env) (self : System)
    (customer_id customer_query : string) : Run :=
  let self :=
    mk_System (customer_profiles self) (total_requests self + 1)
      (successful_analyses self) (shared_state self) in
  (* Ensure customer profiles are loaded *)
  let self :=
    if bool_decide (customer_profiles self = ∅) then
      mk_System (_load_customer_profiles env) (total_requests self)
        (successful_analyses self) (shared_state self)
    else self in
  match load_enhanced_documents env with
  | Raise e => mk_Run (Raise e) self []
  | Ok _ =>
      let customer_profile :=
        default (default_CustomerProfile customer_id) (customer_profiles self !! customer_id) in
      match hybrid_search env customer_query search_collections 4 with
      | Raise e => mk_Run (Raise e) self []
      | Ok search_results =>
          let banking_context :=
            _prepare_enhanced_context env customer_profile search_results customer_query in
          let agents := create_enhanced_agents in
          orchestrate env self agents customer_id customer_query customer_profile
            search_results banking_context
      end
  end.

(** ** The score, factor by factor

    The five blocks of [_calculate_enhanced_risk_score] as functions of the
    running [base_score], and the value of [base_score] when the [return]
    statement is reached ([score_unfold] below ties them to the code). *)

Section Factors.
Local Open Scope Q_scope.
Local Open Scope py_scope.

Definition after_income (base_score : Q) (p : CustomerProfile) : Q :=
  if income p >=? 100000 then base_score - 0.15
  else if income p >=? 75000 then base_score - 0.10
  else if income p >=? 50000 then base_score - 0.05
  else if income p <? 30000 then base_score + 0.10
  else base_score.

Definition after_credit (base_score : Q) (p : CustomerProfile) : Q :=
  if (credit_score p >=? 750)%Z then base_score - 0.15
  else if (credit_score p >=? 700)%Z then base_score - 0.08
  else if (credit_score p >=? 650)%Z then base_score + 0.05
  else if (credit_score p >? 0)%Z then base_score + 0.15
  else base_score.

Definition after_tenure (now : datetime) (base_score : Q) (p : CustomerProfile)
    : result Q :=
  if truthy_str (customer_since p) then
    try_except
      (since ← strptime_Y_m_d (customer_since p);
       let years := tenure_years now since in
       mret (if years >=? 5 then base_score - 0.10
             else if years >=? 3 then base_score - 0.05
             else if years <? 1 then base_score + 0.08
             else base_score))
      is_ValueError
      (fun _ => mret base_score)
  else mret base_score.

Definition after_products (base_score : Q) (p : CustomerProfile) : Q :=
  let num_products := length (banking_products p) in
  if (4 <=? num_products)%nat then base_score - 0.08
  else if (2 <=? num_products)%nat then base_score - 0.03
  else if (num_products <=? 1)%nat then base_score + 0.05
  else base_score.

Definition after_transactions (base_score : Q) (p : CustomerProfile) : Q :=
  let transactions := recent_transactions p in
  if truthy_list transactions then
    let max_amount := max_amount (amounts transactions) in
    if max_amount >? 10000 then base_score + 0.10
    else if max_amount >? 5000 then base_score + 0.03
    else base_score
  else base_score.

(** [base_score] just before [return]: the unclamped, unrounded sum, as the
    exact decimal sum.  The source accumulates it in binary64, where it can
    differ from the decimal sum by a few units in the last place; that sum
    is [binary64_accumulated_base_score] below. *)
Definition accumulated_base_score (now : datetime) (p : CustomerProfile) : result Q :=
  let base_score := 0.5 in
  let base_score := after_income base_score p in
  let base_score := after_credit base_score p in
  base_score ← after_tenure now base_score p;
  let base_score := after_products base_score p in
  let base_score := after_transactions base_score p in
  mret base_score.

End Factors.

(** The adjustment each factor contributes, in thousandths. *)

Section DecimalView.
Local Open Scope py_scope.

Definition income_adjustment (p : CustomerProfile) : Z :=
  if (income p >=? 100000)%Q then -150
  else if (income p >=? 75000)%Q then -100
  else if (income p >=? 50000)%Q then -50
  else if (income p <? 30000)%Q then 100
  else 0.

Definition credit_adjustment (p : CustomerProfile) : Z :=
  if (credit_score p >=? 750)%Z then -150
  else if (credit_score p >=? 700)%Z then -80
  else if (credit_score p >=? 650)%Z then 50
  else if (credit_score p >? 0)%Z then 150
  else 0.

Definition years_adjustment (years : Q) : Z :=
  if (years >=? 5)%Q then -100
  else if (years >=? 3)%Q then -50
  else if (years <? 1)%Q then 80
  else 0.

Definition tenure_adjustment (now : datetime) (p : CustomerProfile) : Z :=
  if truthy_str (customer_since p) then
    match strptime_Y_m_d (customer_since p) with
    | Ok since => years_adjustment (tenure_years now since)
    | Raise _ => 0
    end
  else 0.

Definition product_adjustment (p : CustomerProfile) : Z :=
  if (4 <=? length (banking_products p))%nat then -80
  else if (2 <=? length (banking_products p))%nat then -30
  else 50.

Definition transaction_adjustment (p : CustomerProfile) : Z :=
  if truthy_list (recent_transactions p) then
    if (max_amount (amounts (recent_transactions p)) >? 10000)%Q then 100
    else if (max_amount (amounts (recent_transactions p)) >? 5000)%Q then 30
    else 0
  else 0.

Definition score_thousandths (now : datetime) (p : CustomerProfile) : Z :=
  500 + income_adjustment p + credit_adjustment p + tenure_adjustment now p
  + product_adjustment p + transaction_adjustment p.

End DecimalView.

(** ** The score in binary64

    The same computation on IEEE doubles, to check the embedding of floats
    as rationals: the running [base_score] is a double, every [+=] and [-=]
    rounds, and [round(_, 3)] is CPython's (the exact value of the double is
    rounded half-even to three decimals and the nearest double is returned).
    The tests on the profile are tests on input values and stay exact; so is
    the test on [years], a quotient of a whole number of days by 365.25 that
    stays further than 0.0006 from 1, 3 and 5. *)

Module Binary64.

(** The exact value of a finite double. *)
Definition to_Q (x : float) : option Q :=
  match Prim2SF x with
  | S754_zero _ => Some 0%Q
  | S754_finite s m e =>
      let v := (inject_Z (Zpos m) * Qpower 2 e)%Q in
      Some (if s then (- v)%Q else v)
  | S754_infinity _ | S754_nan => None
  end.

(** The double of a (small) integer. *)
Definition of_Z (k : Z) : float :=
  match k with
  | Z0 => 0%float
  | Zpos _ => PrimFloat.of_uint63 (Uint63.of_Z k)
  | Zneg p => (- PrimFloat.of_uint63 (Uint63.of_Z (Zpos p)))%float
  end.

(** [round(x, ndigits)] on a double. *)
Definition round (x : float) (ndigits : nat) : float :=
  match to_Q x with
  | Some q =>
      let scale := Z.pow 10 (Z.of_nat ndigits) in
      (of_Z (round_half_even (q * inject_Z scale)) / of_Z scale)%float
  | None => x
  end.

Definition min2 (a b : float) : float := if (b <? a)%float then b else a.
Definition max2 (a b : float) : float := if (a <? b)%float then b else a.

Section Score.
Local Open Scope float_scope.

Definition after_income (base_score : float) (p : CustomerProfile) : float :=
  if (income p >=? 100000)%py%Q then base_score - 0.15
  else if (income p >=? 75000)%py%Q then base_score - 0.10
  else if (income p >=? 50000)%py%Q then base_score - 0.05
  else if (income p <? 30000)%py%Q then base_score + 0.10
  else base_score.

Definition after_credit (base_score : float) (p : CustomerProfile) : float :=
  if (credit_score p >=? 750)%Z then base_score - 0.15
  else if (credit_score p >=? 700)%Z then base_score - 0.08
  else if (credit_score p >=? 650)%Z then base_score + 0.05
  else if (credit_score p >? 0)%Z then base_score + 0.15
  else base_score.

Definition after_tenure (now : datetime) (base_score : float) (p : CustomerProfile)
    : result float :=
  if truthy_str (customer_since p) then
    try_except
      (since ← strptime_Y_m_d (customer_since p);
       let years := tenure_years now since in
       mret (if (years >=? 5)%py%Q then base_score - 0.10
             else if (years >=? 3)%py%Q then base_score - 0.05
             else if (years <? 1)%py%Q then base_score + 0.08
             else base_score))
      is_ValueError
      (fun _ => mret base_score)
  else mret base_score.

Definition after_products (base_score : float) (p : CustomerProfile) : float :=
  let num_products := length (banking_products p) in
  if (4 <=? num_products)%nat then base_score - 0.08
  else if (2 <=? num_products)%nat then base_score - 0.03
  else if (num_products <=? 1)%nat then base_score + 0.05
  else base_score.

Definition after_transactions (base_score : float) (p : CustomerProfile) : float :=
  let transactions := recent_transactions p in
  if truthy_list transactions then
    let max_amount := max_amount (amounts transactions) in
    if (max_amount >? 10000)%py%Q then base_score + 0.10
    else if (max_amount >? 5000)%py%Q then base_score + 0.03
    else base_score
  else base_score.

Definition _calculate_enhanced_risk_score (now : datetime) (p : CustomerProfile)
    : result float :=
  let base_score := 0.5 in
  let base_score := after_income base_score p in
  let base_score := after_credit base_score p in
  base_score ← after_tenure now base_score p;
  let base_score := after_products base_score p in
  let base_score := after_transactions base_score p in
  mret (max2 0.0 (min2 1.0 (round base_score 3))).

Definition _determine_risk_tier (risk_score : float) : string :=
  if risk_score <? 0.25 then "low"
  else if risk_score <? 0.50 then "medium-low"
  else if risk_score <? 0.65 then "medium"
  else if risk_score <? 0.80 then "high"
  else "critical".

End Score.

(** The double nearest to [k / 1000]. *)
Definition thousandths (k : Z) : float := (of_Z k / 1000)%float.

(** [base += a] or [base -= a] for an adjustment of [adj] thousandths. *)
Definition shift (base : float) (adj : Z) : float :=
  match adj with
  | Z0 => base
  | Zpos _ => (base + thousandths adj)%float
  | Zneg a => (base - thousandths (Zpos a))%float
  end.

Definition finish (base : float) : float :=
  max2 0.0%float (min2 1.0%float (round base 3)).

End Binary64.

(** [base_score] in binary64 when the [return] statement is reached: the
    unclamped, unrounded sum as the source computes it. *)
Definition binary64_accumulated_base_score (now : datetime) (p : CustomerProfile)
    : result float :=
  let base_score := 0.5%float in
  let base_score := Binary64.after_income base_score p in
  let base_score := Binary64.after_credit base_score p in
  base_score ← Binary64.after_tenure now base_score p;
  let base_score := Binary64.after_products base_score p in
  let base_score := Binary64.after_transactions base_score p in
  mret base_score.

(** ** Example data used to instantiate the theorems *)

Definition example_now : datetime := mk_datetime 2026 11 3 10 30 0 0.

(** Scenario A and scenario B of the specification: the sample customers
    12345 and 11111 without a tenure start date. *)
Definition scenario_A : CustomerProfile :=
  mk_CustomerProfile "12345" 75000.0%Q 780 "premium_plus" "" "low"
    [sample_tx 4500.00%Q "Salary Deposit" "2024-03-20";
     sample_tx 1500.00%Q "Mortgage Payment" "2024-03-15";
     sample_tx 300.00%Q "Investment Contribution" "2024-03-10";
     sample_tx 200.00%Q "Utility Bills" "2024-03-05"]
    ["checking"; "savings"; "mortgage"; "investment"; "credit_card"] "2024-01-10".

Definition scenario_B : CustomerProfile :=
  mk_CustomerProfile "11111" 28000.0%Q 620 "basic" "" "high"
    [sample_tx 2300.00%Q "Salary Deposit" "2024-03-20";
     sample_tx 800.00%Q "Rent Payment" "2024-03-12";
     sample_tx 300.00%Q "Credit Card Payment" "2024-03-07";
     sample_tx 150.00%Q "Overdraft Fee" "2024-03-01"]
    ["checking"] "2024-03-01".

(** The profile that [run_enhanced_analysis] analyses for a customer id:
    looked up in the loaded profiles, with the all-defaults profile for an
    unknown id. *)
Definition analysed_profile (env : Env) (self : System) (customer_id : string)
    : CustomerProfile :=
  let profiles :=
    if bool_decide (customer_profiles self = ∅) then _load_customer_profiles env
    else customer_profiles self in
  default (default_CustomerProfile customer_id) (profiles !! customer_id).

(** What the orchestration of the semantic-kernel package does with its
    member list inside [invoke], before the first member runs: every member
    is registered with the runtime under a type derived from its name, and
    the runtime raises [ValueError] for a type that is registered already.
    The message is the package's own and is not modelled. *)
Definition register_members (members : list Agent) : result unit :=
  if bool_decide (NoDup (map name members)) then Ok tt
  else Raise (ValueError "agent type already registered").

(** A chat-completion service that always answers, and one whose third
    stage fails; in the example environment the orchestration registers its
    members as the package does. *)
Definition example_generate (agent : Agent) (input : string) : result string :=
  Ok ("Analysis by " +:+ name agent).

Definition failing_generate (agent : Agent) (input : string) : result string :=
  if String.eqb (name agent) "Enhanced_Loan_Analyst"
  then Raise (RuntimeError "chat completion service unavailable")
  else Ok ("Analysis by " +:+ name agent).

Definition example_env (generate : Agent -> string -> result string) : Env :=
  mk_Env (fun _ => "0.00") (fun _ => "0.000") elements
    example_now "2026-11-03T10:30:00" 12.5%Q "3f2a9c1d7b6e4f08a1b2c3d4e5f60718"
    "No policy summary available."
    (Ok tt) (fun _ _ _ => Ok []) false (fun _ => None) (fun _ => [])
    register_members generate.

Definition example_system : System := mk_System ∅ 0 0 [].


(** A customer with every factor at its most favourable: income above
    100000, credit score above 750, more than five years of tenure at
    [example_now], four products and no transactions. *)
Definition most_favourable_profile : CustomerProfile :=
  mk_CustomerProfile "24680" 120000.0%Q 800 "premium_plus" "2019-05-15" "low"
    [] ["checking"; "savings"; "mortgage"; "investment"] "2024-01-10".

(** ** Further definitions used by the additional properties *)

Definition set_banking_products (p : CustomerProfile) (v : list string)
    : CustomerProfile :=
  mk_CustomerProfile (customer_id p) (income p) (credit_score p) (account_type p)
    (customer_since p) (risk_tier p) (recent_transactions p)
    v (last_review_date p).

(** The time-of-day fields of a [datetime] are within their ranges, as the
    constructor of Python's [datetime] enforces. *)
Definition valid_time (dt : datetime) : Prop :=
  0 <= hour dt < 24 /\ 0 <= minute dt < 60 /\ 0 <= second dt < 60
  /\ 0 <= microsecond dt < 1000000.

(** The same calendar day. *)
Definition same_date (a b : datetime) : Prop :=
  year a = year b /\ month a = month b /\ day a = day b.

(** The texts that the rules of [_generate_enhanced_recommendations] can
    emit, in the order of the code. *)
Definition rule_recommendations : list string :=
  ["Implement enhanced monitoring with quarterly risk reviews";
   "Consider requiring additional documentation for high-value transactions";
   "Maintain standard monitoring with semi-annual reviews";
   "Continue standard monitoring with annual reviews";
   "Recommend investment portfolio services based on income level";
   "Recommend high-yield savings account to improve financial health";
   "Eligible for rewards credit card based on credit profile";
   "Pre-qualify for mortgage products at competitive rates";
   "Upgrade to premium account tier based on income qualification";
   "Initiate cross-sell engagement program to deepen customer relationship";
   "Offer credit-building program to improve eligibility for premium products"].

(** The first block of [_generate_enhanced_recommendations]: the monitoring
    regime recommended for a risk tier. *)
Definition monitoring_recommendations (risk_tier : string) : list string :=
  if String.eqb risk_tier "high" || String.eqb risk_tier "critical" then
    ["Implement enhanced monitoring with quarterly risk reviews";
     "Consider requiring additional documentation for high-value transactions"]
  else if String.eqb risk_tier "medium" then
    ["Maintain standard monitoring with semi-annual reviews"]
  else
    ["Continue standard monitoring with annual reviews"].

(** ** Test scenarios *)

Definition test_scenarios : list (string * string) :=
  [("12345", "I need comprehensive financial planning including investments and retirement options");
   ("67890", "I want to apply for a home loan and need to understand my eligibility");
   ("11111", "I noticed some suspicious activity on my account and need help resolving it")].

(** The validation of one report in [run_test_scenarios]: whether its
    [status] is ["PASS"]. *)
Definition report_passes (report : Report.EnhancedBankingReport) : bool :=
  let agents_ok := bool_decide (size (Report.agent_contributions report) = 6%nat) in
  let findings_ok := (3 <=? length (Report.key_findings report))%nat in
  let recs_ok := (2 <=? length (Report.recommendations report))%nat in
  let score_ok :=
    Qle_bool 0.0 (Report.risk_score report) && Qle_bool (Report.risk_score report) 1.0 in
  let time_ok :=
    Py.Qltb (Report.total_processing_time_seconds (Report.processing_metrics report)) 300 in
  forallb id [agents_ok; findings_ok; recs_ok; score_ok; time_ok].

(** One pass of the scenario loop of [run_test_scenarios]; the clock, the id
    generator and the services at the [i]-th call are those of [env_at i].
    An exception of the run is caught and the loop goes on; [_display_report]
    only prints. *)
Definition run_scenario (env_at : nat -> Env)
    (state : list Report.EnhancedBankingReport * System)
    (entry : nat * (string * string))
    : list Report.EnhancedBankingReport * System :=
  let '(reports, self) := state in
  let '(i, scenario) := entry in
  let run := run_enhanced_analysis (env_at i) self (fst scenario) (snd scenario) in
  match returned run with
  | Ok report => (reports ++ [report], system run)
  | Raise _ => (reports, system run)
  end.

(** [run_test_scenarios]: the reports it returns, the [all_pass] it prints
    as ["ALL PASSED"] or ["SOME FAILED"], and the state it leaves. *)
Definition run_test_scenarios (env_at : nat -> Env) (self : System)
    : list Report.EnhancedBankingReport * bool * System :=
  let '(reports, self) :=
    fold_left (run_scenario env_at) (enumerate test_scenarios 1) ([], self) in
  let all_pass :=
    fold_left (fun all_pass report => if report_passes report then all_pass else false)
      reports true in
  (reports, all_pass, self).

(** ** Database connector *)

Module DataConnector.

(** The database as the connector reaches it through pyodbc: opening a
    connection, and the three statements the connector executes on an open
    connection together with what it makes of the rows; each may raise. *)
Record Database : Type := mk_Database {
  connect : string -> result unit;              (* pyodbc.connect(connection_string, timeout=30) *)
  select_1 : result unit;                       (* cursor.execute("SELECT 1") *)
  select_income : string -> result (option Q);  (* float(row[0]) if row else None *)
  select_transactions : string -> result (list Transaction)
                                                (* [dict(zip(columns, row)) for row in rows] *)
}.

(** Truthiness of [self.connection_string]. *)
Definition truthy (connection_string : option string) : bool :=
  match connection_string with
  | Some s => truthy_str s
  | None => false
  end.

(** [with self.get_db_connection() as conn: body] *)
Definition get_db_connection {A} (db : Database) (connection_string : string)
    (body : result A) : result A :=
  _ ← connect db connection_string; body.

(** [_test_connection]: the connection string that [self] holds afterwards. *)
Definition _test_connection (db : Database) (connection_string : string)
    : option string :=
  match get_db_connection db connection_string (select_1 db) with
  | Ok _ => Some connection_string
  | Raise _ => None
  end.

(** [__init__]: the connection string that [self] holds afterwards;
    [getenv] is [os.getenv("AZURE_SQL_CONNECTION_STRING")]. *)
Definition __init__ (db : Database) (connection_string getenv : option string)
    : option string :=
  let connection_string :=
    if truthy connection_string then connection_string else getenv in
  match connection_string with
  | Some s => if truthy_str s then _test_connection db s else connection_string
  | None => connection_string
  end.

(** [fetch_income] *)
Definition fetch_income (db : Database) (self : option string) (customer_id : string)
    : result (option Q) :=
  match self with
  | Some s =>
      if negb (truthy_str s) then Ok None
      else
        try_except (get_db_connection db s (select_income db customer_id))
          (fun _ => true) (fun _ => Ok None)
  | None => Ok None
  end.

(** [fetch_transactions] *)
Definition fetch_transactions (db : Database) (self : option string)
    (customer_id : string) : result (list Transaction) :=
  match self with
  | Some s =>
      if negb (truthy_str s) then Ok []
      else
        try_except (get_db_connection db s (select_transactions db customer_id))
          (fun _ => true) (fun _ => Ok [])
  | None => Ok []
  end.

End DataConnector.

(** ** Lemmas on the Python prelude *)

Section PyLemmas.
Local Open Scope Q_scope.

Lemma Qltb_lt (x y : Q) : Qltb x y = true <-> x < y.
Proof.
  unfold Qltb. rewrite Qlt_alt. destruct (x ?= y); split; congruence.
Qed.

Lemma Qltb_ge (x y : Q) : Qltb x y = false <-> y <= x.
Proof.
  rewrite <- not_true_iff_false, Qltb_lt. split.
  - apply Qnot_lt_le.
  - apply Qle_not_lt.
Qed.

Lemma Qgeb_ge (x y : Q) : Qgeb x y = true <-> y <= x.
Proof. unfold Qgeb. apply Qle_bool_iff. Qed.

Lemma Qgeb_lt (x y : Q) : Qgeb x y = false <-> x < y.
Proof.
  rewrite <- not_true_iff_false, Qgeb_ge. split.
  - apply Qnot_le_lt.
  - apply Qlt_not_le.
Qed.

Lemma Qgtb_gt (x y : Q) : Qgtb x y = true <-> y < x.
Proof. unfold Qgtb. apply Qltb_lt. Qed.

Lemma Qgtb_le (x y : Q) : Qgtb x y = false <-> x <= y.
Proof. unfold Qgtb. apply Qltb_ge. Qed.

(** Rounding an integer leaves it alone. *)
Lemma round_half_even_integer (q : Q) (k : Z) :
  q == inject_Z k -> round_half_even q = k.
Proof.
  intros Hq. unfold round_half_even.
  assert (Hf : Qfloor q = k) by (rewrite Hq; apply Qfloor_Z).
  rewrite Hf.
  assert (Hlt : q - inject_Z k < 1 # 2) by (rewrite Hq; lra).
  now rewrite (proj1 (Qlt_alt _ _) Hlt).
Qed.

(** [round(_, 3)] of a number of thousandths is that number, with
    denominator 1000. *)
Lemma round_thousandths (b : Q) (k : Z) :
  b == k # 1000 -> round b 3 = k # 1000.
Proof.
  intros Hb. unfold round. cbn [Pos.of_nat Pos.succ Pos.pow Pos.iter Pos.mul].
  change (Pos.pow 10 (Pos.of_nat 3)) with 1000%positive.
  f_equal. apply round_half_even_integer.
  rewrite Hb. unfold Qeq, Qmult, inject_Z. simpl. lia.
Qed.

(** The clamp [max(0.0, min(1.0, x))] is the identity strictly inside the
    unit interval. *)
Lemma clamp_inside (k : Z) :
  (0 < k < 1000)%Z -> max2 0.0 (min2 1.0 (k # 1000)) = k # 1000.
Proof.
  intros [Hlo Hhi].
  assert (H1 : Qltb (k # 1000) 1.0 = true).
  { apply Qltb_lt. unfold Qlt. simpl. lia. }
  unfold min2. rewrite H1.
  assert (H0 : Qgtb (k # 1000) 0.0 = true).
  { apply Qgtb_gt. unfold Qlt. simpl. lia. }
  unfold max2. now rewrite H0.
Qed.

End PyLemmas.

(** ** Proof automation *)

Ltac case_conditions :=
  repeat match goal with
         | |- context [if ?c then _ else _] => destruct c
         end.

Ltac run_monad :=
  unfold mbind, mret, result_bind, result_ret, try_except; cbv beta iota zeta.

(** Case analysis on the comparisons of the code, keeping what each
    outcome says about the numbers compared. *)
Ltac Qcases :=
  repeat match goal with
         | |- context [Qgeb ?x ?y] =>
             let E := fresh "E" in
             destruct (Qgeb x y) eqn:E; [apply Qgeb_ge in E | apply Qgeb_lt in E]
         | |- context [Qgtb ?x ?y] =>
             let E := fresh "E" in
             destruct (Qgtb x y) eqn:E; [apply Qgtb_gt in E | apply Qgtb_le in E]
         | |- context [Qltb ?x ?y] =>
             let E := fresh "E" in
             destruct (Qltb x y) eqn:E; [apply Qltb_lt in E | apply Qltb_ge in E]
         end.

Ltac Zcases :=
  rewrite ?Z.geb_leb, ?Z.gtb_ltb;
  repeat match goal with
         | |- context [(?x <=? ?y)%Z] => destruct (Z.leb_spec x y)
         | |- context [(?x <? ?y)%Z] => destruct (Z.ltb_spec x y)
         end.

(** ** Risk score: the code against its decimal view *)

Section ScoreLemmas.
Local Open Scope Q_scope.

(** [strptime] fails with [ValueError] only, which the tenure block catches. *)
Lemma strptime_raises_ValueError (s : string) (e : exn) :
  strptime_Y_m_d s = Raise e -> is_ValueError e = true.
Proof.
  unfold strptime_Y_m_d.
  destruct (re_Y_m_d (list_ascii_of_string s)) as [|[[[y m] d] rest] ?].
  - intros [= <-]. reflexivity.
  - destruct rest.
    + destruct (_ && _); [discriminate|]. intros [= <-]. reflexivity.
    + intros [= <-]. reflexivity.
Qed.

(** The score is the accumulated sum, rounded, then clamped. *)
Lemma score_unfold (now : datetime) (p : CustomerProfile) (sr : list SearchResult) :
  _calculate_enhanced_risk_score now p sr =
  (b ← accumulated_base_score now p; mret (max2 0.0 (min2 1.0 (round b 3)))).
Proof.
  unfold _calculate_enhanced_risk_score, accumulated_base_score, after_tenure,
    after_income, after_credit, after_products, after_transactions.
  destruct (truthy_str (customer_since p));
    [destruct (strptime_Y_m_d (customer_since p)) as [since|e]|];
    run_monad; try destruct (is_ValueError e); reflexivity.
Qed.

Lemma after_income_spec (b : Q) (p : CustomerProfile) :
  after_income b p == b + (income_adjustment p # 1000).
Proof.
  unfold after_income, income_adjustment. case_conditions; lra.
Qed.

Lemma after_credit_spec (b : Q) (p : CustomerProfile) :
  after_credit b p == b + (credit_adjustment p # 1000).
Proof.
  unfold after_credit, credit_adjustment. case_conditions; lra.
Qed.

Lemma after_tenure_spec (now : datetime) (b : Q) (p : CustomerProfile) :
  exists b', after_tenure now b p = Ok b'
             /\ b' == b + (tenure_adjustment now p # 1000).
Proof.
  unfold after_tenure, tenure_adjustment, years_adjustment.
  destruct (truthy_str (customer_since p)).
  - destruct (strptime_Y_m_d (customer_since p)) as [since|e] eqn:Hparse.
    + cbn. eexists; split; [reflexivity|]. case_conditions; lra.
    + apply strptime_raises_ValueError in Hparse. cbn. rewrite Hparse.
      eexists; split; [reflexivity|]. lra.
  - eexists; split; [reflexivity|]. lra.
Qed.

Lemma after_products_spec (b : Q) (p : CustomerProfile) :
  after_products b p == b + (product_adjustment p # 1000).
Proof.
  unfold after_products, product_adjustment. cbv zeta.
  destruct (Nat.leb_spec 4 (length (banking_products p)));
    destruct (Nat.leb_spec 2 (length (banking_products p)));
    destruct (Nat.leb_spec (length (banking_products p)) 1);
    try lia; lra.
Qed.

Lemma after_transactions_spec (b : Q) (p : CustomerProfile) :
  after_transactions b p == b + (transaction_adjustment p # 1000).
Proof.
  unfold after_transactions, transaction_adjustment. cbv zeta.
  case_conditions; lra.
Qed.

Lemma thousandths_sum (a b c d e : Z) :
  0.5 + (a # 1000) + (b # 1000) + (c # 1000) + (d # 1000) + (e # 1000)
  == (500 + a + b + c + d + e) # 1000.
Proof. unfold Qeq, Qplus. simpl. lia. Qed.

(** The accumulated sum is the decimal view, exactly. *)
Lemma accumulated_base_score_spec (now : datetime) (p : CustomerProfile) :
  exists b, accumulated_base_score now p = Ok b
            /\ b == score_thousandths now p # 1000.
Proof.
  unfold accumulated_base_score. cbv zeta.
  destruct (after_tenure_spec now (after_credit (after_income 0.5 p) p) p)
    as (b3 & -> & H3).
  eexists; split; [reflexivity|].
  rewrite after_transactions_spec, after_products_spec, H3,
    after_credit_spec, after_income_spec.
  apply thousandths_sum.
Qed.

Lemma income_adjustment_range (p : CustomerProfile) :
  (-150 <= income_adjustment p <= 100)%Z.
Proof. unfold income_adjustment. case_conditions; lia. Qed.

Lemma credit_adjustment_range (p : CustomerProfile) :
  (-150 <= credit_adjustment p <= 150)%Z.
Proof. unfold credit_adjustment. case_conditions; lia. Qed.

Lemma tenure_adjustment_range (now : datetime) (p : CustomerProfile) :
  (-100 <= tenure_adjustment now p <= 80)%Z.
Proof.
  unfold tenure_adjustment, years_adjustment.
  destruct (truthy_str _); [destruct (strptime_Y_m_d _)|]; case_conditions; lia.
Qed.

Lemma product_adjustment_range (p : CustomerProfile) :
  (-80 <= product_adjustment p <= 50)%Z.
Proof. unfold product_adjustment. case_conditions; lia. Qed.

Lemma transaction_adjustment_range (p : CustomerProfile) :
  (0 <= transaction_adjustment p <= 100)%Z.
Proof. unfold transaction_adjustment. case_conditions; lia. Qed.

Lemma score_thousandths_range (now : datetime) (p : CustomerProfile) :
  (20 <= score_thousandths now p <= 980)%Z.
Proof.
  unfold score_thousandths.
  pose proof (income_adjustment_range p).
  pose proof (credit_adjustment_range p).
  pose proof (tenure_adjustment_range now p).
  pose proof (product_adjustment_range p).
  pose proof (transaction_adjustment_range p).
  lia.
Qed.

(** The code returns the decimal view: neither the rounding nor the clamp
    moves it. *)
Lemma score_spec (now : datetime) (p : CustomerProfile) (sr : list SearchResult) :
  _calculate_enhanced_risk_score now p sr = Ok (score_thousandths now p # 1000).
Proof.
  rewrite score_unfold.
  destruct (accumulated_base_score_spec now p) as (b & -> & Hb).
  pose proof (score_thousandths_range now p).
  run_monad. rewrite (round_thousandths _ _ Hb), clamp_inside by lia.
  reflexivity.
Qed.

Lemma thousandths_le (a b : Z) : a # 1000 <= b # 1000 <-> (a <= b)%Z.
Proof. unfold Qle. simpl. lia. Qed.

Lemma thousandths_shift (a b d : Z) :
  (a = b + d)%Z -> a # 1000 == (b # 1000) + (d # 1000).
Proof. intros ->. unfold Qeq, Qplus. simpl. lia. Qed.

(** A higher income never has a higher adjustment. *)
Lemma income_adjustment_antitone (p : CustomerProfile) (i i' : Q) :
  i <= i' ->
  (income_adjustment (set_income p i') <= income_adjustment (set_income p i))%Z.
Proof.
  intros Hle. unfold income_adjustment, set_income. cbn [income].
  Qcases; try lia; exfalso; lra.
Qed.

(** A higher credit score never has a higher adjustment, unless the lower
    one is the "unknown" value and the higher one is below 700. *)
Lemma credit_adjustment_antitone (p : CustomerProfile) (c c' : Z) :
  (c <= c')%Z -> (0 < c \/ 700 <= c')%Z ->
  (credit_adjustment (set_credit_score p c') <= credit_adjustment (set_credit_score p c))%Z.
Proof.
  intros Hle Hknown. unfold credit_adjustment, set_credit_score. cbn [credit_score].
  Zcases; lia.
Qed.

Lemma score_thousandths_set_income (now : datetime) (p : CustomerProfile) (i : Q) :
  score_thousandths now (set_income p i)
  = (score_thousandths now p - income_adjustment p + income_adjustment (set_income p i))%Z.
Proof.
  unfold score_thousandths.
  change (credit_adjustment (set_income p i)) with (credit_adjustment p).
  change (tenure_adjustment now (set_income p i)) with (tenure_adjustment now p).
  change (product_adjustment (set_income p i)) with (product_adjustment p).
  change (transaction_adjustment (set_income p i)) with (transaction_adjustment p).
  lia.
Qed.

Lemma score_thousandths_set_credit_score (now : datetime) (p : CustomerProfile) (c : Z) :
  score_thousandths now (set_credit_score p c)
  = (score_thousandths now p - credit_adjustment p
     + credit_adjustment (set_credit_score p c))%Z.
Proof.
  unfold score_thousandths.
  change (income_adjustment (set_credit_score p c)) with (income_adjustment p).
  change (tenure_adjustment now (set_credit_score p c)) with (tenure_adjustment now p).
  change (product_adjustment (set_credit_score p c)) with (product_adjustment p).
  change (transaction_adjustment (set_credit_score p c)) with (transaction_adjustment p).
  lia.
Qed.

Lemma score_thousandths_set_customer_since (now : datetime) (p : CustomerProfile)
    (d : string) :
  score_thousandths now (set_customer_since p d)
  = (score_thousandths now p - tenure_adjustment now p
     + tenure_adjustment now (set_customer_since p d))%Z.
Proof.
  unfold score_thousandths.
  change (income_adjustment (set_customer_since p d)) with (income_adjustment p).
  change (credit_adjustment (set_customer_since p d)) with (credit_adjustment p).
  change (product_adjustment (set_customer_since p d)) with (product_adjustment p).
  change (transaction_adjustment (set_customer_since p d)) with (transaction_adjustment p).
  lia.
Qed.

Lemma days_over_year_ge (d k n : Z) :
  (n = 36525 * k / 100 + 1)%Z -> (0 <= k)%Z -> ((36525 * k) mod 100 <> 0)%Z ->
  inject_Z k <= inject_Z d / 365.25 <-> (n <= d)%Z.
Proof.
  intros Hn Hk Hmod.
  assert (Hq : inject_Z d / 365.25 == (100 * d # 36525)).
  { unfold Qeq, Qdiv, Qmult, Qinv, inject_Z. simpl. lia. }
  rewrite Hq. unfold Qle, inject_Z. simpl.
  pose proof (Z.div_mod (36525 * k) 100 ltac:(lia)).
  pose proof (Z.mod_pos_bound (36525 * k) 100 ltac:(lia)). lia.
Qed.

(** In whole days: [years >= 5] from 1827 days on, [years >= 3] from 1096
    days on, [years < 1] up to 365 days. *)
Lemma tenure_years_in_days (now since : datetime) :
  (5 <= tenure_years now since <-> (1827 <= days (sub now since))%Z)
  /\ (3 <= tenure_years now since <-> (1096 <= days (sub now since))%Z)
  /\ (tenure_years now since < 1 <-> (days (sub now since) <= 365)%Z).
Proof.
  unfold tenure_years. repeat split.
  - apply (days_over_year_ge _ 5 1827); [reflexivity | lia | discriminate].
  - apply (days_over_year_ge _ 5 1827); [reflexivity | lia | discriminate].
  - apply (days_over_year_ge _ 3 1096); [reflexivity | lia | discriminate].
  - apply (days_over_year_ge _ 3 1096); [reflexivity | lia | discriminate].
  - intros H. apply Z.lt_succ_r, Z.nle_gt. intros Hge.
    apply (days_over_year_ge _ 1 366) in Hge; [|reflexivity | lia | discriminate].
    apply (Qlt_not_le _ _ H). exact Hge.
  - intros H. apply Qnot_le_lt. intros Hge.
    apply (days_over_year_ge _ 1 366) in Hge; [|reflexivity | lia | discriminate].
    lia.
Qed.

Lemma tenure_adjustment_parsed (now since : datetime) (p : CustomerProfile) :
  strptime_Y_m_d (customer_since p) = Ok since ->
  tenure_adjustment now p = years_adjustment (tenure_years now since).
Proof.
  intros Hparse. unfold tenure_adjustment. rewrite Hparse.
  destruct (customer_since p); [discriminate Hparse | reflexivity].
Qed.

Lemma tenure_adjustment_unparsed (now : datetime) (p : CustomerProfile) :
  customer_since p = "" \/ (exists e, strptime_Y_m_d (customer_since p) = Raise e) ->
  tenure_adjustment now p = 0%Z.
Proof.
  unfold tenure_adjustment. intros [-> | [e ->]]; [reflexivity|].
  destruct (truthy_str _); reflexivity.
Qed.

End ScoreLemmas.

(** ** The binary64 score agrees with the decimal view *)

Section Binary64Lemmas.

Lemma b64_after_income (b : float) (p : CustomerProfile) :
  Binary64.after_income b p = Binary64.shift b (income_adjustment p).
Proof.
  unfold Binary64.after_income, income_adjustment. case_conditions; reflexivity.
Qed.

Lemma b64_after_credit (b : float) (p : CustomerProfile) :
  Binary64.after_credit b p = Binary64.shift b (credit_adjustment p).
Proof.
  unfold Binary64.after_credit, credit_adjustment. case_conditions; reflexivity.
Qed.

Lemma b64_after_tenure (now : datetime) (b : float) (p : CustomerProfile) :
  Binary64.after_tenure now b p = Ok (Binary64.shift b (tenure_adjustment now p)).
Proof.
  unfold Binary64.after_tenure, tenure_adjustment, years_adjustment.
  destruct (truthy_str (customer_since p)); [|reflexivity].
  destruct (strptime_Y_m_d (customer_since p)) as [since|e] eqn:Hparse.
  - run_monad. case_conditions; reflexivity.
  - apply strptime_raises_ValueError in Hparse. run_monad. now rewrite Hparse.
Qed.

Lemma b64_after_products (b : float) (p : CustomerProfile) :
  Binary64.after_products b p = Binary64.shift b (product_adjustment p).
Proof.
  unfold Binary64.after_products, product_adjustment. cbv zeta.
  destruct (Nat.leb_spec 4 (length (banking_products p)));
    destruct (Nat.leb_spec 2 (length (banking_products p)));
    destruct (Nat.leb_spec (length (banking_products p)) 1);
    try lia; reflexivity.
Qed.

Lemma b64_after_transactions (b : float) (p : CustomerProfile) :
  Binary64.after_transactions b p = Binary64.shift b (transaction_adjustment p).
Proof.
  unfold Binary64.after_transactions, transaction_adjustment. cbv zeta.
  case_conditions; reflexivity.
Qed.

Lemma income_adjustment_values (p : CustomerProfile) :
  In (income_adjustment p) [-150; -100; -50; 100; 0].
Proof. unfold income_adjustment. case_conditions; simpl; tauto. Qed.

Lemma credit_adjustment_values (p : CustomerProfile) :
  In (credit_adjustment p) [-150; -80; 50; 150; 0].
Proof. unfold credit_adjustment. case_conditions; simpl; tauto. Qed.

Lemma tenure_adjustment_values (now : datetime) (p : CustomerProfile) :
  In (tenure_adjustment now p) [-100; -50; 80; 0].
Proof.
  unfold tenure_adjustment, years_adjustment.
  destruct (truthy_str _); [destruct (strptime_Y_m_d _)|];
    case_conditions; simpl; tauto.
Qed.

Lemma product_adjustment_values (p : CustomerProfile) :
  In (product_adjustment p) [-80; -30; 50].
Proof. unfold product_adjustment. case_conditions; simpl; tauto. Qed.

Lemma transaction_adjustment_values (p : CustomerProfile) :
  In (transaction_adjustment p) [100; 30; 0].
Proof. unfold transaction_adjustment. case_conditions; simpl; tauto. Qed.

Ltac each_value :=
  repeat match goal with
         | H : In _ (_ :: _) |- _ => destruct H as [<- | H]
         | H : In _ [] |- _ => destruct H
         end.

(** Every one of the 900 combinations of adjustments, accumulated in
    binary64 in the order of the code, then rounded and clamped, is the
    double nearest to the decimal sum. *)
Lemma b64_all_combinations (ia ca ta pa xa : Z) :
  In ia [-150; -100; -50; 100; 0] -> In ca [-150; -80; 50; 150; 0] ->
  In ta [-100; -50; 80; 0] -> In pa [-80; -30; 50] -> In xa [100; 30; 0] ->
  let base_score :=
    Binary64.shift (Binary64.shift (Binary64.shift (Binary64.shift
      (Binary64.shift 0.5%float ia) ca) ta) pa) xa in
  Binary64.round base_score 3 = Binary64.thousandths (500 + ia + ca + ta + pa + xa)
  /\ Binary64.finish base_score = Binary64.round base_score 3.
Proof.
  intros Hi Hc Ht Hp Hx. each_value; vm_compute; split; reflexivity.
Qed.

(** Every one of the 900 rounded sums lies between the doubles 0.02 and
    0.98. *)
Lemma b64_rounded_sums_inside (ia ca ta pa xa : Z) :
  In ia [-150; -100; -50; 100; 0] -> In ca [-150; -80; 50; 150; 0] ->
  In ta [-100; -50; 80; 0] -> In pa [-80; -30; 50] -> In xa [100; 30; 0] ->
  let base_score :=
    Binary64.shift (Binary64.shift (Binary64.shift (Binary64.shift
      (Binary64.shift 0.5%float ia) ca) ta) pa) xa in
  (0.02 <=? Binary64.round base_score 3)%float = true
  /\ (Binary64.round base_score 3 <=? 0.98)%float = true.
Proof.
  intros Hi Hc Ht Hp Hx. each_value; vm_compute; split; reflexivity.
Qed.

(** The rounding matters: accumulated in binary64, the lowest sum falls
    just short of 0.02, scenario A's sum just short of 0.17, and a sum that
    is 0.25 in decimals just short of the tier bound 0.25. *)
Lemma b64_sums_fall_short :
  (0.5 - 0.15 - 0.15 - 0.10 - 0.08 <? 0.02)%float = true
  /\ (0.5 - 0.10 - 0.15 - 0.08 <? 0.17)%float = true
  /\ (0.5 - 0.15 - 0.15 + 0.08 - 0.03 <? 0.25)%float = true.
Proof. repeat split; vm_compute; reflexivity. Qed.

(** On every score the code can return, the binary64 comparisons pick the
    tier that the exact comparisons pick. *)
Lemma b64_tier_agrees (k : Z) :
  0 <= k <= 1000 ->
  Binary64._determine_risk_tier (Binary64.thousandths k)
  = _determine_risk_tier (k # 1000).
Proof.
  intros Hk.
  assert (Hall : forallb
            (fun n => String.eqb
               (Binary64._determine_risk_tier (Binary64.thousandths (Z.of_nat n)))
               (_determine_risk_tier (Z.of_nat n # 1000)))
            (seq 0 1001) = true) by (vm_compute; reflexivity).
  rewrite forallb_forall in Hall.
  specialize (Hall (Z.to_nat k)). rewrite Z2Nat.id in Hall by lia.
  apply String.eqb_eq, Hall, in_seq. lia.
Qed.

(** The code run on doubles returns the double nearest to the score of the
    decimal view, and gives it the tier of that score. *)
Theorem binary64_score_agrees (now : datetime) (p : CustomerProfile)
    (sr : list SearchResult) :
  exists k : Z,
    _calculate_enhanced_risk_score now p sr = Ok (k # 1000)
    /\ Binary64._calculate_enhanced_risk_score now p = Ok (Binary64.thousandths k)
    /\ Binary64._determine_risk_tier (Binary64.thousandths k)
       = _determine_risk_tier (k # 1000).
Proof.
  exists (score_thousandths now p).
  pose proof (score_thousandths_range now p) as Hk.
  split; [apply score_spec|]. split; [|apply b64_tier_agrees; lia].
  unfold Binary64._calculate_enhanced_risk_score. cbv zeta.
  rewrite b64_after_tenure. run_monad.
  rewrite b64_after_transactions, b64_after_products, b64_after_credit,
    b64_after_income.
  pose proof (b64_all_combinations _ _ _ _ _
                (income_adjustment_values p) (credit_adjustment_values p)
                (tenure_adjustment_values now p) (product_adjustment_values p)
                (transaction_adjustment_values p)) as H.
  cbv zeta in H. destruct H as [Hround Hfinish].
  f_equal. exact (eq_trans Hfinish Hround).
Qed.

End Binary64Lemmas.

(** ** Risk scoring engine: properties *)

Section RiskScoreClaims.
Local Open Scope Q_scope.

(** C1.  For every customer profile, search-result list and reference time
    [now], [_calculate_enhanced_risk_score] returns a score (it does not
    raise); the score lies in [0.0, 1.0]; it is a whole number of
    thousandths, so rounding it to 3 decimal places gives it back; and it is
    the same whatever else the call is given: the same profile and the same
    reference time always produce the same score. *)
Theorem risk_score_in_unit_interval_rounded_deterministic :
  forall (now : datetime) (p : CustomerProfile) (sr : list SearchResult),
  exists s : Q,
    _calculate_enhanced_risk_score now p sr = Ok s
    /\ 0.0 <= s <= 1.0
    /\ (exists k : Z, s = k # 1000)
    /\ round s 3 = s
    /\ forall sr' : list SearchResult, _calculate_enhanced_risk_score now p sr' = Ok s.
Proof.
  intros now p sr.
  pose proof (score_thousandths_range now p) as Hk.
  exists (score_thousandths now p # 1000). repeat split.
  - apply score_spec.
  - unfold Qle. simpl. lia.
  - unfold Qle. simpl. lia.
  - eauto.
  - apply round_thousandths. reflexivity.
  - intros sr'. apply score_spec.
Qed.

(** C10, as amended.  For every profile and reference time the sum
    accumulated in [base_score] (0.5 plus the five adjustments, in binary64
    as the source computes it), once rounded to three decimals, lies
    between 0.02 and 0.98: it is the double nearest to [k / 1000] for some
    [20 <= k <= 980].  So the clamp [max(0.0, min(1.0, _))] returns that
    rounding unchanged, and that rounding is the score; in exact decimal
    arithmetic the score is [k / 1000] itself. *)
Theorem clamp_never_changes_the_rounded_sum :
  forall (now : datetime) (p : CustomerProfile),
  exists (b : float) (k : Z),
    binary64_accumulated_base_score now p = Ok b
    /\ Binary64.round b 3 = Binary64.thousandths k
    /\ (20 <= k <= 980)%Z
    /\ (0.02 <=? Binary64.round b 3)%float = true
    /\ (Binary64.round b 3 <=? 0.98)%float = true
    /\ Binary64.max2 0.0%float (Binary64.min2 1.0%float (Binary64.round b 3))
       = Binary64.round b 3
    /\ Binary64._calculate_enhanced_risk_score now p = Ok (Binary64.round b 3)
    /\ forall sr : list SearchResult,
         _calculate_enhanced_risk_score now p sr = Ok (k # 1000).
Proof.
  intros now p.
  pose proof (b64_all_combinations _ _ _ _ _
                (income_adjustment_values p) (credit_adjustment_values p)
                (tenure_adjustment_values now p) (product_adjustment_values p)
                (transaction_adjustment_values p)) as Hsum.
  pose proof (b64_rounded_sums_inside _ _ _ _ _
                (income_adjustment_values p) (credit_adjustment_values p)
                (tenure_adjustment_values now p) (product_adjustment_values p)
                (transaction_adjustment_values p)) as Hin.
  cbv zeta in Hsum, Hin. destruct Hsum as [Hround Hfinish]. destruct Hin as [Hlow Hhigh].
  eexists _, (score_thousandths now p).
  split; [|split; [exact Hround|split; [apply score_thousandths_range|
    split; [exact Hlow|split; [exact Hhigh|split; [exact Hfinish|split]]]]]].
  - unfold binary64_accumulated_base_score. cbv zeta.
    rewrite b64_after_tenure. run_monad.
    rewrite b64_after_transactions, b64_after_products, b64_after_credit,
      b64_after_income. reflexivity.
  - unfold Binary64._calculate_enhanced_risk_score. cbv zeta.
    rewrite b64_after_tenure. run_monad.
    rewrite b64_after_transactions, b64_after_products, b64_after_credit,
      b64_after_income. f_equal. exact Hfinish.
  - intros sr. apply score_spec.
Qed.

(** C10 as stated fails for the unrounded sum: accumulated in binary64, the
    sum of the most favourable profile, 0.5 - 0.15 - 0.15 - 0.10 - 0.08, is
    a double below 0.02, outside [0.02, 0.98]; only its rounding is 0.02. *)
Lemma unrounded_binary64_sum_falls_below_0_02 :
  binary64_accumulated_base_score example_now most_favourable_profile
  = Ok (0.5 - 0.15 - 0.15 - 0.10 - 0.08)%float
  /\ (0.5 - 0.15 - 0.15 - 0.10 - 0.08 <? 0.02)%float = true
  /\ (0.02 <=? 0.5 - 0.15 - 0.15 - 0.10 - 0.08)%float = false
  /\ Binary64.round (0.5 - 0.15 - 0.15 - 0.10 - 0.08)%float 3 = 0.02%float.
Proof. repeat split; vm_compute; reflexivity. Qed.

(** C3.  [_determine_risk_tier] maps a score below 0.25 to "low", a score in
    [0.25, 0.50) to "medium-low", in [0.50, 0.65) to "medium", in
    [0.65, 0.80) to "high" and a score of 0.80 or more to "critical"; the
    lower bound of each interval is included: in particular the tiers of
    0.25, 0.5, 0.65 and 0.80 are "medium-low", "medium", "high" and
    "critical". *)
Theorem risk_tier_half_open_intervals :
  forall s : Q,
    (s < 0.25 -> _determine_risk_tier s = "low")
    /\ (0.25 <= s < 0.50 -> _determine_risk_tier s = "medium-low")
    /\ (0.50 <= s < 0.65 -> _determine_risk_tier s = "medium")
    /\ (0.65 <= s < 0.80 -> _determine_risk_tier s = "high")
    /\ (0.80 <= s -> _determine_risk_tier s = "critical")
    /\ _determine_risk_tier 0.25 = "medium-low"
    /\ _determine_risk_tier 0.5 = "medium"
    /\ _determine_risk_tier 0.65 = "high"
    /\ _determine_risk_tier 0.80 = "critical".
Proof.
  intros s. unfold _determine_risk_tier.
  repeat split; try reflexivity; intros H.
  all: repeat match goal with
         | |- context [Qltb ?x ?y] =>
             let E := fresh "E" in
             destruct (Qltb x y) eqn:E;
             [apply Qltb_lt in E | apply Qltb_ge in E]
         end; try reflexivity; exfalso; lra.
Qed.

Lemma risk_tier_half_open_intervals_witness :
  (0.25 <= 0.30 < 0.50) /\ _determine_risk_tier 0.30 = "medium-low".
Proof.
  assert (H : 0.25 <= 0.30 < 0.50) by (split; unfold Qle, Qlt; simpl; lia).
  split; [exact H|].
  exact (proj1 (proj2 (risk_tier_half_open_intervals 0.30)) H).
Defined.

(** C4.  A profile with income 75000, credit score 780, no tenure start
    date, 5 banking products and a largest recent transaction of 4500 scores
    0.17, tier "low" (scenario A); a profile with income 28000, credit score
    620, no tenure start date, 1 banking product and a largest recent
    transaction of 2300 scores 0.80, tier "critical" (scenario B). *)
Theorem scenario_scores :
  (forall (now : datetime) (p : CustomerProfile) (sr : list SearchResult),
     income p == 75000 -> credit_score p = 780%Z -> customer_since p = "" ->
     length (banking_products p) = 5%nat ->
     max_amount (amounts (recent_transactions p)) == 4500 ->
     exists s, _calculate_enhanced_risk_score now p sr = Ok s
               /\ s == 0.17 /\ _determine_risk_tier s = "low")
  /\
  (forall (now : datetime) (p : CustomerProfile) (sr : list SearchResult),
     income p == 28000 -> credit_score p = 620%Z -> customer_since p = "" ->
     length (banking_products p) = 1%nat ->
     max_amount (amounts (recent_transactions p)) == 2300 ->
     exists s, _calculate_enhanced_risk_score now p sr = Ok s
               /\ s == 0.80 /\ _determine_risk_tier s = "critical").
Proof.
  split; intros now p sr Hincome Hcredit Hsince Hproducts Hmax.
  - assert (Hk : score_thousandths now p = 170%Z).
    { unfold score_thousandths.
      assert (income_adjustment p = -100)%Z as ->.
      { unfold income_adjustment. Qcases; try reflexivity; exfalso; lra. }
      assert (credit_adjustment p = -150)%Z as ->.
      { unfold credit_adjustment. rewrite Hcredit. reflexivity. }
      rewrite tenure_adjustment_unparsed by (left; exact Hsince).
      assert (product_adjustment p = -80)%Z as ->.
      { unfold product_adjustment. rewrite Hproducts. reflexivity. }
      assert (transaction_adjustment p = 0)%Z as ->.
      { unfold transaction_adjustment.
        destruct (truthy_list _); [|reflexivity].
        Qcases; try reflexivity; exfalso; lra. }
      reflexivity. }
    exists (170 # 1000). rewrite score_spec, Hk. repeat split; reflexivity.
  - assert (Hk : score_thousandths now p = 800%Z).
    { unfold score_thousandths.
      assert (income_adjustment p = 100)%Z as ->.
      { unfold income_adjustment. Qcases; try reflexivity; exfalso; lra. }
      assert (credit_adjustment p = 150)%Z as ->.
      { unfold credit_adjustment. rewrite Hcredit. reflexivity. }
      rewrite tenure_adjustment_unparsed by (left; exact Hsince).
      assert (product_adjustment p = 50)%Z as ->.
      { unfold product_adjustment. rewrite Hproducts. reflexivity. }
      assert (transaction_adjustment p = 0)%Z as ->.
      { unfold transaction_adjustment.
        destruct (truthy_list _); [|reflexivity].
        Qcases; try reflexivity; exfalso; lra. }
      reflexivity. }
    exists (800 # 1000). rewrite score_spec, Hk. repeat split; reflexivity.
Qed.

Lemma scenario_scores_witness :
  (exists s, _calculate_enhanced_risk_score example_now scenario_A [] = Ok s
             /\ s == 0.17 /\ _determine_risk_tier s = "low")
  /\
  (exists s, _calculate_enhanced_risk_score example_now scenario_B [] = Ok s
             /\ s == 0.80 /\ _determine_risk_tier s = "critical").
Proof.
  split.
  - apply (proj1 scenario_scores example_now scenario_A []); reflexivity.
  - apply (proj2 scenario_scores example_now scenario_B []); reflexivity.
Defined.

(** The adjustment of a known credit score below 700. *)
Lemma credit_adjustment_known_below_700 (p : CustomerProfile) (c : Z) :
  (0 < c < 700)%Z ->
  credit_adjustment (set_credit_score p 0) = 0%Z
  /\ credit_adjustment (set_credit_score p c) = (if (c <? 650)%Z then 150 else 50)%Z.
Proof.
  intros Hc. unfold credit_adjustment, set_credit_score. cbn [credit_score].
  split; [reflexivity|]. Zcases; lia.
Qed.

(** C5, as amended.  With every other factor and the reference time fixed,
    a higher income never gives a higher risk score; a higher credit score
    never gives a higher risk score provided the lower credit score is known
    (above 0) or the higher one is at least 700; and raising the credit
    score from 0 (unknown) to any known score below 700 gives a higher risk
    score, by 0.15 below 650 and by 0.05 from 650 on. *)
Theorem income_and_known_credit_monotone :
  forall (now : datetime) (p : CustomerProfile) (sr : list SearchResult),
    (forall i i' : Q, i <= i' ->
       exists s s',
         _calculate_enhanced_risk_score now (set_income p i) sr = Ok s
         /\ _calculate_enhanced_risk_score now (set_income p i') sr = Ok s'
         /\ s' <= s)
    /\
    (forall c c' : Z, (c <= c')%Z -> (0 < c \/ 700 <= c')%Z ->
       exists s s',
         _calculate_enhanced_risk_score now (set_credit_score p c) sr = Ok s
         /\ _calculate_enhanced_risk_score now (set_credit_score p c') sr = Ok s'
         /\ s' <= s)
    /\
    (forall c : Z, (0 < c < 700)%Z ->
       exists s s',
         _calculate_enhanced_risk_score now (set_credit_score p 0) sr = Ok s
         /\ _calculate_enhanced_risk_score now (set_credit_score p c) sr = Ok s'
         /\ s < s'
         /\ ((c < 650)%Z -> s' == s + 0.15)
         /\ ((650 <= c)%Z -> s' == s + 0.05)).
Proof.
  intros now p sr. split; [|split].
  - intros i i' Hle. rewrite !score_spec.
    eexists _, _. split; [reflexivity|]. split; [reflexivity|].
    apply thousandths_le. rewrite !score_thousandths_set_income.
    pose proof (income_adjustment_antitone p i i' Hle). lia.
  - intros c c' Hle Hknown. rewrite !score_spec.
    eexists _, _. split; [reflexivity|]. split; [reflexivity|].
    apply thousandths_le. rewrite !score_thousandths_set_credit_score.
    pose proof (credit_adjustment_antitone p c c' Hle Hknown). lia.
  - intros c Hc. rewrite !score_spec.
    eexists _, _. split; [reflexivity|]. split; [reflexivity|].
    rewrite !score_thousandths_set_credit_score.
    destruct (credit_adjustment_known_below_700 p c Hc) as [-> ->].
    destruct (Z.ltb_spec c 650); repeat split; intros;
      unfold Qlt, Qeq, Qplus; simpl; lia.
Qed.

Lemma income_and_known_credit_monotone_witness :
  (49000 <= 50000
   /\ exists s s',
        _calculate_enhanced_risk_score example_now (set_income scenario_B 49000) [] = Ok s
        /\ _calculate_enhanced_risk_score example_now (set_income scenario_B 50000) [] = Ok s'
        /\ s' <= s)
  /\
  ((649 <= 650)%Z /\ (0 < 649 \/ 700 <= 650)%Z
   /\ exists s s',
        _calculate_enhanced_risk_score example_now (set_credit_score scenario_B 649) [] = Ok s
        /\ _calculate_enhanced_risk_score example_now (set_credit_score scenario_B 650) [] = Ok s'
        /\ s' <= s)
  /\
  ((0 < 680 < 700)%Z
   /\ exists s s',
        _calculate_enhanced_risk_score example_now (set_credit_score scenario_A 0) [] = Ok s
        /\ _calculate_enhanced_risk_score example_now (set_credit_score scenario_A 680) []
           = Ok s'
        /\ s < s'
        /\ ((680 < 650)%Z -> s' == s + 0.15)
        /\ ((650 <= 680)%Z -> s' == s + 0.05)).
Proof.
  assert (Hi : 49000 <= 50000) by (unfold Qle; simpl; lia).
  assert (Hc : (649 <= 650)%Z) by lia.
  assert (Hk : (0 < 649 \/ 700 <= 650)%Z) by lia.
  assert (Hu : (0 < 680 < 700)%Z) by lia.
  split; [|split].
  - split; [exact Hi|].
    exact (proj1 (income_and_known_credit_monotone example_now scenario_B [])
             49000 50000 Hi).
  - split; [exact Hc|]. split; [exact Hk|].
    exact (proj1 (proj2 (income_and_known_credit_monotone example_now scenario_B []))
             649%Z 650%Z Hc Hk).
  - split; [exact Hu|].
    exact (proj2 (proj2 (income_and_known_credit_monotone example_now scenario_A []))
             680%Z Hu).
Defined.

(** C5 as stated fails for the credit score: raising it from 0 (unknown, no
    adjustment) to 620 (adjustment +0.15) moves scenario B's score, with its
    credit score set to 0, from 0.65 up to 0.80. *)
Lemma credit_score_increase_raises_score :
  (0 <= 620)%Z
  /\ credit_adjustment (set_credit_score scenario_B 0) = 0%Z
  /\ credit_adjustment (set_credit_score scenario_B 620) = 150%Z
  /\ _calculate_enhanced_risk_score example_now (set_credit_score scenario_B 0) []
     = Ok (650 # 1000)
  /\ _calculate_enhanced_risk_score example_now (set_credit_score scenario_B 620) []
     = Ok (800 # 1000)
  /\ ~ (800 # 1000 <= 650 # 1000).
Proof.
  repeat split; try reflexivity; try lia.
  unfold Qle. simpl. lia.
Qed.

End RiskScoreClaims.

(** ** Report synthesizer: properties *)

Section SynthesizerClaims.

(** The bodies are chains of [let]s that rebind the list; [peel_let] names
    the outermost one, and [keep_nonempty] carries "the list has an entry"
    across it. *)
Ltac peel_let tac :=
  match goal with
  | |- context C [let x := ?v in @?b x] =>
      let y := fresh x in
      pose (y := v);
      let b' := eval cbv beta in (b y) in
      let G := context C [b'] in
      change G;
      tac y
  end.

Ltac keep_nonempty y :=
  try (assert (1 <= length y)%nat
        by (subst y; case_conditions; rewrite ?length_app; simpl; lia);
       clearbody y).

(** The first finding is always there, the later blocks only append. *)
Lemma findings_nonempty (env : Env) (p : CustomerProfile) (sr : list SearchResult)
    (contributions : gmap string string) :
  (1 <= length (_generate_enhanced_findings env p sr contributions))%nat.
Proof.
  cbv beta delta [_generate_enhanced_findings].
  repeat peel_let keep_nonempty. assumption.
Qed.

(** The risk-based rule always yields a recommendation, the later rules only
    append. *)
Lemma rule_based_recommendations_nonempty (p : CustomerProfile) (s : Q) :
  (1 <= length (rule_based_recommendations p s))%nat.
Proof.
  cbv beta delta [rule_based_recommendations].
  repeat peel_let keep_nonempty. assumption.
Qed.

(** C7.  For every profile, search-result list, contribution mapping and risk
    score, the findings list has at least one entry and the recommendations
    list has at least one entry; the general advisory recommendation is
    appended exactly when the rules yield fewer than two recommendations, so
    the returned list always has at least two entries. *)
Theorem findings_and_recommendations_never_empty :
  forall (env : Env) (p : CustomerProfile) (sr : list SearchResult)
         (contributions : gmap string string) (risk_score : Q),
    (1 <= length (_generate_enhanced_findings env p sr contributions))%nat
    /\ (1 <= length (_generate_enhanced_recommendations p risk_score))%nat
    /\ (2 <= length (_generate_enhanced_recommendations p risk_score))%nat
    /\ ((length (rule_based_recommendations p risk_score) < 2)%nat ->
        _generate_enhanced_recommendations p risk_score
        = rule_based_recommendations p risk_score ++ [general_advisory])
    /\ ((2 <= length (rule_based_recommendations p risk_score))%nat ->
        _generate_enhanced_recommendations p risk_score
        = rule_based_recommendations p risk_score).
Proof.
  intros env p sr contributions risk_score.
  pose proof (rule_based_recommendations_nonempty p risk_score) as Hrules.
  pose proof (findings_nonempty env p sr contributions) as Hfindings.
  unfold _generate_enhanced_recommendations. cbv zeta.
  destruct (Nat.ltb_spec (length (rule_based_recommendations p risk_score)) 2);
    rewrite ?length_app; simpl; repeat split; try lia; reflexivity.
Qed.

Lemma findings_and_recommendations_never_empty_witness :
  (length (rule_based_recommendations scenario_A (170 # 1000)) < 2)%nat
  /\ _generate_enhanced_recommendations scenario_A (170 # 1000)
     = rule_based_recommendations scenario_A (170 # 1000) ++ [general_advisory].
Proof.
  assert (H : (length (rule_based_recommendations scenario_A (170 # 1000)) < 2)%nat)
    by (vm_compute; lia).
  split; [exact H|].
  exact (proj1 (proj2 (proj2 (proj2
           (findings_and_recommendations_never_empty
              (example_env example_generate) scenario_A [] ∅ (170 # 1000))))) H).
Defined.

End SynthesizerClaims.

(** ** Context assembler: properties *)

Section ContextClaims.
Variable env : Env.

Lemma append_assoc (a b c : string) : (a +:+ b) +:+ c = a +:+ (b +:+ c).
Proof.
  induction a as [|x a IH]; [reflexivity|].
  change (String x ((a +:+ b) +:+ c) = String x (a +:+ (b +:+ c))).
  now rewrite IH.
Qed.

Lemma append_nil_r (a : string) : a +:+ "" = a.
Proof.
  induction a as [|x a IH]; [reflexivity|].
  change (String x (a +:+ "") = String x a). now rewrite IH.
Qed.

Lemma str_take_length (n : nat) (s : string) :
  (String.length (str_take n s) <= n)%nat.
Proof.
  unfold str_take. revert s.
  induction n as [|n IH]; intros [|c s]; simpl; try lia.
  specialize (IH s). lia.
Qed.

Lemma str_take_idemp (n : nat) (s : string) :
  str_take n (str_take n s) = str_take n s.
Proof.
  unfold str_take. revert s.
  induction n as [|n IH]; intros [|c s]; simpl; try reflexivity.
  now rewrite IH.
Qed.

(** A loop that appends one piece per element builds the start string
    followed by the pieces in order. *)
Lemma fold_left_append {A} (step : string -> A -> string) (piece : A -> string)
    (l : list A) (start : string) :
  (forall acc x, step acc x = acc +:+ piece x) ->
  fold_left step l start = start +:+ str_concat (map piece l).
Proof.
  intros Hstep. revert start. unfold str_concat.
  induction l as [|x l IH]; intros start; cbn [fold_left map fold_right].
  - now rewrite append_nil_r.
  - now rewrite IH, Hstep, append_assoc.
Qed.

Lemma policy_block_entry (acc : string) (entry : nat * SearchResult) :
  policy_block env acc entry = acc +:+ policy_entry env entry.
Proof.
  unfold policy_entry, policy_block. destruct entry as [i result].
  cbv beta iota zeta. rewrite !append_assoc. reflexivity.
Qed.

Lemma policy_block_truncated (acc : string) (i : nat) (r : SearchResult) :
  policy_block env acc (i, truncate_document r) = policy_block env acc (i, r).
Proof.
  unfold policy_block, truncate_document. cbn [filename collection final_score
    relevance_score document get]. now rewrite str_take_idemp.
Qed.

Lemma policy_loop_truncated (l : list SearchResult) (start : nat) (acc : string) :
  fold_left (policy_block env) (enumerate (map truncate_document l) start) acc
  = fold_left (policy_block env) (enumerate l start) acc.
Proof.
  unfold enumerate. revert start acc.
  induction l as [|r l IH]; intros start acc; [reflexivity|].
  cbn [map length seq zip zip_with fold_left].
  rewrite policy_block_truncated. apply IH.
Qed.

(** C8.  For every profile, search-result list and query: the assembled
    context is the one assembled from the first 10 recent transactions, the
    first 6 search results and the first 500 characters of each result's
    text, so nothing beyond them is included; the transaction part holds one
    line per transaction of the first 10, in order, and the policy part one
    entry per search result of the first 6, in order, each with its text cut
    by [[:500]], which never exceeds 500 characters. *)
Theorem context_truncation_policy :
  forall (p : CustomerProfile) (sr : list SearchResult) (q : string),
    _prepare_enhanced_context env p sr q
    = _prepare_enhanced_context env
        (set_recent_transactions p (take 10 (recent_transactions p)))
        (map truncate_document (take 6 sr)) q
    /\ tx_context env p
       = (nl +:+ "RECENT TRANSACTIONS:" +:+ nl)
         +:+ str_concat (map (tx_line env) (take 10 (recent_transactions p)))
    /\ (length (take 10 (recent_transactions p)) <= 10)%nat
    /\ policy_context env sr
       = (nl +:+ "RELEVANT BANKING POLICIES:" +:+ nl)
         +:+ str_concat (map (policy_entry env) (enumerate (take 6 sr) 1))
    /\ (length (enumerate (take 6 sr) 1) <= 6)%nat
    /\ forall r : SearchResult,
         (String.length (str_take 500 (get (document r) "")) <= 500)%nat.
Proof.
  intros p sr q. repeat split.
  - unfold _prepare_enhanced_context.
    change (customer_context env (set_recent_transactions p _))
      with (customer_context env p).
    unfold tx_context, policy_context. cbn [set_recent_transactions recent_transactions].
    rewrite take_idemp, <- firstn_map, take_idemp, firstn_map.
    rewrite policy_loop_truncated. reflexivity.
  - unfold tx_context. apply fold_left_append. reflexivity.
  - apply firstn_le_length.
  - unfold policy_context.
    apply fold_left_append, policy_block_entry.
  - unfold enumerate. rewrite length_zip_with, length_seq.
    pose proof (firstn_le_length 6 sr). lia.
  - intros r. apply str_take_length.
Qed.

End ContextClaims.

(** ** The analysis run: properties *)

Section RunClaims.

(** When every invocation succeeds, the members are invoked once each, in
    list order, whatever their names. *)
Lemma sequential_orchestration_succeeds (generate : Agent -> string -> result string)
    (members : list Agent) :
  (forall agent input, exists content, generate agent input = Ok content) ->
  forall input contributions calls,
  exists output contributions',
    sequential_orchestration generate members input contributions calls
    = (Ok output, contributions', calls ++ map name members).
Proof.
  intros Hok. induction members as [|agent rest IH]; intros input contributions calls.
  - exists input, contributions. cbn. now rewrite app_nil_r.
  - cbn [sequential_orchestration map].
    destruct (Hok agent input) as [content ->].
    destruct (IH content (<[name agent := content]> contributions) (calls ++ [name agent]))
      as (output & contributions' & ->).
    exists output, contributions'. now rewrite <- app_assoc.
Qed.

(** When a stage fails, the orchestration ends with that stage's exception. *)
Lemma sequential_orchestration_fails (generate : Agent -> string -> result string)
    (members : list Agent) (input : string) (failing : Agent) (e : exn) :
  stage_fails generate members input failing e ->
  forall contributions calls,
  exists contributions' calls',
    sequential_orchestration generate members input contributions calls
    = (Raise e, contributions', calls').
Proof.
  induction 1 as [agent rest input e Hgen | agent rest input content failing e Hgen _ IH];
    intros contributions calls; cbn [sequential_orchestration]; rewrite Hgen.
  - eauto.
  - apply IH.
Qed.

Lemma orchestrate_succeeds (env : Env) (self : System) (agents : list Agent)
    (cid q : string) (p : CustomerProfile) (sr : list SearchResult) (ctx : string) :
  prepare_members env agents = Ok tt ->
  (forall agent input, exists content, generate env agent input = Ok content) ->
  generation_calls (orchestrate env self agents cid q p sr ctx) = map name agents
  /\ is_Ok (returned (orchestrate env self agents cid q p sr ctx)) = true.
Proof.
  intros Hprepare Hok. unfold orchestrate. rewrite Hprepare.
  destruct (sequential_orchestration_succeeds (generate env) agents Hok
              (orchestration_task ctx) ∅ []) as (output & contributions & ->).
  rewrite (score_spec (now env) p sr). cbn. split; reflexivity.
Qed.

Lemma orchestrate_fails (env : Env) (self : System) (agents : list Agent)
    (cid q : string) (p : CustomerProfile) (sr : list SearchResult) (ctx : string)
    (failing : Agent) (e : exn) :
  prepare_members env agents = Ok tt ->
  stage_fails (generate env) agents (orchestration_task ctx) failing e ->
  returned (orchestrate env self agents cid q p sr ctx) = Raise e
  /\ system (orchestrate env self agents cid q p sr ctx)
     = mk_System (customer_profiles self) (total_requests self) (successful_analyses self)
         (SharedState.record_failure (shared_state self) cid (str_exn e)
            (isoformat_now env)).
Proof.
  intros Hprepare Hfail. unfold orchestrate. rewrite Hprepare.
  destruct (sequential_orchestration_fails _ _ _ _ _ Hfail ∅ [])
    as (contributions & calls & ->).
  cbn. split; reflexivity.
Qed.

(** If the orchestration itself refuses the member list, no member runs and
    the run fails like any other. *)
Lemma orchestrate_refused (env : Env) (self : System) (agents : list Agent)
    (cid q : string) (p : CustomerProfile) (sr : list SearchResult) (ctx : string)
    (e : exn) :
  prepare_members env agents = Raise e ->
  returned (orchestrate env self agents cid q p sr ctx) = Raise e
  /\ generation_calls (orchestrate env self agents cid q p sr ctx) = []
  /\ shared_state (system (orchestrate env self agents cid q p sr ctx))
     = SharedState.record_failure (shared_state self) cid (str_exn e) (isoformat_now env).
Proof.
  intros Hprepare. unfold orchestrate. rewrite Hprepare. cbn. repeat split.
Qed.

Lemma failures_of_record_failure (log : list SharedState.InteractionRecord)
    (cid reason timestamp : string) :
  SharedState.failures_of (SharedState.record_failure log cid reason timestamp) cid
  = SharedState.failures_of log cid
    ++ [SharedState.mk_InteractionRecord cid (SharedState.Failed reason) timestamp].
Proof.
  unfold SharedState.failures_of, SharedState.record_failure.
  rewrite filter_app. f_equal.
  rewrite filter_cons_True by (split; reflexivity). reflexivity.
Qed.

(** C6.  If a stage of the run fails (the orchestration has started and the
    stage's capability invocation raises [e]), [run_enhanced_analysis]
    returns no report: [e] reaches the caller; the interaction log gains one
    record, the failure of that customer with the exception's message, so
    the customer's failure records grow by exactly that one; and the run is
    not counted as successful. *)
Theorem stage_failure_propagates_and_logs_one_failure :
  forall (env : Env) (self : System) (cid q : string) (sr : list SearchResult)
         (failing : Agent) (e : exn),
    load_enhanced_documents env = Ok tt ->
    hybrid_search env q search_collections 4 = Ok sr ->
    prepare_members env create_enhanced_agents = Ok tt ->
    stage_fails (generate env) create_enhanced_agents
      (orchestration_task (_prepare_enhanced_context env (analysed_profile env self cid) sr q))
      failing e ->
    returned (run_enhanced_analysis env self cid q) = Raise e
    /\ shared_state (system (run_enhanced_analysis env self cid q))
       = shared_state self
         ++ [SharedState.mk_InteractionRecord cid (SharedState.Failed (str_exn e))
               (isoformat_now env)]
    /\ SharedState.failures_of (shared_state (system (run_enhanced_analysis env self cid q))) cid
       = SharedState.failures_of (shared_state self) cid
         ++ [SharedState.mk_InteractionRecord cid (SharedState.Failed (str_exn e))
               (isoformat_now env)]
    /\ successful_analyses (system (run_enhanced_analysis env self cid q))
       = successful_analyses self.
Proof.
  intros env self cid q sr failing e Hload Hsearch Hprepare Hfail.
  unfold run_enhanced_analysis. cbv zeta. rewrite Hload, Hsearch.
  unfold analysed_profile in Hfail. cbv zeta in Hfail.
  cbn [customer_profiles total_requests successful_analyses shared_state].
  destruct (bool_decide (customer_profiles self = ∅));
    cbn [customer_profiles total_requests successful_analyses shared_state];
    match goal with
    | |- context [orchestrate ?env ?s ?ags ?c ?qq ?p ?r ?ctx] =>
        destruct (orchestrate_fails env s ags c qq p r ctx failing e Hprepare Hfail)
          as [-> ->]
    end;
    cbn [customer_profiles total_requests successful_analyses shared_state];
    rewrite failures_of_record_failure; repeat split; reflexivity.
Qed.

Lemma stage_failure_propagates_and_logs_one_failure_witness :
  let env := example_env failing_generate in
  load_enhanced_documents env = Ok tt
  /\ hybrid_search env "loan eligibility" search_collections 4 = Ok []
  /\ prepare_members env create_enhanced_agents = Ok tt
  /\ returned (run_enhanced_analysis env example_system "67890" "loan eligibility")
     = Raise (RuntimeError "chat completion service unavailable")
  /\ shared_state (system (run_enhanced_analysis env example_system "67890" "loan eligibility"))
     = shared_state example_system
       ++ [SharedState.mk_InteractionRecord "67890"
             (SharedState.Failed "chat completion service unavailable")
             (isoformat_now env)].
Proof.
  intros env.
  assert (Hload : load_enhanced_documents env = Ok tt) by reflexivity.
  assert (Hsearch : hybrid_search env "loan eligibility" search_collections 4 = Ok [])
    by reflexivity.
  assert (Hprepare : prepare_members env create_enhanced_agents = Ok tt) by reflexivity.
  assert (Hfail : stage_fails (generate env) create_enhanced_agents
            (orchestration_task
               (_prepare_enhanced_context env
                  (analysed_profile env example_system "67890") [] "loan eligibility"))
            (mk_Agent "Enhanced_Loan_Analyst" "You are a Senior Credit Risk Analyst specializing in loan eligibility assessment.")
            (RuntimeError "chat completion service unavailable")).
  { apply stage_fails_later with (content := "Analysis by Enhanced_Data_Gatherer");
      [reflexivity|].
    apply stage_fails_later with (content := "Analysis by Enhanced_Fraud_Analyst");
      [reflexivity|].
    apply stage_fails_here. reflexivity. }
  pose proof (stage_failure_propagates_and_logs_one_failure env example_system
                "67890" "loan eligibility" [] _ _ Hload Hsearch Hprepare Hfail)
    as (H1 & H2 & _).
  repeat split; assumption.
Defined.



End RunClaims.

(** ** Risk scoring engine: further properties *)

Section RiskScoreMore.
Local Open Scope Q_scope.

Lemma score_thousandths_set_banking_products (now : datetime) (p : CustomerProfile)
    (l : list string) :
  score_thousandths now (set_banking_products p l)
  = (score_thousandths now p - product_adjustment p
     + product_adjustment (set_banking_products p l))%Z.
Proof.
  unfold score_thousandths.
  change (income_adjustment (set_banking_products p l)) with (income_adjustment p).
  change (credit_adjustment (set_banking_products p l)) with (credit_adjustment p).
  change (tenure_adjustment now (set_banking_products p l)) with (tenure_adjustment now p).
  change (transaction_adjustment (set_banking_products p l))
    with (transaction_adjustment p).
  lia.
Qed.

Lemma score_thousandths_set_recent_transactions (now : datetime) (p : CustomerProfile)
    (l : list Transaction) :
  score_thousandths now (set_recent_transactions p l)
  = (score_thousandths now p - transaction_adjustment p
     + transaction_adjustment (set_recent_transactions p l))%Z.
Proof.
  unfold score_thousandths.
  change (income_adjustment (set_recent_transactions p l)) with (income_adjustment p).
  change (credit_adjustment (set_recent_transactions p l)) with (credit_adjustment p).
  change (tenure_adjustment now (set_recent_transactions p l))
    with (tenure_adjustment now p).
  change (product_adjustment (set_recent_transactions p l)) with (product_adjustment p).
  lia.
Qed.

(** The running maximum exceeds a bound exactly when the start value or some
    element does. *)
Lemma max_list_gt (c m : Q) (xs : list Q) :
  c < max_list m xs <-> c < m \/ Exists (fun x => c < x) xs.
Proof.
  unfold max_list. revert m.
  induction xs as [|x xs IH]; intros m; cbn [fold_left].
  - rewrite Exists_nil. tauto.
  - rewrite IH, Exists_cons.
    destruct (Qgtb x m) eqn:E; [apply Qgtb_gt in E | apply Qgtb_le in E].
    + split; [tauto|]. intros [H | [H | H]]; auto. left. lra.
    + split; [tauto|]. intros [H | [H | H]]; auto. left. lra.
Qed.

Lemma max_amount_gt (c : Q) (l : list Q) :
  0 <= c -> (c < max_amount l <-> Exists (fun x => c < x) l).
Proof.
  intros Hc. destruct l as [|a rest]; cbn [max_amount].
  - rewrite Exists_nil. split; [lra | tauto].
  - rewrite max_list_gt, Exists_cons. tauto.
Qed.

(** The transaction factor, read off the amounts. *)
Lemma transaction_adjustment_cases (p : CustomerProfile) :
  let l := amounts (recent_transactions p) in
  (Exists (fun a => 10000 < a) l -> transaction_adjustment p = 100%Z)
  /\ (~ Exists (fun a => 10000 < a) l -> Exists (fun a => 5000 < a) l ->
      transaction_adjustment p = 30%Z)
  /\ (~ Exists (fun a => 5000 < a) l -> transaction_adjustment p = 0%Z).
Proof.
  cbv zeta. unfold transaction_adjustment.
  destruct (recent_transactions p) as [|t txs].
  - cbn [truthy_list amounts map]. rewrite !Exists_nil. tauto.
  - pose proof (max_amount_gt 10000 (amounts (t :: txs)) ltac:(lra)) as H10.
    pose proof (max_amount_gt 5000 (amounts (t :: txs)) ltac:(lra)) as H5.
    assert (Hmono : Exists (fun a => 10000 < a) (amounts (t :: txs)) ->
                    Exists (fun a => 5000 < a) (amounts (t :: txs)))
      by (intros HE; eapply Exists_impl; [exact HE|]; cbv beta; intros; lra).
    cbn [truthy_list]. Qcases; repeat split; intros; try reflexivity; exfalso;
      repeat match goal with
             | E : _ <= _ |- _ => apply Qle_not_lt in E
             end; tauto.
Qed.

Lemma Exists_gt_Forall2 (c : Q) (l l' : list Q) :
  Forall2 Qeq l l' -> Exists (fun a => c < a) l -> Exists (fun a => c < a) l'.
Proof.
  induction 1 as [|x y l l' Hxy _ IH]; intros HE.
  - exact HE.
  - apply Exists_cons in HE as [HE | HE].
    + apply Exists_cons. left. lra.
    + apply Exists_cons. right. auto.
Qed.

Lemma Exists_gt_or_not (c : Q) (l : list Q) :
  0 <= c -> Exists (fun a => c < a) l \/ ~ Exists (fun a => c < a) l.
Proof.
  intros Hc. destruct (Qlt_le_dec c (max_amount l)) as [H | H].
  - left. now apply max_amount_gt.
  - right. intros HE. apply (max_amount_gt c l Hc) in HE. lra.
Qed.

Lemma transaction_adjustment_Forall2 (p p' : CustomerProfile) :
  Forall2 Qeq (amounts (recent_transactions p)) (amounts (recent_transactions p')) ->
  transaction_adjustment p = transaction_adjustment p'.
Proof.
  intros Ha.
  assert (Ha' : Forall2 Qeq (amounts (recent_transactions p'))
                  (amounts (recent_transactions p))).
  { clear -Ha. induction Ha; constructor; [symmetry|]; assumption. }
  destruct (transaction_adjustment_cases p) as (A1 & A2 & A3).
  destruct (transaction_adjustment_cases p') as (B1 & B2 & B3).
  cbv zeta in *.
  pose proof (Exists_gt_Forall2 10000 _ _ Ha) as F10.
  pose proof (Exists_gt_Forall2 10000 _ _ Ha') as G10.
  pose proof (Exists_gt_Forall2 5000 _ _ Ha) as F5.
  pose proof (Exists_gt_Forall2 5000 _ _ Ha') as G5.
  destruct (Exists_gt_or_not 10000 (amounts (recent_transactions p)) ltac:(lra))
    as [H10 | H10].
  - rewrite A1, B1 by auto. reflexivity.
  - destruct (Exists_gt_or_not 5000 (amounts (recent_transactions p)) ltac:(lra))
      as [H5 | H5].
    + rewrite A2, B2 by tauto. reflexivity.
    + rewrite A3, B3 by tauto. reflexivity.
Qed.

(** X1.  The score is decided by five quantities of the profile: the income,
    the credit score, the start date, the number of banking products and the
    transaction amounts.  Two profiles that agree on them get the same
    score, whatever their customer id, account type, stored risk tier, review
    date, product names, transaction descriptions, and whatever search
    results are passed. *)
Theorem score_depends_on_five_quantities :
  forall (now : datetime) (p p' : CustomerProfile) (sr sr' : list SearchResult),
    income p == income p' ->
    credit_score p = credit_score p' ->
    customer_since p = customer_since p' ->
    length (banking_products p) = length (banking_products p') ->
    Forall2 Qeq (amounts (recent_transactions p)) (amounts (recent_transactions p')) ->
    _calculate_enhanced_risk_score now p sr = _calculate_enhanced_risk_score now p' sr'.
Proof.
  intros now p p' sr sr' Hi Hc Hs Hn Ha. rewrite !score_spec. do 2 f_equal.
  unfold score_thousandths.
  assert (income_adjustment p = income_adjustment p') as ->.
  { unfold income_adjustment. Qcases; try reflexivity; exfalso; lra. }
  assert (credit_adjustment p = credit_adjustment p') as ->.
  { unfold credit_adjustment. now rewrite Hc. }
  assert (tenure_adjustment now p = tenure_adjustment now p') as ->.
  { unfold tenure_adjustment. now rewrite Hs. }
  assert (product_adjustment p = product_adjustment p') as ->.
  { unfold product_adjustment. now rewrite Hn. }
  rewrite (transaction_adjustment_Forall2 p p' Ha).
  reflexivity.
Qed.

Lemma score_depends_on_five_quantities_witness :
  _calculate_enhanced_risk_score example_now scenario_A []
  = _calculate_enhanced_risk_score example_now
      (mk_CustomerProfile "another id" 75000%Q 780 "basic" "" "critical"
         [mk_Transaction (Some 4500%Q) None None;
          mk_Transaction (Some (3000 # 2)) (Some "x") None;
          mk_Transaction (Some 300%Q) None (Some "y");
          mk_Transaction (Some 200.0%Q) None None]
         ["a"; "b"; "c"; "d"; "e"] "")
      [mk_SearchResult None None None None None].
Proof.
  apply score_depends_on_five_quantities; try reflexivity.
  repeat constructor.
Defined.

(** X2.  The transaction factor looks only at whether some recent
    transaction amount (a missing amount counting as 0) exceeds 10000 or
    5000: compared with the same profile without transactions, the score is
    0.10 higher if some amount exceeds 10000, 0.03 higher if none exceeds
    10000 but some exceeds 5000, and the same if none exceeds 5000. *)
Theorem transaction_factor :
  forall (now : datetime) (p : CustomerProfile) (sr : list SearchResult),
  exists s s0,
    _calculate_enhanced_risk_score now p sr = Ok s
    /\ _calculate_enhanced_risk_score now (set_recent_transactions p []) sr = Ok s0
    /\ (Exists (fun a => 10000 < a) (amounts (recent_transactions p)) -> s == s0 + 0.10)
    /\ (~ Exists (fun a => 10000 < a) (amounts (recent_transactions p)) ->
        Exists (fun a => 5000 < a) (amounts (recent_transactions p)) -> s == s0 + 0.03)
    /\ (~ Exists (fun a => 5000 < a) (amounts (recent_transactions p)) -> s == s0).
Proof.
  intros now p sr. rewrite !score_spec.
  eexists _, _. split; [reflexivity|]. split; [reflexivity|].
  rewrite score_thousandths_set_recent_transactions.
  change (transaction_adjustment (set_recent_transactions p [])) with 0%Z.
  destruct (transaction_adjustment_cases p) as (A1 & A2 & A3). cbv zeta in *.
  repeat split.
  - intros H. rewrite (A1 H). unfold Qeq, Qplus. simpl. lia.
  - intros H H'. rewrite (A2 H H'). unfold Qeq, Qplus. simpl. lia.
  - intros H. rewrite (A3 H). unfold Qeq. simpl. lia.
Qed.

Lemma transaction_factor_witness :
  let p := set_recent_transactions scenario_A
             [mk_Transaction None (Some "no amount") None;
              mk_Transaction (Some 10000.01%Q) None None] in
  Exists (fun a => 10000 < a) (amounts (recent_transactions p))
  /\ exists s s0,
       _calculate_enhanced_risk_score example_now p [] = Ok s
       /\ _calculate_enhanced_risk_score example_now (set_recent_transactions p []) [] = Ok s0
       /\ s == s0 + 0.10.
Proof.
  intros p.
  assert (H : Exists (fun a => 10000 < a) (amounts (recent_transactions p))).
  { apply Exists_cons_tl, Exists_cons_hd. unfold Qlt. simpl. lia. }
  split; [exact H|].
  destruct (transaction_factor example_now p []) as (s & s0 & Hs & Hs0 & H10 & _).
  exists s, s0. auto.
Defined.

Lemma transaction_adjustment_mono (p p' : CustomerProfile) :
  (forall c, Exists (fun a => c < a) (amounts (recent_transactions p)) ->
             Exists (fun a => c < a) (amounts (recent_transactions p'))) ->
  (transaction_adjustment p <= transaction_adjustment p')%Z.
Proof.
  intros Hsub.
  destruct (transaction_adjustment_cases p) as (A1 & A2 & A3).
  destruct (transaction_adjustment_cases p') as (B1 & B2 & B3).
  cbv zeta in *.
  pose proof (transaction_adjustment_range p').
  destruct (Exists_gt_or_not 10000 (amounts (recent_transactions p)) ltac:(lra))
    as [H10 | H10].
  - rewrite A1, B1 by auto. lia.
  - destruct (Exists_gt_or_not 5000 (amounts (recent_transactions p)) ltac:(lra))
      as [H5 | H5].
    + rewrite A2 by tauto.
      destruct (Exists_gt_or_not 10000 (amounts (recent_transactions p')) ltac:(lra))
        as [H10' | H10'].
      * rewrite B1 by auto. lia.
      * rewrite B2 by auto. lia.
    + rewrite A3 by tauto. lia.
Qed.

(** X3.  Recording further transactions never lowers the score. *)
Theorem more_transactions_never_lower_the_score :
  forall (now : datetime) (p : CustomerProfile) (sr : list SearchResult)
         (more : list Transaction),
  exists s s',
    _calculate_enhanced_risk_score now p sr = Ok s
    /\ _calculate_enhanced_risk_score now
         (set_recent_transactions p (recent_transactions p ++ more)) sr = Ok s'
    /\ s <= s'.
Proof.
  intros now p sr more. rewrite !score_spec.
  eexists _, _. split; [reflexivity|]. split; [reflexivity|].
  apply thousandths_le. rewrite score_thousandths_set_recent_transactions.
  pose proof (transaction_adjustment_mono p
                (set_recent_transactions p (recent_transactions p ++ more))) as H.
  cbn [set_recent_transactions recent_transactions] in H.
  assert ((transaction_adjustment p
           <= transaction_adjustment
                (set_recent_transactions p (recent_transactions p ++ more)))%Z);
    [|lia].
  apply H. intros c HE. unfold amounts. rewrite map_app.
  apply Exists_app. left. exact HE.
Qed.

Lemma product_adjustment_antitone (p : CustomerProfile) (l : list string) :
  (length (banking_products p) <= length l)%nat ->
  (product_adjustment (set_banking_products p l) <= product_adjustment p)%Z.
Proof.
  intros Hle. unfold product_adjustment, set_banking_products.
  cbn [banking_products].
  destruct (Nat.leb_spec 4 (length l)); destruct (Nat.leb_spec 2 (length l));
    destruct (Nat.leb_spec 4 (length (banking_products p)));
    destruct (Nat.leb_spec 2 (length (banking_products p))); lia.
Qed.

(** X4.  A profile with at least as many banking products never scores
    higher: replacing the product list by one that is at least as long
    leaves the score or lowers it. *)
Theorem more_products_never_raise_the_score :
  forall (now : datetime) (p : CustomerProfile) (sr : list SearchResult)
         (products : list string),
    (length (banking_products p) <= length products)%nat ->
    exists s s',
      _calculate_enhanced_risk_score now p sr = Ok s
      /\ _calculate_enhanced_risk_score now (set_banking_products p products) sr = Ok s'
      /\ s' <= s.
Proof.
  intros now p sr products Hle. rewrite !score_spec.
  eexists _, _. split; [reflexivity|]. split; [reflexivity|].
  apply thousandths_le. rewrite score_thousandths_set_banking_products.
  pose proof (product_adjustment_antitone p products Hle). lia.
Qed.

Lemma more_products_never_raise_the_score_witness :
  (length (banking_products scenario_B) <= length ["checking"; "savings"])%nat
  /\ exists s s',
       _calculate_enhanced_risk_score example_now scenario_B [] = Ok s
       /\ _calculate_enhanced_risk_score example_now
            (set_banking_products scenario_B ["checking"; "savings"]) [] = Ok s'
       /\ s' <= s.
Proof.
  assert (H : (length (banking_products scenario_B)
               <= length ["checking"; "savings"])%nat) by (simpl; lia).
  split; [exact H|].
  exact (more_products_never_raise_the_score example_now scenario_B [] _ H).
Defined.

(** The tenure adjustment in whole days. *)
Lemma years_adjustment_in_days (now since : datetime) :
  years_adjustment (tenure_years now since)
  = (if 1827 <=? days (sub now since) then -100
     else if 1096 <=? days (sub now since) then -50
     else if days (sub now since) <=? 365 then 80
     else 0)%Z.
Proof.
  unfold years_adjustment.
  destruct (tenure_years_in_days now since) as (H5 & H3 & H1).
  destruct (Z.leb_spec 1827 (days (sub now since)));
    destruct (Z.leb_spec 1096 (days (sub now since)));
    destruct (Z.leb_spec (days (sub now since)) 365);
    Qcases; try reflexivity; exfalso;
    repeat match goal with
           | E : _ <= tenure_years _ _ |- _ =>
               first [apply H5 in E | apply H3 in E | apply Qle_not_lt in E]
           | E : tenure_years _ _ < _ |- _ =>
               first [apply H1 in E | apply Qlt_not_le in E]
           end; try lia; tauto.
Qed.

(** X5.  With a start date that parses, a later reference time never gives
    a higher score: tenure only grows, and a longer tenure never scores
    higher. *)
Theorem later_reference_time_never_raises_the_score :
  forall (now now' : datetime) (p : CustomerProfile) (sr : list SearchResult)
         (since : datetime),
    strptime_Y_m_d (customer_since p) = Ok since ->
    (to_microseconds now <= to_microseconds now')%Z ->
    exists s s',
      _calculate_enhanced_risk_score now p sr = Ok s
      /\ _calculate_enhanced_risk_score now' p sr = Ok s'
      /\ s' <= s.
Proof.
  intros now now' p sr since Hparse Hle. rewrite !score_spec.
  eexists _, _. split; [reflexivity|]. split; [reflexivity|].
  apply thousandths_le. unfold score_thousandths.
  rewrite !(tenure_adjustment_parsed _ since p Hparse), !years_adjustment_in_days.
  assert (Hd : (days (sub now since) <= days (sub now' since))%Z).
  { unfold days, sub. apply Z.div_le_mono; [reflexivity | lia]. }
  destruct (Z.leb_spec 1827 (days (sub now since)));
    destruct (Z.leb_spec 1096 (days (sub now since)));
    destruct (Z.leb_spec (days (sub now since)) 365);
    destruct (Z.leb_spec 1827 (days (sub now' since)));
    destruct (Z.leb_spec 1096 (days (sub now' since)));
    destruct (Z.leb_spec (days (sub now' since)) 365); lia.
Qed.

Lemma later_reference_time_never_raises_the_score_witness :
  let p := set_customer_since scenario_B "2023-01-10" in
  strptime_Y_m_d (customer_since p) = Ok (mk_datetime 2023 1 10 0 0 0 0)
  /\ (to_microseconds (mk_datetime 2023 6 1 9 0 0 0)
      <= to_microseconds example_now)%Z
  /\ exists s s',
       _calculate_enhanced_risk_score (mk_datetime 2023 6 1 9 0 0 0) p [] = Ok s
       /\ _calculate_enhanced_risk_score example_now p [] = Ok s'
       /\ s' <= s.
Proof.
  intros p.
  assert (H1 : strptime_Y_m_d (customer_since p) = Ok (mk_datetime 2023 1 10 0 0 0 0))
    by reflexivity.
  assert (H2 : (to_microseconds (mk_datetime 2023 6 1 9 0 0 0)
                <= to_microseconds example_now)%Z) by (vm_compute; discriminate).
  split; [exact H1|]. split; [exact H2|].
  exact (later_reference_time_never_raises_the_score _ _ p [] _ H1 H2).
Defined.

(** A parsed start date is a midnight. *)
Lemma strptime_midnight (s : string) (since : datetime) :
  strptime_Y_m_d s = Ok since ->
  hour since = 0%Z /\ minute since = 0%Z /\ second since = 0%Z
  /\ microsecond since = 0%Z.
Proof.
  unfold strptime_Y_m_d.
  destruct (re_Y_m_d (list_ascii_of_string s)) as [|[[[y m] d] rest] ?];
    [discriminate|].
  destruct rest; [|discriminate].
  destruct (_ && _); [|discriminate].
  intros [= <-]. repeat split.
Qed.

(** Whole days elapsed since a midnight: the time of day of [now] is cut
    off. *)
Lemma days_since_midnight (now since : datetime) :
  valid_time now ->
  hour since = 0%Z /\ minute since = 0%Z /\ second since = 0%Z
  /\ microsecond since = 0%Z ->
  days (sub now since) = (toordinal now - toordinal since)%Z.
Proof.
  intros (Hh & Hm & Hs & Hu) (H1 & H2 & H3 & H4).
  unfold days, sub, to_microseconds, microseconds_per_day.
  rewrite H1, H2, H3, H4.
  symmetry. apply Z.div_unique_pos
    with (r := (((hour now * 60 + minute now) * 60 + second now) * 1000000
               + microsecond now)%Z); lia.
Qed.

(** X6.  The time of day of the reference time does not matter: two
    reference times on the same calendar day give the same score. *)
Theorem score_ignores_time_of_day :
  forall (now now' : datetime) (p : CustomerProfile) (sr : list SearchResult),
    valid_time now -> valid_time now' -> same_date now now' ->
    _calculate_enhanced_risk_score now p sr = _calculate_enhanced_risk_score now' p sr.
Proof.
  intros now now' p sr Hv Hv' (Hy & Hm & Hd). rewrite !score_spec. do 2 f_equal.
  unfold score_thousandths. do 2 f_equal.
  unfold tenure_adjustment.
  destruct (truthy_str (customer_since p)); [|reflexivity].
  destruct (strptime_Y_m_d (customer_since p)) as [since|e] eqn:Hparse; [|reflexivity].
  apply strptime_midnight in Hparse.
  rewrite !years_adjustment_in_days, !days_since_midnight by assumption.
  unfold toordinal. now rewrite Hy, Hm, Hd.
Qed.

Lemma score_ignores_time_of_day_witness :
  let p := set_customer_since scenario_A "2021-11-03" in
  valid_time (mk_datetime 2026 11 3 0 0 0 0)
  /\ valid_time (mk_datetime 2026 11 3 23 59 59 999999)
  /\ same_date (mk_datetime 2026 11 3 0 0 0 0) (mk_datetime 2026 11 3 23 59 59 999999)
  /\ _calculate_enhanced_risk_score (mk_datetime 2026 11 3 0 0 0 0) p []
     = _calculate_enhanced_risk_score (mk_datetime 2026 11 3 23 59 59 999999) p [].
Proof.
  intros p.
  assert (H1 : valid_time (mk_datetime 2026 11 3 0 0 0 0))
    by (unfold valid_time; simpl; lia).
  assert (H2 : valid_time (mk_datetime 2026 11 3 23 59 59 999999))
    by (unfold valid_time; simpl; lia).
  assert (H3 : same_date (mk_datetime 2026 11 3 0 0 0 0)
                 (mk_datetime 2026 11 3 23 59 59 999999))
    by (unfold same_date; simpl; auto).
  split; [exact H1|]. split; [exact H2|]. split; [exact H3|].
  exact (score_ignores_time_of_day _ _ p [] H1 H2 H3).
Defined.

Lemma multiple_of_ten_of_In (x : Z) (l : list Z) :
  In x l -> Forall (fun v => (v mod 10 = 0)%Z) l -> exists k, x = (10 * k)%Z.
Proof.
  intros Hin Hall. rewrite Forall_forall in Hall.
  apply list_elem_of_In, Hall in Hin. exists (x / 10)%Z.
  pose proof (Z.div_mod x 10 ltac:(lia)). lia.
Qed.

(** X7.  Every adjustment is a whole number of hundredths, so the score is
    one too: it is one of 0.02, 0.03, ..., 0.98, and the third decimal that
    [round(_, 3)] keeps is always 0. *)
Theorem score_is_whole_hundredths :
  forall (now : datetime) (p : CustomerProfile) (sr : list SearchResult),
  exists k : Z,
    _calculate_enhanced_risk_score now p sr = Ok (10 * k # 1000)
    /\ (10 * k # 1000) == k # 100
    /\ (2 <= k <= 98)%Z.
Proof.
  intros now p sr. rewrite score_spec.
  pose proof (score_thousandths_range now p) as Hr.
  unfold score_thousandths in *.
  destruct (multiple_of_ten_of_In _ _ (income_adjustment_values p)
              ltac:(repeat constructor)) as [a Ha].
  destruct (multiple_of_ten_of_In _ _ (credit_adjustment_values p)
              ltac:(repeat constructor)) as [b Hb].
  destruct (multiple_of_ten_of_In _ _ (tenure_adjustment_values now p)
              ltac:(repeat constructor)) as [c Hc].
  destruct (multiple_of_ten_of_In _ _ (product_adjustment_values p)
              ltac:(repeat constructor)) as [d Hd].
  destruct (multiple_of_ten_of_In _ _ (transaction_adjustment_values p)
              ltac:(repeat constructor)) as [e He].
  rewrite Ha, Hb, Hc, Hd, He in *.
  exists (50 + a + b + c + d + e)%Z.
  split; [do 2 f_equal; lia|]. split; [unfold Qeq; simpl; lia | lia].
Qed.

End RiskScoreMore.

(** ** Report synthesizer: further properties *)

(** Name the outermost [let] of the goal and hand it to [tac]. *)
Ltac name_let tac :=
  match goal with
  | |- context C [let x := ?v in @?b x] =>
      let y := fresh x in
      pose (y := v);
      let b' := eval cbv beta in (b y) in
      let G := context C [b'] in
      change G;
      tac y
  end.

(** A [let] that rebinds the list: record its length [E]. *)
Ltac length_step E :=
  name_let ltac:(fun y =>
    let H := fresh "Hlen" in
    assert (H : length y = E)
      by (subst y; cbv zeta;
          repeat match goal with Hp : length _ = _ |- _ => revert Hp end;
          Zcases; case_conditions; rewrite ?length_app; cbn [length]; intros; lia);
    clearbody y).

Ltac inline_let := name_let ltac:(fun y => subst y).

(** A [let] of the form [if c then l ++ [x] else l]: one more entry exactly
    when [c] holds. *)
Ltac snoc_step :=
  name_let ltac:(fun y =>
    let b := eval cbv delta [y] in y in
    match b with
    | (if ?c then ?l ++ [_] else _) =>
        let H := fresh "Hlen" in
        assert (H : length y = (length l + (if c then 1 else 0))%nat)
          by (subst y; destruct c; rewrite ?length_app; cbn [length]; lia);
        clearbody y
    end).

Section SynthesizerMore.

(** X8.  The findings are the summary line and one income finding, always,
    then one finding each for a known credit score (above 0), for a product
    count of at least 4 or at most 1, for a non-empty transaction list and
    for a non-empty search-result list: between 2 and 6 findings. *)
Theorem findings_count :
  forall (env : Env) (p : CustomerProfile) (sr : list SearchResult)
         (contributions : gmap string string),
    length (_generate_enhanced_findings env p sr contributions)
    = (2 + (if (credit_score p >? 0)%Z then 1 else 0)
         + (if (4 <=? length (banking_products p))%nat then 1
            else if (length (banking_products p) <=? 1)%nat then 1 else 0)
         + (if truthy_list (recent_transactions p) then 1 else 0)
         + (if truthy_list sr then 1 else 0))%nat
    /\ (2 <= length (_generate_enhanced_findings env p sr contributions) <= 6)%nat.
Proof.
  intros env p sr contributions.
  assert (Hcount :
    length (_generate_enhanced_findings env p sr contributions)
    = (2 + (if (credit_score p >? 0)%Z then 1 else 0)
         + (if (4 <=? length (banking_products p))%nat then 1
            else if (length (banking_products p) <=? 1)%nat then 1 else 0)
         + (if truthy_list (recent_transactions p) then 1 else 0)
         + (if truthy_list sr then 1 else 0))%nat).
  { cbv beta delta [_generate_enhanced_findings].
    length_step 1%nat.
    inline_let.
    length_step 2%nat.
    inline_let.
    length_step (2 + (if (credit_score p >? 0)%Z then 1 else 0))%nat.
    inline_let.
    length_step (2 + (if (credit_score p >? 0)%Z then 1 else 0)
                 + (if (4 <=? length (banking_products p))%nat then 1
                    else if (length (banking_products p) <=? 1)%nat then 1 else 0))%nat.
    length_step (2 + (if (credit_score p >? 0)%Z then 1 else 0)
                 + (if (4 <=? length (banking_products p))%nat then 1
                    else if (length (banking_products p) <=? 1)%nat then 1 else 0)
                 + (if truthy_list (recent_transactions p) then 1 else 0))%nat.
    length_step (2 + (if (credit_score p >? 0)%Z then 1 else 0)
                 + (if (4 <=? length (banking_products p))%nat then 1
                    else if (length (banking_products p) <=? 1)%nat then 1 else 0)
                 + (if truthy_list (recent_transactions p) then 1 else 0)
                 + (if truthy_list sr then 1 else 0))%nat.
    assumption. }
  split; [exact Hcount|]. rewrite Hcount. case_conditions; lia.
Qed.

Lemma sublist_snoc_take {A} (prev master : list A) (x : A) (n : nat) :
  prev `sublist_of` take n master -> master !! n = Some x ->
  prev ++ [x] `sublist_of` take (S n) master.
Proof.
  intros Hprev Hx. rewrite (take_S_r _ _ _ Hx). now apply sublist_app.
Qed.

Lemma sublist_keep_take {A} (prev master : list A) (n : nat) :
  prev `sublist_of` take n master -> prev `sublist_of` take (S n) master.
Proof.
  intros Hprev. etransitivity; [exact Hprev|].
  replace (take n master) with (take n (take (S n) master))
    by (rewrite take_take; f_equal; lia).
  apply sublist_take.
Qed.

(** A [let] that appends one rule's text, the [n]-th of
    [rule_recommendations], or leaves the list alone. *)
Ltac sublist_step n :=
  name_let ltac:(fun y =>
    let H := fresh "Hsub" in
    assert (H : y `sublist_of` take (S n) rule_recommendations)
      by (subst y;
          match goal with
          | Hp : _ `sublist_of` take n rule_recommendations |- _ =>
              case_conditions;
              [apply sublist_snoc_take; [exact Hp | reflexivity]
              | apply sublist_keep_take; exact Hp]
          end);
    clearbody y).

(** The rules emit their texts in the order of [rule_recommendations], each
    at most once. *)
Lemma rule_based_recommendations_sublist (p : CustomerProfile) (s : Q) :
  rule_based_recommendations p s `sublist_of` rule_recommendations.
Proof.
  cbv beta delta [rule_based_recommendations].
  inline_let. inline_let.
  name_let ltac:(fun y =>
    assert (y `sublist_of` take 4 rule_recommendations)
      by (subst y; case_conditions; cbn;
          repeat first [apply sublist_nil | apply sublist_skip | apply sublist_cons]);
    clearbody y).
  inline_let.
  sublist_step 4%nat. sublist_step 5%nat. sublist_step 6%nat. sublist_step 7%nat.
  sublist_step 8%nat. sublist_step 9%nat. sublist_step 10%nat.
  assumption.
Qed.

(** How many rules fire. *)
Lemma rule_based_recommendations_length (p : CustomerProfile) (s : Q) :
  let products : gset string := list_to_set (banking_products p) in
  length (rule_based_recommendations p s)
  = ((if String.eqb (_determine_risk_tier s) "high"
         || String.eqb (_determine_risk_tier s) "critical" then 2 else 1)
     + (if bool_decide ("investment" ∉ products) && Qgeb (income p) 50000
        then 1 else 0)
     + (if bool_decide ("savings" ∉ products) then 1 else 0)
     + (if bool_decide ("credit_card" ∉ products) && (credit_score p >=? 650)%Z
        then 1 else 0)
     + (if bool_decide ("mortgage" ∉ products) && Qgeb (income p) 75000
           && (credit_score p >=? 700)%Z then 1 else 0)
     + (if String.eqb (account_type p) "basic" && Qgeb (income p) 50000
        then 1 else 0)
     + (if (length (banking_products p) <=? 1)%nat then 1 else 0)
     + (if (credit_score p <? 700)%Z && (credit_score p >? 0)%Z then 1 else 0))%nat.
Proof.
  cbv zeta. cbv beta delta [rule_based_recommendations].
  inline_let. inline_let.
  length_step (if String.eqb (_determine_risk_tier s) "high"
                  || String.eqb (_determine_risk_tier s) "critical" then 2 else 1)%nat.
  inline_let.
  do 7 snoc_step.
  lia.
Qed.

Lemma general_advisory_is_no_rule : general_advisory ∉ rule_recommendations.
Proof. apply (bool_decide_unpack _). vm_compute. exact I. Qed.

Lemma rule_recommendations_NoDup : NoDup rule_recommendations.
Proof. apply (bool_decide_unpack _). vm_compute. exact I. Qed.

(** X9.  The recommendations never repeat a text and there are between 2
    and 8 of them; the general advisory is among them exactly when fewer
    than two rules fired. *)
Theorem recommendations_distinct_and_bounded :
  forall (p : CustomerProfile) (risk_score : Q),
    NoDup (_generate_enhanced_recommendations p risk_score)
    /\ (2 <= length (_generate_enhanced_recommendations p risk_score) <= 8)%nat
    /\ (general_advisory ∈ _generate_enhanced_recommendations p risk_score
        <-> (length (rule_based_recommendations p risk_score) < 2)%nat).
Proof.
  intros p s.
  pose proof (rule_based_recommendations_sublist p s) as Hsub.
  pose proof (sublist_NoDup _ _ rule_recommendations_NoDup Hsub) as Hnd.
  assert (Hadv : general_advisory ∉ rule_based_recommendations p s).
  { intros Hin. apply general_advisory_is_no_rule.
    eapply elem_of_sublist; eassumption. }
  pose proof (rule_based_recommendations_nonempty p s) as Hne.
  assert (Hmax : (length (rule_based_recommendations p s) <= 8)%nat).
  { pose proof (rule_based_recommendations_length p s) as Hlen. cbv zeta in Hlen.
    rewrite Hlen. clear.
    rewrite ?Z.geb_leb, ?Z.gtb_ltb.
    destruct (Z.leb_spec 700 (credit_score p)); destruct (Z.ltb_spec (credit_score p) 700);
      try lia; rewrite ?andb_false_r; cbn [andb]; case_conditions; lia. }
  unfold _generate_enhanced_recommendations. cbv zeta.
  destruct (Nat.ltb_spec (length (rule_based_recommendations p s)) 2) as [Hlt | Hge].
  - split; [|split].
    + apply NoDup_app. split; [exact Hnd|]. split; [|apply NoDup_singleton].
      intros x Hx Hx'. apply list_elem_of_singleton in Hx'. subst x. exact (Hadv Hx).
    + rewrite length_app. cbn [length]. lia.
    + split; [intros _; exact Hlt|]. intros _. apply elem_of_app. right.
      apply list_elem_of_singleton. reflexivity.
  - split; [exact Hnd|]. split; [lia|].
    split; [intros Hin; exfalso; exact (Hadv Hin) | lia].
Qed.

End SynthesizerMore.

(** ** Customer profiles: properties *)

Section ProfilesMore.

Lemma default_profiles_unfold :
  default_profiles
  = <["12345" := default (default_CustomerProfile "") (default_profiles !! "12345")]>
      (<["67890" := default (default_CustomerProfile "") (default_profiles !! "67890")]>
         (<["11111" := default (default_CustomerProfile "") (default_profiles !! "11111")]>
            ∅)).
Proof. reflexivity. Qed.

(** The loop body of [_load_customer_profiles]. *)
Local Abbreviation load_step env :=
  (fun (default_profiles : gmap string CustomerProfile) (cid : string) =>
     let income := fetch_income env cid in
     let transactions := fetch_transactions env cid in
     match income with
     | Some income =>
         let profile := default (default_CustomerProfile cid) (default_profiles !! cid) in
         let profile := set_income profile income in
         let profile :=
           if truthy_list transactions
           then set_recent_transactions profile transactions else profile in
         <[cid := profile]> default_profiles
     | None => default_profiles
     end).

(** What the database makes of a profile. *)
Local Abbreviation overridden env cid p0 :=
  (match fetch_income env cid with
   | Some income =>
       if truthy_list (fetch_transactions env cid)
       then set_recent_transactions (set_income p0 income) (fetch_transactions env cid)
       else set_income p0 income
   | None => p0
   end).

Lemma load_step_lookup (env : Env) (m : gmap string CustomerProfile) (cid k : string) :
  load_step env m cid !! k
  = if decide (cid = k)
    then match fetch_income env cid with
         | Some _ => Some (overridden env cid (default (default_CustomerProfile cid) (m !! cid)))
         | None => m !! k
         end
    else m !! k.
Proof.
  cbv beta zeta. destruct (fetch_income env cid); [|now destruct (decide _)].
  apply lookup_insert.
Qed.

(** The loop treats every listed id on its own. *)
Lemma load_loop_lookup (env : Env) (ids : list string) (m : gmap string CustomerProfile)
    (k : string) (p0 : CustomerProfile) :
  NoDup ids -> m !! k = Some p0 ->
  fold_left (load_step env) ids m !! k
  = Some (if decide (k ∈ ids) then overridden env k p0 else p0).
Proof.
  revert m p0. induction ids as [|cid ids IH]; intros m p0 Hnd Hk.
  - cbn [fold_left]. rewrite decide_False by apply not_elem_of_nil. exact Hk.
  - apply NoDup_cons in Hnd as [Hnotin Hnd]. cbn [fold_left].
    destruct (decide (cid = k)) as [-> | Hne].
    + rewrite (IH _ (overridden env k p0) Hnd).
      * rewrite decide_False by exact Hnotin.
        rewrite decide_True by apply list_elem_of_here.
        destruct (fetch_income env k); reflexivity.
      * rewrite load_step_lookup, decide_True by reflexivity.
        rewrite Hk. cbn [default]. destruct (fetch_income env k); reflexivity.
    + rewrite (IH _ p0 Hnd).
      * destruct (decide (k ∈ ids)) as [Hin | Hnin].
        -- rewrite decide_True by (now apply list_elem_of_further). reflexivity.
        -- rewrite decide_False; [reflexivity|].
           intros Hin. apply elem_of_cons in Hin as [-> | Hin]; tauto.
      * rewrite load_step_lookup, decide_False by exact Hne. exact Hk.
Qed.

Lemma load_loop_lookup_None (env : Env) (ids : list string)
    (m : gmap string CustomerProfile) (k : string) :
  k ∉ ids -> m !! k = None -> fold_left (load_step env) ids m !! k = None.
Proof.
  revert m. induction ids as [|cid ids IH]; intros m Hnotin Hk; [exact Hk|].
  apply not_elem_of_cons in Hnotin as [Hne Hnotin]. cbn [fold_left].
  apply IH; [exact Hnotin|].
  rewrite load_step_lookup, decide_False by congruence. exact Hk.
Qed.

Lemma default_profiles_keys (cid : string) :
  is_Some (default_profiles !! cid) <-> cid ∈ ["12345"; "67890"; "11111"].
Proof.
  rewrite default_profiles_unfold, !lookup_insert, lookup_empty.
  rewrite !elem_of_cons, elem_of_nil.
  repeat case_decide; subst; split; intros Hx;
    try (eexists; reflexivity);
    try (destruct Hx as [? Hx]; discriminate Hx);
    try (destruct Hx as [Hx | [Hx | [Hx | []]]]; congruence);
    auto.
Qed.

(** What [_load_customer_profiles] holds for one of the three sample ids. *)
Lemma load_lookup_sample (env : Env) (cid : string) (p0 : CustomerProfile) :
  default_profiles !! cid = Some p0 ->
  _load_customer_profiles env !! cid
  = Some (if connection_string env then overridden env cid p0 else p0).
Proof.
  intros Hp0. unfold _load_customer_profiles.
  destruct (connection_string env); [|exact Hp0].
  etransitivity;
    [apply (load_loop_lookup env ["12345"; "67890"; "11111"] default_profiles cid p0);
     [apply (bool_decide_unpack _); vm_compute; exact I | exact Hp0]|].
  rewrite decide_True; [reflexivity|].
  apply default_profiles_keys. eauto.
Qed.

Lemma load_lookup_other (env : Env) (cid : string) :
  default_profiles !! cid = None -> _load_customer_profiles env !! cid = None.
Proof.
  intros Hnone. unfold _load_customer_profiles.
  destruct (connection_string env); [|exact Hnone].
  apply load_loop_lookup_None; [|exact Hnone].
  intros Hin. apply default_profiles_keys in Hin. rewrite Hnone in Hin.
  destruct Hin as [? Hin]. discriminate Hin.
Qed.

(** X10.  Whatever the database returns, [_load_customer_profiles] yields
    profiles for exactly the three sample customers 12345, 67890 and 11111:
    the database never adds or removes a customer. *)
Theorem loaded_profiles_are_the_three_samples :
  forall (env : Env) (cid : string),
    is_Some (_load_customer_profiles env !! cid)
    <-> cid = "12345" \/ cid = "67890" \/ cid = "11111".
Proof.
  intros env cid.
  assert (Hkeys : is_Some (default_profiles !! cid)
                  <-> cid = "12345" \/ cid = "67890" \/ cid = "11111").
  { rewrite default_profiles_keys, !elem_of_cons, elem_of_nil. tauto. }
  rewrite <- Hkeys. destruct (default_profiles !! cid) as [p0|] eqn:Hp0.
  - rewrite (load_lookup_sample env cid p0 Hp0). split; eauto.
  - rewrite (load_lookup_other env cid Hp0). reflexivity.
Qed.

(** X11.  The database overrides a sample profile's income, and its
    transactions when it has some, and nothing else; a customer whose income
    the database does not return keeps the whole sample profile, including
    the sample transactions even when the database has transactions for
    them; without a connection the samples are returned as they are. *)
Theorem database_overrides_income_and_transactions_only :
  forall (env : Env) (cid : string) (p0 : CustomerProfile),
    default_profiles !! cid = Some p0 ->
    exists p,
      _load_customer_profiles env !! cid = Some p
      /\ customer_id p = customer_id p0
      /\ credit_score p = credit_score p0
      /\ account_type p = account_type p0
      /\ customer_since p = customer_since p0
      /\ risk_tier p = risk_tier p0
      /\ banking_products p = banking_products p0
      /\ last_review_date p = last_review_date p0
      /\ (connection_string env = false \/ fetch_income env cid = None -> p = p0)
      /\ (forall v, connection_string env = true ->
            fetch_income env cid = Some v ->
            income p = v
            /\ recent_transactions p
               = if truthy_list (fetch_transactions env cid)
                 then fetch_transactions env cid
                 else recent_transactions p0).
Proof.
  intros env cid p0 Hp0. eexists. split; [apply (load_lookup_sample env cid p0 Hp0)|].
  destruct (connection_string env); [destruct (fetch_income env cid) as [i|]|];
    [destruct (truthy_list (fetch_transactions env cid))| |];
    repeat split; try reflexivity; try congruence;
    try (intros [? | ?]; discriminate);
    try (cbn; congruence).
Qed.

Lemma database_overrides_income_and_transactions_only_witness :
  let env := mk_Env (fun _ => "") (fun _ => "") elements example_now "" 0%Q "" ""
               (Ok tt) (fun _ _ _ => Ok []) true
               (fun cid => if String.eqb cid "67890" then Some 52000%Q else None)
               (fun _ => [mk_Transaction (Some 9000%Q) None None])
               (fun _ => Ok tt) example_generate in
  exists p0 p,
    default_profiles !! "67890" = Some p0
    /\ _load_customer_profiles env !! "67890" = Some p
    /\ credit_score p = credit_score p0
    /\ income p = 52000%Q.
Proof.
  intros env.
  assert (H0 : is_Some (default_profiles !! "67890")) by (vm_compute; eauto).
  destruct H0 as [p0 Hp0].
  destruct (database_overrides_income_and_transactions_only env "67890" p0 Hp0)
    as (p & Hp & _ & Hc & _ & _ & _ & _ & _ & _ & Hinc).
  exists p0, p. repeat split; try assumption.
  apply (Hinc 52000%Q); reflexivity.
Defined.

End ProfilesMore.

(** ** The analysis run: further properties *)

Section RunMore.

(** [self'] is [self] when the [try] block of [run_enhanced_analysis] is
    entered: the request is counted and the profiles are loaded. *)
Local Abbreviation entered env self self' :=
  (customer_profiles self'
   = (if bool_decide (customer_profiles self = ∅) then _load_customer_profiles env
      else customer_profiles self)
   /\ total_requests self' = total_requests self + 1
   /\ successful_analyses self' = successful_analyses self
   /\ shared_state self' = shared_state self).

(** The report that [run_enhanced_analysis] builds. *)
Local Abbreviation report_of env agents cid q p sr output contributions :=
  (Report.mk_EnhancedBankingReport
     ("enhanced_" +:+ str_take 8 (uuid4_hex env)) cid q output
     (_generate_enhanced_findings env p sr contributions)
     (_determine_risk_tier (score_thousandths (now env) p # 1000))
     (score_thousandths (now env) p # 1000)
     (_generate_enhanced_recommendations p (score_thousandths (now env) p # 1000))
     ["Enhanced multi-agent sequential analysis completed";
      "Comprehensive policy compliance verification performed";
      "Enterprise risk assessment conducted";
      "Analyzed " +:+ pretty (length sr) +:+ " relevant policy documents";
      pretty (size contributions) +:+ " specialized agents contributed to analysis"]
     (iter_set env (policy_ref_set sr))
     contributions
     (Report.mk_ProcessingMetrics (round (elapsed env) 2) (length agents)
        (length (iter_set env (policy_ref_set sr))) (length sr)
        (score_thousandths (now env) p # 1000))
     "EnhancedBankingSequentialOrchestration").

(** The two ways out of the [try] block. *)
Lemma orchestrate_cases (env : Env) (self : System) (agents : list Agent)
    (cid q : string) (p : CustomerProfile) (sr : list SearchResult) (ctx : string) :
  (exists e,
      returned (orchestrate env self agents cid q p sr ctx) = Raise e
      /\ system (orchestrate env self agents cid q p sr ctx)
         = mk_System (customer_profiles self) (total_requests self)
             (successful_analyses self)
             (SharedState.record_failure (shared_state self) cid (str_exn e)
                (isoformat_now env)))
  \/ (exists output contributions,
         prepare_members env agents = Ok tt
         /\ sequential_orchestration (generate env) agents (orchestration_task ctx) ∅ []
            = (Ok output, contributions,
               generation_calls (orchestrate env self agents cid q p sr ctx))
         /\ returned (orchestrate env self agents cid q p sr ctx)
            = Ok (report_of env agents cid q p sr output contributions)
         /\ system (orchestrate env self agents cid q p sr ctx)
            = mk_System (customer_profiles self) (total_requests self)
                (successful_analyses self + 1)
                (SharedState.update_interaction (shared_state self) cid q
                   ("enhanced_" +:+ str_take 8 (uuid4_hex env))
                   (score_thousandths (now env) p # 1000) (isoformat_now env))).
Proof.
  unfold orchestrate. destruct (prepare_members env agents) as [[]|e].
  - destruct (sequential_orchestration (generate env) agents (orchestration_task ctx) ∅ [])
      as [[[output|e] contributions] calls].
    + right. exists output, contributions. rewrite (score_spec (now env) p sr).
      cbn. repeat split.
    + left. exists e. cbn. split; reflexivity.
  - left. exists e. cbn. split; reflexivity.
Qed.

(** An exception before the [try] block. *)
Lemma run_outside_try (env : Env) (self : System) (cid q : string) (e : exn) :
  load_enhanced_documents env = Raise e
  \/ (load_enhanced_documents env = Ok tt
      /\ hybrid_search env q search_collections 4 = Raise e) ->
  exists self',
    entered env self self'
    /\ run_enhanced_analysis env self cid q = mk_Run (Raise e) self' [].
Proof.
  unfold run_enhanced_analysis. cbv zeta. cbn [customer_profiles].
  intros [-> | [-> ->]];
    (destruct (bool_decide (customer_profiles self = ∅));
     eexists; (split; [|reflexivity]); repeat split).
Qed.

Lemma run_inside_try (env : Env) (self : System) (cid q : string)
    (sr : list SearchResult) :
  load_enhanced_documents env = Ok tt ->
  hybrid_search env q search_collections 4 = Ok sr ->
  exists self',
    entered env self self'
    /\ run_enhanced_analysis env self cid q
       = orchestrate env self' create_enhanced_agents cid q
           (analysed_profile env self cid) sr
           (_prepare_enhanced_context env (analysed_profile env self cid) sr q).
Proof.
  unfold run_enhanced_analysis, analysed_profile. cbv zeta.
  intros -> ->. cbn [customer_profiles].
  destruct (bool_decide (customer_profiles self = ∅));
    eexists; (split; [|reflexivity]); repeat split.
Qed.

(** Where a run can stop. *)
Lemma run_stops (env : Env) (self : System) (cid q : string) :
  (exists e,
      load_enhanced_documents env = Raise e
      \/ (load_enhanced_documents env = Ok tt
          /\ hybrid_search env q search_collections 4 = Raise e))
  \/ (exists sr,
         load_enhanced_documents env = Ok tt
         /\ hybrid_search env q search_collections 4 = Ok sr).
Proof.
  destruct (load_enhanced_documents env) as [[]|e]; [|left; eauto].
  destruct (hybrid_search env q search_collections 4) as [sr|e]; [right|left]; eauto.
Qed.

(** The state after a run: the profiles and the request counter do not
    depend on how the run ends, the success counter counts reports. *)
Lemma run_counters (env : Env) (self : System) (cid q : string) :
  customer_profiles (system (run_enhanced_analysis env self cid q))
  = (if bool_decide (customer_profiles self = ∅) then _load_customer_profiles env
     else customer_profiles self)
  /\ total_requests (system (run_enhanced_analysis env self cid q))
     = total_requests self + 1
  /\ successful_analyses (system (run_enhanced_analysis env self cid q))
     = successful_analyses self
       + (if is_Ok (returned (run_enhanced_analysis env self cid q)) then 1 else 0).
Proof.
  destruct (run_stops env self cid q) as [[e He] | (sr & Hload & Hsearch)].
  - destruct (run_outside_try env self cid q e He) as (self' & (Hp & Ht & Hs & _) & ->).
    cbn [system returned is_Ok]. rewrite Hp, Ht, Hs. repeat split. lia.
  - destruct (run_inside_try env self cid q sr Hload Hsearch)
      as (self' & (Hp & Ht & Hs & _) & ->).
    match goal with
    | |- context [orchestrate ?env ?s ?ags ?c ?qq ?p ?r ?ctx] =>
        destruct (orchestrate_cases env s ags c qq p r ctx)
          as [(e & -> & ->) | (output & contributions & _ & _ & -> & ->)]
    end; cbn [customer_profiles total_requests successful_analyses is_Ok];
      rewrite Hp, Ht, Hs; repeat split; lia.
Qed.

(** A report comes out of the [try] block, after every stage has answered. *)
Lemma run_returns (env : Env) (self : System) (cid q : string)
    (report : Report.EnhancedBankingReport) :
  returned (run_enhanced_analysis env self cid q) = Ok report ->
  exists sr output contributions,
    hybrid_search env q search_collections 4 = Ok sr
    /\ sequential_orchestration (generate env) create_enhanced_agents
         (orchestration_task
            (_prepare_enhanced_context env (analysed_profile env self cid) sr q)) ∅ []
       = (Ok output, contributions, generation_calls (run_enhanced_analysis env self cid q))
    /\ report
       = report_of env create_enhanced_agents cid q (analysed_profile env self cid) sr
           output contributions
    /\ shared_state (system (run_enhanced_analysis env self cid q))
       = SharedState.update_interaction (shared_state self) cid q
           (Report.report_id report) (Report.risk_score report) (isoformat_now env).
Proof.
  destruct (run_stops env self cid q) as [[e He] | (sr & Hload & Hsearch)].
  - destruct (run_outside_try env self cid q e He) as (self' & _ & ->). discriminate.
  - destruct (run_inside_try env self cid q sr Hload Hsearch)
      as (self' & (_ & _ & _ & Hlog) & ->).
    match goal with
    | |- context [orchestrate ?env ?s ?ags ?c ?qq ?p ?r ?ctx] =>
        destruct (orchestrate_cases env s ags c qq p r ctx)
          as [(e & -> & _) | (output & contributions & _ & Hseq & -> & ->)]
    end; [discriminate|].
    intros [= <-]. exists sr, output, contributions.
    cbn [shared_state Report.report_id Report.risk_score]. rewrite Hlog.
    repeat split; [exact Hsearch | exact Hseq].
Qed.

(** What a successful orchestration leaves behind: every member was invoked,
    in order; the contributions are keyed by the members' names; the final
    output is the last member's contribution. *)
Lemma sequential_orchestration_ok (generate : Agent -> string -> result string)
    (members : list Agent) :
  forall input contributions calls output contributions' calls',
    sequential_orchestration generate members input contributions calls
    = (Ok output, contributions', calls') ->
    calls' = calls ++ map name members
    /\ dom contributions' = dom contributions ∪ list_to_set (map name members)
    /\ (forall agent, last members = Some agent ->
        contributions' !! name agent = Some output).
Proof.
  induction members as [|agent rest IH];
    intros input contributions calls output contributions' calls' Hrun;
    cbn [sequential_orchestration] in Hrun.
  - injection Hrun as <- <- <-. cbn [map list_to_set].
    rewrite app_nil_r. split; [reflexivity|].
    split; [symmetry; apply union_empty_r_L | discriminate].
  - destruct (generate agent input) as [content|e]; [|discriminate].
    destruct (IH _ _ _ _ _ _ Hrun) as (Hcalls & Hdom & Hlast).
    split; [|split].
    + rewrite Hcalls, <- app_assoc. reflexivity.
    + rewrite Hdom, dom_insert_L. cbn [map list_to_set].
      rewrite (comm_L (∪) {[name agent]} (dom contributions)), (assoc_L (∪)).
      reflexivity.
    + intros a Ha. destruct rest as [|agent' rest'].
      * cbn in Ha. injection Ha as <-. cbn [sequential_orchestration] in Hrun.
        injection Hrun as <- <- _. apply lookup_insert_eq.
      * apply Hlast. exact Ha.
Qed.

Lemma recommendations_at_least_two (p : CustomerProfile) (s : Q) :
  (2 <= length (_generate_enhanced_recommendations p s))%nat.
Proof.
  unfold _generate_enhanced_recommendations. cbv zeta.
  destruct (Nat.ltb_spec (length (rule_based_recommendations p s)) 2) as [Hlt | Hge];
    [|exact Hge].
  pose proof (rule_based_recommendations_nonempty p s).
  rewrite length_app. cbn [length]. lia.
Qed.

Lemma score_in_unit_interval (now : datetime) (p : CustomerProfile) :
  Qle_bool 0.0 (score_thousandths now p # 1000)
  && Qle_bool (score_thousandths now p # 1000) 1.0 = true.
Proof.
  pose proof (score_thousandths_range now p) as Hr.
  apply andb_true_intro. rewrite !Qle_bool_iff. unfold Qle. cbn. lia.
Qed.

(** X12.  Every call of [run_enhanced_analysis] counts one request, however
    it ends, and counts one successful analysis exactly when it returns a
    report; so a successes-at-most-requests relation between the two
    counters is kept by every call. *)
Theorem requests_and_successes_are_counted :
  forall (env : Env) (self : System) (cid q : string),
    total_requests (system (run_enhanced_analysis env self cid q))
    = total_requests self + 1
    /\ successful_analyses (system (run_enhanced_analysis env self cid q))
       = successful_analyses self
         + (if is_Ok (returned (run_enhanced_analysis env self cid q)) then 1 else 0)
    /\ (successful_analyses self <= total_requests self ->
        successful_analyses (system (run_enhanced_analysis env self cid q))
        <= total_requests (system (run_enhanced_analysis env self cid q))).
Proof.
  intros env self cid q.
  destruct (run_counters env self cid q) as (_ & Ht & Hs).
  split; [exact Ht|]. split; [exact Hs|].
  rewrite Ht, Hs. destruct (is_Ok _); lia.
Qed.

Lemma requests_and_successes_are_counted_witness :
  successful_analyses example_system <= total_requests example_system
  /\ successful_analyses
       (system (run_enhanced_analysis (example_env failing_generate) example_system
                  "67890" "loan eligibility"))
     <= total_requests
          (system (run_enhanced_analysis (example_env failing_generate) example_system
                     "67890" "loan eligibility")).
Proof.
  assert (H : successful_analyses example_system <= total_requests example_system)
    by (cbn; lia).
  split; [exact H|].
  exact (proj2 (proj2 (requests_and_successes_are_counted (example_env failing_generate)
                         example_system "67890" "loan eligibility")) H).
Defined.

(** X13.  The document load and the policy search run before the [try]
    block: when one of them raises, the exception reaches the caller, no
    stage is invoked, and the interaction log gets no failure record, unlike
    a failure inside the orchestration; the request is still counted. *)
Theorem failures_before_the_orchestration_are_not_logged :
  forall (env : Env) (self : System) (cid q : string) (e : exn),
    load_enhanced_documents env = Raise e
    \/ (load_enhanced_documents env = Ok tt
        /\ hybrid_search env q search_collections 4 = Raise e) ->
    returned (run_enhanced_analysis env self cid q) = Raise e
    /\ generation_calls (run_enhanced_analysis env self cid q) = []
    /\ shared_state (system (run_enhanced_analysis env self cid q)) = shared_state self
    /\ successful_analyses (system (run_enhanced_analysis env self cid q))
       = successful_analyses self
    /\ total_requests (system (run_enhanced_analysis env self cid q))
       = total_requests self + 1.
Proof.
  intros env self cid q e He.
  destruct (run_outside_try env self cid q e He) as (self' & (_ & Ht & Hs & Hlog) & ->).
  cbn [returned generation_calls system]. rewrite Ht, Hs, Hlog. repeat split.
Qed.

Lemma failures_before_the_orchestration_are_not_logged_witness :
  let env :=
    mk_Env (fun _ => "0.00") (fun _ => "0.000") elements example_now
      "2026-11-03T10:30:00" 12.5%Q "3f2a9c1d7b6e4f08a1b2c3d4e5f60718" ""
      (Ok tt) (fun _ _ _ => Raise (RuntimeError "collection not found"))
      false (fun _ => None) (fun _ => []) (fun _ => Ok tt) example_generate in
  returned (run_enhanced_analysis env example_system "12345" "retirement options")
  = Raise (RuntimeError "collection not found")
  /\ shared_state (system (run_enhanced_analysis env example_system "12345"
                             "retirement options")) = [].
Proof.
  intros env.
  assert (He : load_enhanced_documents env = Raise (RuntimeError "collection not found")
               \/ (load_enhanced_documents env = Ok tt
                   /\ hybrid_search env "retirement options" search_collections 4
                      = Raise (RuntimeError "collection not found")))
    by (right; split; reflexivity).
  destruct (failures_before_the_orchestration_are_not_logged env example_system
              "12345" "retirement options" _ He) as (H1 & _ & H2 & _).
  split; [exact H1 | exact H2].
Defined.

(** X14.  A returned report agrees with itself and with the log: it is for
    the customer and the query of the call, its tier is the tier of its
    score, its recommendations are those for the analysed profile at that
    score, its metrics repeat the score, count six stages and count the
    policy references it lists, and the interaction log has gained exactly
    one record, the completed interaction with the report's id and score. *)
Theorem returned_report_is_consistent :
  forall (env : Env) (self : System) (cid q : string)
         (report : Report.EnhancedBankingReport),
    returned (run_enhanced_analysis env self cid q) = Ok report ->
    Report.customer_id report = cid
    /\ Report.query report = q
    /\ Report.risk_assessment report = _determine_risk_tier (Report.risk_score report)
    /\ Report.recommendations report
       = _generate_enhanced_recommendations (analysed_profile env self cid)
           (Report.risk_score report)
    /\ Report.metrics_risk_score (Report.processing_metrics report)
       = Report.risk_score report
    /\ Report.agents_used (Report.processing_metrics report) = 6%nat
    /\ Report.policies_referenced (Report.processing_metrics report)
       = length (Report.policy_references report)
    /\ shared_state (system (run_enhanced_analysis env self cid q))
       = shared_state self
         ++ [SharedState.mk_InteractionRecord cid
               (SharedState.Completed q (Report.report_id report)
                  (Report.risk_score report))
               (isoformat_now env)].
Proof.
  intros env self cid q report Hret.
  destruct (run_returns env self cid q report Hret)
    as (sr & output & contributions & _ & _ & Hrep & Hlog).
  rewrite Hlog. subst report. cbn. repeat split.
Qed.

Lemma returned_report_is_consistent_witness :
  exists report,
    returned (run_enhanced_analysis (example_env example_generate) example_system
                "12345" "retirement options") = Ok report
    /\ Report.customer_id report = "12345"
    /\ Report.risk_assessment report = _determine_risk_tier (Report.risk_score report)
    /\ Report.agents_used (Report.processing_metrics report) = 6%nat.
Proof.
  destruct (returned (run_enhanced_analysis (example_env example_generate) example_system
                        "12345" "retirement options")) as [report|e] eqn:E;
    [|vm_compute in E; discriminate E].
  exists report.
  destruct (returned_report_is_consistent _ _ _ _ report E)
    as (H1 & _ & H3 & _ & _ & H6 & _).
  repeat split; assumption.
Defined.

(** X15.  The customer profiles are loaded at most once: a run on a system
    without profiles loads them, a run on a system with profiles keeps them
    as they are, and since the loaded profiles are never empty no later run
    loads again, whatever the database returns by then.  No run adds a
    profile for the customer it analyses. *)
Theorem profiles_are_loaded_once :
  forall (env env' : Env) (self : System) (cid q cid' q' : string),
    customer_profiles (system (run_enhanced_analysis env self cid q))
    = (if bool_decide (customer_profiles self = ∅) then _load_customer_profiles env
       else customer_profiles self)
    /\ customer_profiles (system (run_enhanced_analysis env self cid q)) <> ∅
    /\ customer_profiles
         (system (run_enhanced_analysis env'
                    (system (run_enhanced_analysis env self cid q)) cid' q'))
       = customer_profiles (system (run_enhanced_analysis env self cid q)).
Proof.
  intros env env' self cid q cid' q'.
  destruct (run_counters env self cid q) as (Hp & _ & _).
  assert (Hne : customer_profiles (system (run_enhanced_analysis env self cid q)) <> ∅).
  { rewrite Hp. case_bool_decide as Hempty; [|exact Hempty].
    intros Hnone.
    destruct (proj2 (default_profiles_keys "12345")) as [p0 Hp0];
      [apply list_elem_of_here|].
    pose proof (load_lookup_sample env "12345" p0 Hp0) as Hl.
    rewrite Hnone, lookup_empty in Hl. discriminate Hl. }
  split; [exact Hp|]. split; [exact Hne|].
  destruct (run_counters env' (system (run_enhanced_analysis env self cid q)) cid' q')
    as (Hp' & _ & _).
  rewrite Hp'. rewrite bool_decide_eq_false_2 by exact Hne. reflexivity.
Qed.

(** X16.  An unknown customer is not refused: a customer id that is neither
    among the profiles held nor one of the three sample ids is analysed
    with the all-defaults profile, so a returned report always has score
    0.65 and tier high, and the run still adds no profile for that id. *)
Theorem unknown_customer_is_scored_high :
  forall (env : Env) (self : System) (cid q : string)
         (report : Report.EnhancedBankingReport),
    customer_profiles self !! cid = None ->
    cid <> "12345" /\ cid <> "67890" /\ cid <> "11111" ->
    returned (run_enhanced_analysis env self cid q) = Ok report ->
    analysed_profile env self cid = default_CustomerProfile cid
    /\ Report.risk_score report = 650 # 1000
    /\ Report.risk_assessment report = "high"
    /\ customer_profiles (system (run_enhanced_analysis env self cid q)) !! cid = None.
Proof.
  intros env self cid q report Hnone Hcid Hret.
  assert (Hload : _load_customer_profiles env !! cid = None).
  { apply load_lookup_other.
    destruct (default_profiles !! cid) as [p0|] eqn:Hp0; [|reflexivity].
    exfalso. assert (Hin : is_Some (default_profiles !! cid)) by eauto.
    apply default_profiles_keys in Hin.
    rewrite !elem_of_cons, elem_of_nil in Hin. tauto. }
  assert (Hp : analysed_profile env self cid = default_CustomerProfile cid).
  { unfold analysed_profile. cbv zeta.
    destruct (bool_decide (customer_profiles self = ∅));
      [rewrite Hload | rewrite Hnone]; reflexivity. }
  destruct (run_returns env self cid q report Hret)
    as (sr & output & contributions & _ & _ & Hrep & _).
  destruct (run_counters env self cid q) as (Hprofiles & _ & _).
  rewrite Hp in Hrep. subst report.
  cbn [Report.risk_score Report.risk_assessment].
  split; [exact Hp|]. split; [reflexivity|]. split; [reflexivity|].
  rewrite Hprofiles. destruct (bool_decide (customer_profiles self = ∅)); assumption.
Qed.

Lemma unknown_customer_is_scored_high_witness :
  exists report,
    returned (run_enhanced_analysis (example_env example_generate) example_system
                "99999" "card limit") = Ok report
    /\ Report.risk_score report = 650 # 1000
    /\ Report.risk_assessment report = "high".
Proof.
  destruct (returned (run_enhanced_analysis (example_env example_generate) example_system
                        "99999" "card limit")) as [report|e] eqn:E;
    [|vm_compute in E; discriminate E].
  exists report.
  assert (Hnone : customer_profiles example_system !! "99999" = None) by reflexivity.
  assert (Hcid : "99999" <> "12345" /\ "99999" <> "67890" /\ "99999" <> "11111")
    by (repeat split; discriminate).
  destruct (unknown_customer_is_scored_high _ _ _ _ report Hnone Hcid E)
    as (_ & H2 & H3 & _).
  repeat split; assumption.
Defined.

(** X17.  In a returned report every stage has contributed under its own
    name: the contributions are keyed by exactly the six stage names, all
    six stages were invoked in order, and the report's summary is the
    contribution of the last stage, the synthesis coordinator. *)
Theorem contributions_are_the_six_stages :
  forall (env : Env) (self : System) (cid q : string)
         (report : Report.EnhancedBankingReport),
    returned (run_enhanced_analysis env self cid q) = Ok report ->
    dom (Report.agent_contributions report)
    = list_to_set (map name create_enhanced_agents)
    /\ size (Report.agent_contributions report) = 6%nat
    /\ generation_calls (run_enhanced_analysis env self cid q)
       = map name create_enhanced_agents
    /\ Report.agent_contributions report !! "Enhanced_Synthesis_Coordinator"
       = Some (Report.summary report).
Proof.
  intros env self cid q report Hret.
  destruct (run_returns env self cid q report Hret)
    as (sr & output & contributions & _ & Hseq & Hrep & _).
  destruct (sequential_orchestration_ok _ _ _ _ _ _ _ _ Hseq) as (Hcalls & Hdom & Hlast).
  subst report. cbn [Report.agent_contributions Report.summary].
  rewrite dom_empty_L, union_empty_l_L in Hdom.
  split; [exact Hdom|]. split; [|split; [exact Hcalls|]].
  - rewrite <- size_dom, Hdom. apply (bool_decide_unpack _). vm_compute. exact I.
  - assert (Hl : exists agent, last create_enhanced_agents = Some agent
                               /\ name agent = "Enhanced_Synthesis_Coordinator")
      by (eexists; split; reflexivity).
    destruct Hl as (agent & Hagent & <-). apply Hlast, Hagent.
Qed.

Lemma contributions_are_the_six_stages_witness :
  exists report,
    returned (run_enhanced_analysis (example_env example_generate) example_system
                "67890" "home loan") = Ok report
    /\ size (Report.agent_contributions report) = 6%nat
    /\ Report.agent_contributions report !! "Enhanced_Synthesis_Coordinator"
       = Some (Report.summary report).
Proof.
  destruct (returned (run_enhanced_analysis (example_env example_generate) example_system
                        "67890" "home loan")) as [report|e] eqn:E;
    [|vm_compute in E; discriminate E].
  exists report.
  destruct (contributions_are_the_six_stages _ _ _ _ report E) as (_ & H2 & _ & H4).
  repeat split; assumption.
Defined.

(** X18.  Of the five checks that [run_test_scenarios] makes on a report,
    three can never fail on a report that [run_enhanced_analysis] returned:
    six contributions, at least two recommendations and a score within
    [0, 1].  Such a report passes exactly when it has at least three
    findings and was produced in less than 300 seconds. *)
Theorem validation_depends_on_findings_and_time :
  forall (env : Env) (self : System) (cid q : string)
         (report : Report.EnhancedBankingReport),
    returned (run_enhanced_analysis env self cid q) = Ok report ->
    report_passes report
    = (3 <=? length (Report.key_findings report))%nat
      && Qltb (Report.total_processing_time_seconds (Report.processing_metrics report)) 300.
Proof.
  intros env self cid q report Hret.
  destruct (run_returns env self cid q report Hret)
    as (sr & output & contributions & _ & Hseq & Hrep & _).
  destruct (sequential_orchestration_ok _ _ _ _ _ _ _ _ Hseq) as (_ & Hdom & _).
  rewrite dom_empty_L, union_empty_l_L in Hdom.
  assert (Hsize : size contributions = 6%nat).
  { rewrite <- size_dom, Hdom. apply (bool_decide_unpack _). vm_compute. exact I. }
  subst report. unfold report_passes.
  cbn [Report.agent_contributions Report.key_findings Report.recommendations
       Report.risk_score Report.processing_metrics Report.total_processing_time_seconds
       forallb id].
  rewrite (bool_decide_eq_true_2 _ Hsize).
  rewrite (proj2 (Nat.leb_le _ _) (recommendations_at_least_two _ _)).
  rewrite score_in_unit_interval.
  cbn [andb]. rewrite !andb_true_r. reflexivity.
Qed.

Lemma validation_depends_on_findings_and_time_witness :
  exists report,
    returned (run_enhanced_analysis (example_env example_generate) example_system
                "11111" "suspicious activity") = Ok report
    /\ report_passes report
       = (3 <=? length (Report.key_findings report))%nat
         && Qltb (Report.total_processing_time_seconds
                    (Report.processing_metrics report)) 300.
Proof.
  destruct (returned (run_enhanced_analysis (example_env example_generate) example_system
                        "11111" "suspicious activity")) as [report|e] eqn:E;
    [|vm_compute in E; discriminate E].
  exists report. split; [reflexivity|].
  exact (validation_depends_on_findings_and_time _ _ _ _ report E).
Defined.

End RunMore.

(** ** Test scenarios: properties *)

Section ScenariosMore.

(** The scenario loop: every entry is one request, every report one
    successful analysis, and reports are only ever appended. *)
Lemma scenario_loop_counters (env_at : nat -> Env)
    (entries : list (nat * (string * string))) :
  forall (reports : list Report.EnhancedBankingReport) (self : System),
    total_requests (snd (fold_left (run_scenario env_at) entries (reports, self)))
    = total_requests self + Z.of_nat (length entries)
    /\ successful_analyses (snd (fold_left (run_scenario env_at) entries (reports, self)))
         + Z.of_nat (length reports)
       = successful_analyses self
         + Z.of_nat (length (fst (fold_left (run_scenario env_at) entries (reports, self))))
    /\ (length reports
        <= length (fst (fold_left (run_scenario env_at) entries (reports, self)))
        <= length reports + length entries)%nat.
Proof.
  induction entries as [|[i scenario] entries IH]; intros reports self.
  - cbn. repeat split; lia.
  - cbn [fold_left length]. unfold run_scenario at 2 4 6 8 10.
    destruct (run_counters (env_at i) self (fst scenario) (snd scenario))
      as (_ & Ht & Hs).
    destruct (returned (run_enhanced_analysis (env_at i) self (fst scenario) (snd scenario)))
      as [report|e];
      match goal with
      | |- context [fold_left _ entries (?r, ?s)] =>
          destruct (IH r s) as (IHt & IHs & IHl)
      end;
      cbn [is_Ok] in Hs; rewrite ?length_app in *; cbn [length] in *;
      repeat split; lia.
Qed.

(** A run cannot return a report when the chat-completion service always
    fails. *)
Lemma run_fails_without_service (env : Env) (self : System) (cid q : string) :
  (forall agent input, exists e, generate env agent input = Raise e) ->
  exists e, returned (run_enhanced_analysis env self cid q) = Raise e.
Proof.
  intros Hdown.
  destruct (returned (run_enhanced_analysis env self cid q)) as [report|e] eqn:Hret;
    [|eauto].
  destruct (run_returns env self cid q report Hret)
    as (sr & output & contributions & _ & Hseq & _).
  cbv delta [create_enhanced_agents] in Hseq. cbv zeta in Hseq.
  cbn [sequential_orchestration] in Hseq.
  match type of Hseq with
  | context [generate env ?a ?i] => destruct (Hdown a i) as [e He]; rewrite He in Hseq
  end.
  discriminate Hseq.
Qed.

Lemma scenario_loop_without_reports (env_at : nat -> Env)
    (entries : list (nat * (string * string))) :
  (forall i self cid q, exists e,
      returned (run_enhanced_analysis (env_at i) self cid q) = Raise e) ->
  forall (reports : list Report.EnhancedBankingReport) (self : System),
    fst (fold_left (run_scenario env_at) entries (reports, self)) = reports.
Proof.
  intros Hfail. induction entries as [|[i scenario] entries IH]; intros reports self.
  - reflexivity.
  - cbn [fold_left]. unfold run_scenario at 2.
    destruct (Hfail i self (fst scenario) (snd scenario)) as [e ->]. apply IH.
Qed.

(** X19.  [run_test_scenarios] runs all three scenarios, whichever of them
    fail: it makes three requests, returns at most three reports, and the
    successful analyses grow by the number of reports returned.  The
    verdict it prints is positive exactly when every returned report passes
    its checks, so it is positive when no report was returned at all. *)
Theorem test_run_counts_and_verdict :
  forall (env_at : nat -> Env) (self self' : System)
         (reports : list Report.EnhancedBankingReport) (all_pass : bool),
    run_test_scenarios env_at self = (reports, all_pass, self') ->
    total_requests self' = total_requests self + 3
    /\ successful_analyses self' = successful_analyses self + Z.of_nat (length reports)
    /\ (length reports <= 3)%nat
    /\ all_pass = forallb report_passes reports
    /\ (reports = [] -> all_pass = true).
Proof.
  intros env_at self self' reports all_pass Hrun.
  unfold run_test_scenarios in Hrun.
  pose proof (scenario_loop_counters env_at (enumerate test_scenarios 1) [] self)
    as (Ht & Hs & Hl).
  destruct (fold_left (run_scenario env_at) (enumerate test_scenarios 1) ([], self))
    as [reports0 self0].
  injection Hrun as -> <- ->. cbn [fst snd length] in *.
  change (length (enumerate test_scenarios 1)) with 3%nat in *.
  assert (Hall : forall (l : list Report.EnhancedBankingReport) (b : bool),
            fold_left (fun all_pass report =>
                         if report_passes report then all_pass else false) l b
            = b && forallb report_passes l).
  { induction l as [|r l IHl]; intros b; cbn [fold_left forallb].
    - now rewrite andb_true_r.
    - rewrite IHl. destruct (report_passes r), b; reflexivity. }
  rewrite Hall. cbn [andb].
  repeat split; try lia. intros ->. reflexivity.
Qed.

Lemma test_run_counts_and_verdict_witness :
  exists reports all_pass self',
    run_test_scenarios (fun _ => example_env example_generate) example_system
    = (reports, all_pass, self')
    /\ total_requests self' = 3
    /\ (length reports <= 3)%nat.
Proof.
  destruct (run_test_scenarios (fun _ => example_env example_generate) example_system)
    as [[reports all_pass] self'] eqn:E.
  exists reports, all_pass, self'. split; [reflexivity|].
  destruct (test_run_counts_and_verdict _ _ _ _ _ E) as (H1 & _ & H3 & _).
  split; [exact H1 | exact H3].
Defined.

(** X20.  When the chat-completion service fails on every invocation, all
    three scenarios fail, yet [run_test_scenarios] raises nothing: it
    returns no report, counts three requests and no success, and its
    verdict is still positive, no report having failed a check. *)
Theorem test_run_without_service_passes_vacuously :
  forall (env_at : nat -> Env) (self : System),
    (forall i agent input, exists e, generate (env_at i) agent input = Raise e) ->
    exists self',
      run_test_scenarios env_at self = ([], true, self')
      /\ total_requests self' = total_requests self + 3
      /\ successful_analyses self' = successful_analyses self.
Proof.
  intros env_at self Hdown.
  assert (Hfail : forall i self cid q, exists e,
             returned (run_enhanced_analysis (env_at i) self cid q) = Raise e)
    by (intros i s cid q; apply run_fails_without_service, Hdown).
  pose proof (scenario_loop_without_reports env_at (enumerate test_scenarios 1) Hfail
                [] self) as Hreports.
  pose proof (scenario_loop_counters env_at (enumerate test_scenarios 1) [] self)
    as (Ht & Hs & _).
  unfold run_test_scenarios.
  destruct (fold_left (run_scenario env_at) (enumerate test_scenarios 1) ([], self))
    as [reports0 self0].
  cbn [fst snd length] in *. subst reports0.
  change (length (enumerate test_scenarios 1)) with 3%nat in *.
  exists self0. cbn [fold_left length] in *. repeat split; lia.
Qed.

Lemma test_run_without_service_passes_vacuously_witness :
  let down (agent : Agent) (input : string) : result string :=
    Raise (RuntimeError "chat completion service unavailable") in
  exists self',
    run_test_scenarios (fun _ => example_env down) example_system = ([], true, self')
    /\ total_requests self' = 3 /\ successful_analyses self' = 0.
Proof.
  intros down.
  apply (test_run_without_service_passes_vacuously (fun _ => example_env down)
           example_system).
  intros i agent input. eexists. reflexivity.
Defined.

End ScenariosMore.

(** ** Recommendations and the risk tier *)

Section MonitoringMore.
Local Open Scope Q_scope.

(** A [let] that appends the [n]-th of the later rules' texts, or leaves
    the list alone: the list stays the monitoring regime followed by texts
    of the later rules. *)
Ltac regime_step n :=
  name_let ltac:(fun y =>
    let H := fresh "Hsplit" in
    match goal with
    | Hp : exists rest, _ = ?M ++ rest /\ rest `sublist_of` take n ?master |- _ =>
        assert (H : exists rest, y = M ++ rest /\ rest `sublist_of` take (S n) master)
          by (subst y; destruct Hp as (rest & -> & Hp); case_conditions;
              [eexists; split;
               [symmetry; apply app_assoc
               | apply sublist_snoc_take; [exact Hp | reflexivity]]
              | exists rest; split;
                [reflexivity | apply sublist_keep_take; exact Hp]]);
        clear Hp; clearbody y
    end).

(** The rules after the first only append to what the first has emitted,
    and only texts of their own. *)
Lemma rule_based_recommendations_regime (p : CustomerProfile) (s : Q) :
  exists rest,
    rule_based_recommendations p s
    = monitoring_recommendations (_determine_risk_tier s) ++ rest
    /\ rest `sublist_of` drop 4 rule_recommendations.
Proof.
  cbv beta delta [rule_based_recommendations].
  inline_let. inline_let.
  name_let ltac:(fun y =>
    assert (exists rest,
               y = monitoring_recommendations (_determine_risk_tier s) ++ rest
               /\ rest `sublist_of` take 0 (drop 4 rule_recommendations))
      by (subst y; exists []; split;
          [unfold monitoring_recommendations; case_conditions; reflexivity
          | reflexivity]);
    clearbody y).
  inline_let.
  regime_step 0%nat. regime_step 1%nat. regime_step 2%nat. regime_step 3%nat.
  regime_step 4%nat. regime_step 5%nat. regime_step 6%nat.
  match goal with
  | Hp : exists rest, _ |- _ =>
      destruct Hp as (rest & -> & Hp); exists rest; split; [reflexivity | exact Hp]
  end.
Qed.

Lemma monitoring_texts_are_no_later_rule (text : string) :
  text ∈ take 4 rule_recommendations -> text ∉ drop 4 rule_recommendations.
Proof.
  pose proof rule_recommendations_NoDup as Hnd.
  rewrite <- (take_drop 4 rule_recommendations) in Hnd.
  apply NoDup_app in Hnd as (_ & Hdisjoint & _). apply Hdisjoint.
Qed.

(** X21.  The recommendations always open with the monitoring regime of the
    score's tier: enhanced monitoring with the documentation requirement
    from a score of 0.65 on, semi-annual reviews from 0.50 on, annual
    reviews below; and no text of another monitoring regime follows
    further down the list. *)
Theorem recommendations_open_with_the_monitoring_regime :
  forall (p : CustomerProfile) (risk_score : Q),
    let regime :=
      if Qle_bool 0.65 risk_score then
        ["Implement enhanced monitoring with quarterly risk reviews";
         "Consider requiring additional documentation for high-value transactions"]
      else if Qle_bool 0.50 risk_score then
        ["Maintain standard monitoring with semi-annual reviews"]
      else ["Continue standard monitoring with annual reviews"] in
    regime `prefix_of` _generate_enhanced_recommendations p risk_score
    /\ (forall text,
          text ∈ take 4 rule_recommendations ->
          text ∈ _generate_enhanced_recommendations p risk_score ->
          text ∈ regime).
Proof.
  intros p s regime.
  assert (Hregime : regime = monitoring_recommendations (_determine_risk_tier s)).
  { subst regime. unfold monitoring_recommendations, _determine_risk_tier.
    destruct (Qle_bool 0.65 s) eqn:E65; destruct (Qle_bool 0.50 s) eqn:E50;
      Qcases; try reflexivity; exfalso;
      repeat match goal with
             | H : Qle_bool _ _ = true |- _ => apply Qle_bool_iff in H
             | H : Qle_bool _ _ = false |- _ =>
                 apply not_true_iff_false in H; rewrite Qle_bool_iff in H
             end; lra. }
  destruct (rule_based_recommendations_regime p s) as (rest & Hsplit & Hrest).
  rewrite <- Hregime in Hsplit.
  unfold _generate_enhanced_recommendations. cbv zeta. rewrite Hsplit.
  split.
  - destruct (_ <? _)%nat; [rewrite <- app_assoc|]; apply prefix_app_r; reflexivity.
  - intros text Hfour Hin.
    assert (Hin' : text ∈ regime ++ rest).
    { destruct (_ <? _)%nat; [|exact Hin].
      apply elem_of_app in Hin as [Hin | Hin]; [exact Hin|].
      apply list_elem_of_singleton in Hin. subst text.
      exfalso. apply general_advisory_is_no_rule.
      rewrite <- (take_drop 4 rule_recommendations). apply elem_of_app.
      left. exact Hfour. }
    apply elem_of_app in Hin' as [Hin' | Hin']; [exact Hin'|].
    exfalso. apply (monitoring_texts_are_no_later_rule text Hfour).
    eapply elem_of_sublist; eassumption.
Qed.

End MonitoringMore.

(** ** Database connector: properties *)

Section ConnectorMore.

(** X22.  The connector never lets a database error out: whatever the
    database does, [fetch_income] and [fetch_transactions] return; a failed
    connection or query gives the same answer as no data, [None] and the
    empty list; and without a connection string the database is not
    consulted at all. *)
Theorem connector_never_raises :
  forall (db : DataConnector.Database) (self : option string) (cid : string),
    (exists income,
        DataConnector.fetch_income db self cid = Ok income
        /\ (income <> None ->
            DataConnector.truthy self = true
            /\ DataConnector.select_income db cid = Ok income))
    /\ (exists transactions,
           DataConnector.fetch_transactions db self cid = Ok transactions
           /\ (transactions <> [] ->
               DataConnector.truthy self = true
               /\ DataConnector.select_transactions db cid = Ok transactions))
    /\ (DataConnector.truthy self = false ->
        forall db' : DataConnector.Database,
          DataConnector.fetch_income db' self cid = Ok None
          /\ DataConnector.fetch_transactions db' self cid = Ok [])
    /\ (forall s e,
          self = Some s -> DataConnector.connect db s = Raise e ->
          DataConnector.fetch_income db self cid = Ok None
          /\ DataConnector.fetch_transactions db self cid = Ok [])
    /\ (forall e,
          DataConnector.select_income db cid = Raise e ->
          DataConnector.fetch_income db self cid = Ok None)
    /\ (forall e,
          DataConnector.select_transactions db cid = Raise e ->
          DataConnector.fetch_transactions db self cid = Ok []).
Proof.
  intros db self cid.
  unfold DataConnector.fetch_income, DataConnector.fetch_transactions,
    DataConnector.get_db_connection, DataConnector.truthy.
  run_monad.
  destruct self as [s|]; [destruct (truthy_str s)|]; cbn [negb].
  - split; [|split; [|split; [discriminate|split; [|split]]]].
    + destruct (DataConnector.connect db s) as [[]|e];
        [destruct (DataConnector.select_income db cid) as [income|e]|];
        eexists; (split; [reflexivity|]); intros Hsome; try congruence.
      split; reflexivity.
    + destruct (DataConnector.connect db s) as [[]|e];
        [destruct (DataConnector.select_transactions db cid) as [transactions|e]|];
        eexists; (split; [reflexivity|]); intros Hsome; try congruence.
      split; reflexivity.
    + intros s' e [= <-] ->. split; reflexivity.
    + intros e ->. destruct (DataConnector.connect db s) as [[]|e']; reflexivity.
    + intros e ->. destruct (DataConnector.connect db s) as [[]|e']; reflexivity.
  - split; [|split; [|split; [|split; [|split]]]];
      try (eexists; split; [reflexivity|congruence]).
    + intros _ db'. split; reflexivity.
    + intros s' e _ _. split; reflexivity.
    + intros e _. reflexivity.
    + intros e _. reflexivity.
  - split; [|split; [|split; [|split; [|split]]]];
      try (eexists; split; [reflexivity|congruence]).
    + intros _ db'. split; reflexivity.
    + intros s' e _ _. split; reflexivity.
    + intros e _. reflexivity.
    + intros e _. reflexivity.
Qed.

(** X23.  A connector is in database mode only if the test query at
    start-up succeeded on the connection string it holds, the one passed in
    or else the one of the process environment; a connector whose test
    failed, or that was given no connection string, serves no data for the
    rest of its life, even from a database that has recovered. *)
Theorem failed_connection_test_disables_the_database :
  forall (db : DataConnector.Database) (connection_string getenv : option string),
    (forall s,
        DataConnector.__init__ db connection_string getenv = Some s ->
        truthy_str s = true ->
        (if DataConnector.truthy connection_string then connection_string else getenv)
        = Some s
        /\ DataConnector.connect db s = Ok tt
        /\ DataConnector.select_1 db = Ok tt)
    /\ ((forall s,
            (if DataConnector.truthy connection_string then connection_string else getenv)
            = Some s ->
            DataConnector.connect db s = Ok tt -> DataConnector.select_1 db <> Ok tt) ->
        forall (db' : DataConnector.Database) (cid : string),
          DataConnector.truthy (DataConnector.__init__ db connection_string getenv) = false
          /\ DataConnector.fetch_income db'
               (DataConnector.__init__ db connection_string getenv) cid = Ok None
          /\ DataConnector.fetch_transactions db'
               (DataConnector.__init__ db connection_string getenv) cid = Ok [])
    /\ (DataConnector.truthy
          (if DataConnector.truthy connection_string then connection_string else getenv)
        = false ->
        forall (db' : DataConnector.Database) (cid : string),
          DataConnector.truthy (DataConnector.__init__ db connection_string getenv) = false
          /\ DataConnector.fetch_income db'
               (DataConnector.__init__ db connection_string getenv) cid = Ok None
          /\ DataConnector.fetch_transactions db'
               (DataConnector.__init__ db connection_string getenv) cid = Ok []).
Proof.
  intros db connection_string getenv.
  unfold DataConnector.__init__, DataConnector._test_connection,
    DataConnector.get_db_connection.
  run_monad.
  destruct (if DataConnector.truthy connection_string then connection_string else getenv)
    as [s0|]; [destruct (truthy_str s0) eqn:Hs0|].
  - destruct (DataConnector.connect db s0) as [[]|e] eqn:Hconnect;
      [destruct (DataConnector.select_1 db) as [[]|e] eqn:Hselect|].
    + split; [|split].
      * intros s [= <-] _. repeat split; assumption.
      * intros Hfail. exfalso. exact (Hfail s0 eq_refl Hconnect eq_refl).
      * unfold DataConnector.truthy. rewrite Hs0. discriminate.
    + split; [discriminate|]. split; intros _ db' cid; repeat split.
    + split; [discriminate|]. split; intros _ db' cid; repeat split.
  - split; [|split].
    + intros s [= <-] Hs. congruence.
    + intros _ db' cid.
      unfold DataConnector.truthy, DataConnector.fetch_income,
        DataConnector.fetch_transactions.
      rewrite Hs0. repeat split.
    + intros _ db' cid.
      unfold DataConnector.truthy, DataConnector.fetch_income,
        DataConnector.fetch_transactions.
      rewrite Hs0. repeat split.
  - split; [discriminate|]. split; intros _ db' cid; repeat split.
Qed.

End ConnectorMore.

(** ** Policy references: properties *)

Section PolicyReferencesMore.

Lemma size_list_to_set_le (l : list string) :
  (size (list_to_set (C:=gset string) l) <= length l)%nat.
Proof.
  induction l as [|x l IH]; cbn [list_to_set length].
  - rewrite size_empty. lia.
  - rewrite size_union_alt, size_singleton.
    pose proof (subseteq_size (list_to_set l ∖ {[x]}) (list_to_set (C:=gset string) l)
                  (subseteq_difference_l _ _ _ (reflexivity _))).
    lia.
Qed.

Lemma length_omap_le {A B} (f : A -> option B) (l : list A) :
  (length (omap f l) <= length l)%nat.
Proof.
  induction l as [|x l IH]; csimpl; [lia|].
  destruct (f x); csimpl; lia.
Qed.

(** The set comprehension of the source, written out with its filter and
    its default, is [policy_ref_set]: the filter lets no result through on
    which the default could apply. *)
Lemma policy_ref_set_comprehension (sr : list SearchResult) :
  list_to_set
    (map (fun r => get (filename r) "Unknown")
       (filter (fun r => truthy_str (get (filename r) "") = true) sr))
  = policy_ref_set sr.
Proof.
  unfold policy_ref_set. f_equal.
  induction sr as [|r sr IH]; [reflexivity|].
  destruct (filename r) as [[|c f]|] eqn:Hf.
  - rewrite filter_cons_False by (rewrite Hf; discriminate).
    csimpl. rewrite Hf. exact IH.
  - rewrite filter_cons_True by (rewrite Hf; reflexivity).
    csimpl. rewrite Hf. cbn [get truthy_str]. f_equal. exact IH.
  - rewrite filter_cons_False by (rewrite Hf; discriminate).
    csimpl. rewrite Hf. exact IH.
Qed.

Lemma policy_ref_set_members (sr : list SearchResult) (f : string) :
  f ∈ policy_ref_set sr <-> f <> "" /\ exists r, r ∈ sr /\ filename r = Some f.
Proof.
  unfold policy_ref_set. rewrite elem_of_list_to_set, list_elem_of_omap. split.
  - intros (r & Hin & Hr). destruct (filename r) as [f'|] eqn:Hf; [|discriminate].
    destruct f' as [|c f']; [discriminate|]. injection Hr as <-.
    split; [discriminate|]. exists r. split; assumption.
  - intros (Hne & r & Hin & Hf). exists r. split; [exact Hin|]. rewrite Hf.
    destruct f; [contradiction|reflexivity].
Qed.

(** X24.  Where iterating a set yields each of its elements once, the
    policy references listed in a returned report are pairwise distinct and
    are exactly the non-empty filenames of the search results, which is
    also what the source's comprehension with its default ["Unknown"]
    yields; so the default never shows up for a missing filename, and the
    metrics never count more policies referenced than search results
    analysed. *)
Theorem policy_references_are_the_distinct_filenames :
  forall (env : Env) (self : System) (cid q : string) (sr : list SearchResult)
         (report : Report.EnhancedBankingReport),
    (forall s : gset string,
        NoDup (iter_set env s) /\ forall x, x ∈ iter_set env s <-> x ∈ s) ->
    hybrid_search env q search_collections 4 = Ok sr ->
    returned (run_enhanced_analysis env self cid q) = Ok report ->
    NoDup (Report.policy_references report)
    /\ (forall f,
          f ∈ Report.policy_references report
          <-> f <> "" /\ exists r, r ∈ sr /\ filename r = Some f)
    /\ (forall f,
          f ∈ Report.policy_references report
          <-> f ∈ map (fun r => get (filename r) "Unknown")
                    (filter (fun r => truthy_str (get (filename r) "") = true) sr))
    /\ Report.search_results_analyzed (Report.processing_metrics report) = length sr
    /\ (Report.policies_referenced (Report.processing_metrics report)
        <= Report.search_results_analyzed (Report.processing_metrics report))%nat.
Proof.
  intros env self cid q sr report Hiter Hsearch Hret.
  destruct (run_returns env self cid q report Hret)
    as (sr' & output & contributions & Hsearch' & _ & Hrep & _).
  rewrite Hsearch in Hsearch'. injection Hsearch' as <-.
  subst report.
  cbn [Report.policy_references Report.processing_metrics
       Report.search_results_analyzed Report.policies_referenced].
  destruct (Hiter (policy_ref_set sr)) as [Hnd Hmem].
  split; [exact Hnd|]. split; [|split; [|split; [reflexivity|]]].
  - intros f. rewrite Hmem. apply policy_ref_set_members.
  - intros f. rewrite Hmem, <- policy_ref_set_comprehension.
    apply elem_of_list_to_set.
  - assert (Hlen : length (iter_set env (policy_ref_set sr))
                   = size (policy_ref_set sr)).
    { unfold size, set_size. cbn. apply Permutation_length, NoDup_Permutation.
      - exact Hnd.
      - apply NoDup_elements.
      - intros x. rewrite Hmem, elem_of_elements. reflexivity. }
    rewrite Hlen. unfold policy_ref_set.
    etransitivity; [apply size_list_to_set_le | apply length_omap_le].
Qed.

Lemma policy_references_are_the_distinct_filenames_witness :
  let found :=
    [mk_SearchResult (Some "fraud_policy.md") (Some "fraud_detection") (Some 0.9%Q) None
       (Some "Report suspicious activity within 24 hours.");
     mk_SearchResult None (Some "compliance") None (Some 0.4%Q) None;
     mk_SearchResult (Some "") None None None (Some "untitled");
     mk_SearchResult (Some "fraud_policy.md") (Some "fraud_detection") (Some 0.7%Q) None
       (Some "Escalate confirmed fraud to the risk desk.")] in
  let env :=
    mk_Env (fun _ => "0.00") (fun _ => "0.000") elements example_now
      "2026-11-03T10:30:00" 12.5%Q "3f2a9c1d7b6e4f08a1b2c3d4e5f60718" ""
      (Ok tt) (fun _ _ _ => Ok found)
      false (fun _ => None) (fun _ => []) register_members example_generate in
  exists report,
    returned (run_enhanced_analysis env example_system "11111" "suspicious activity")
    = Ok report
    /\ NoDup (Report.policy_references report)
    /\ ("fraud_policy.md" ∈ Report.policy_references report)
    /\ ~ ("Unknown" ∈ Report.policy_references report)
    /\ (Report.policies_referenced (Report.processing_metrics report) <= 4)%nat.
Proof.
  intros found env.
  assert (Hiter : forall s : gset string,
             NoDup (iter_set env s) /\ forall x, x ∈ iter_set env s <-> x ∈ s)
    by (intros s; split; [apply NoDup_elements | intros x; apply elem_of_elements]).
  assert (Hsearch : hybrid_search env "suspicious activity" search_collections 4
                    = Ok found) by reflexivity.
  destruct (returned (run_enhanced_analysis env example_system "11111"
                        "suspicious activity")) as [report|e] eqn:E;
    [|vm_compute in E; discriminate E].
  exists report. split; [reflexivity|].
  destruct (policy_references_are_the_distinct_filenames env example_system "11111"
              "suspicious activity" found report Hiter Hsearch E)
    as (Hnd & Hmem & _ & Hn & Hle).
  split; [exact Hnd|]. split; [|split].
  - apply Hmem. split; [discriminate|]. eexists. split; [apply list_elem_of_here|].
    reflexivity.
  - intros Hin. apply Hmem in Hin as (_ & r & Hr & Hf).
    subst found. rewrite !elem_of_cons, elem_of_nil in Hr.
    destruct Hr as [-> | [-> | [-> | [-> | []]]]]; discriminate Hf.
  - rewrite Hn in Hle. exact Hle.
Defined.

End PolicyReferencesMore.

(** ** The tenure factor *)

Section TenureClaims.
Local Open Scope Q_scope.

(** C9, as amended.  Tenure is counted in whole days from the start date to
    the reference time and divided by 365.25.  When the start date parses,
    the score is the score of the same profile without a start date,
    adjusted by -0.10 from 1827 days on, by -0.05 from 1096 to 1826 days,
    by +0.08 up to 365 days, and not adjusted from 366 to 1095 days.  When
    the start date is missing (empty) or does not parse, scoring returns a
    score (no error) and it is the score of the same profile without a
    start date. *)
Theorem tenure_factor_in_days :
  (forall (now : datetime) (p : CustomerProfile) (sr : list SearchResult)
          (since : datetime),
     valid_time now ->
     strptime_Y_m_d (customer_since p) = Ok since ->
     exists s s0,
       _calculate_enhanced_risk_score now p sr = Ok s
       /\ _calculate_enhanced_risk_score now (set_customer_since p "") sr = Ok s0
       /\ ((1827 <= toordinal now - toordinal since)%Z -> s == s0 - 0.10)
       /\ ((1096 <= toordinal now - toordinal since <= 1826)%Z -> s == s0 - 0.05)
       /\ ((toordinal now - toordinal since <= 365)%Z -> s == s0 + 0.08)
       /\ ((366 <= toordinal now - toordinal since <= 1095)%Z -> s == s0))
  /\
  (forall (now : datetime) (p : CustomerProfile) (sr : list SearchResult),
     customer_since p = "" \/ (exists e, strptime_Y_m_d (customer_since p) = Raise e) ->
     exists s,
       _calculate_enhanced_risk_score now p sr = Ok s
       /\ _calculate_enhanced_risk_score now (set_customer_since p "") sr = Ok s).
Proof.
  split.
  - intros now p sr since Hvalid Hparse. rewrite !score_spec.
    eexists _, _. split; [reflexivity|]. split; [reflexivity|].
    rewrite score_thousandths_set_customer_since.
    rewrite (tenure_adjustment_unparsed now (set_customer_since p ""))
      by (left; reflexivity).
    rewrite (tenure_adjustment_parsed now since p Hparse).
    rewrite years_adjustment_in_days.
    rewrite (days_since_midnight now since Hvalid (strptime_midnight _ _ Hparse)).
    repeat split; intros Hdays;
      destruct (Z.leb_spec 1827 (toordinal now - toordinal since)%Z);
      destruct (Z.leb_spec 1096 (toordinal now - toordinal since));
      destruct (Z.leb_spec (toordinal now - toordinal since) 365);
      try lia; unfold Qeq, Qminus, Qplus, Qopp; simpl; lia.
  - intros now p sr Hnone. rewrite !score_spec.
    eexists. split; [reflexivity|]. f_equal. f_equal.
    rewrite score_thousandths_set_customer_since.
    rewrite (tenure_adjustment_unparsed now (set_customer_since p ""))
      by (left; reflexivity).
    rewrite (tenure_adjustment_unparsed now p Hnone). lia.
Qed.

Lemma tenure_factor_in_days_witness :
  (valid_time example_now
   /\ strptime_Y_m_d (customer_since (set_customer_since scenario_A "2019-05-15"))
      = Ok (mk_datetime 2019 5 15 0 0 0 0)
   /\ (toordinal example_now - toordinal (mk_datetime 2019 5 15 0 0 0 0) = 2729)%Z
   /\ _calculate_enhanced_risk_score example_now
        (set_customer_since scenario_A "2019-05-15") [] = Ok (70 # 1000)
   /\ _calculate_enhanced_risk_score example_now
        (set_customer_since (set_customer_since scenario_A "2019-05-15") "") []
      = Ok (170 # 1000)
   /\ 70 # 1000 == (170 # 1000) - 0.10)
  /\
  ((customer_since (set_customer_since scenario_A "15 May 2019") = ""
    \/ exists e,
         strptime_Y_m_d (customer_since (set_customer_since scenario_A "15 May 2019"))
         = Raise e)
   /\ exists s,
        _calculate_enhanced_risk_score example_now
          (set_customer_since scenario_A "15 May 2019") [] = Ok s
        /\ _calculate_enhanced_risk_score example_now
             (set_customer_since (set_customer_since scenario_A "15 May 2019") "") []
           = Ok s).
Proof.
  assert (H0 : valid_time example_now) by (unfold valid_time; simpl; lia).
  assert (H1 : strptime_Y_m_d (customer_since (set_customer_since scenario_A "2019-05-15"))
               = Ok (mk_datetime 2019 5 15 0 0 0 0)) by reflexivity.
  assert (Hd : (toordinal example_now - toordinal (mk_datetime 2019 5 15 0 0 0 0)
                = 2729)%Z) by reflexivity.
  assert (H2 : customer_since (set_customer_since scenario_A "15 May 2019") = ""
               \/ exists e,
                    strptime_Y_m_d
                      (customer_since (set_customer_since scenario_A "15 May 2019"))
                    = Raise e)
    by (right; eexists; reflexivity).
  split.
  - split; [exact H0|]. split; [exact H1|]. split; [exact Hd|].
    destruct (proj1 tenure_factor_in_days example_now
                (set_customer_since scenario_A "2019-05-15") [] _ H0 H1)
      as (s & s0 & Hs & Hs0 & H5 & _).
    assert (Hs' : _calculate_enhanced_risk_score example_now
                    (set_customer_since scenario_A "2019-05-15") [] = Ok (70 # 1000))
      by (vm_compute; reflexivity).
    assert (Hs0' : _calculate_enhanced_risk_score example_now
                     (set_customer_since (set_customer_since scenario_A "2019-05-15") "") []
                   = Ok (170 # 1000))
      by (vm_compute; reflexivity).
    split; [exact Hs'|]. split; [exact Hs0'|].
    rewrite Hs' in Hs. rewrite Hs0' in Hs0.
    injection Hs as <-. injection Hs0 as <-.
    apply H5. rewrite Hd. lia.
  - split; [exact H2|].
    exact (proj2 tenure_factor_in_days example_now
             (set_customer_since scenario_A "15 May 2019") [] H2).
Defined.

(** C9 as stated fails on an anniversary: on 2026-11-03 a customer since
    2021-11-03 has a tenure of five years to the day, which is 1826 days,
    and [1826 / 365.25 < 5]: the adjustment is -0.05, not -0.10 (scenario A
    with that start date scores 0.12, against 0.17 without a start date). *)
Lemma fifth_anniversary_is_adjusted_by_0_05 :
  strptime_Y_m_d (customer_since (set_customer_since scenario_A "2021-11-03"))
  = Ok (mk_datetime 2021 11 3 0 0 0 0)
  /\ (year example_now = 2021 + 5 /\ month example_now = 11 /\ day example_now = 3)%Z
  /\ (toordinal example_now - toordinal (mk_datetime 2021 11 3 0 0 0 0) = 1826)%Z
  /\ tenure_years example_now (mk_datetime 2021 11 3 0 0 0 0) < 5
  /\ _calculate_enhanced_risk_score example_now
       (set_customer_since scenario_A "2021-11-03") [] = Ok (120 # 1000)
  /\ _calculate_enhanced_risk_score example_now
       (set_customer_since (set_customer_since scenario_A "2021-11-03") "") []
     = Ok (170 # 1000)
  /\ 120 # 1000 == (170 # 1000) - 0.05
  /\ ~ 120 # 1000 == (170 # 1000) - 0.10.
Proof.
  split; [reflexivity|]. split; [repeat split|]. split; [reflexivity|].
  split; [vm_compute; reflexivity|].
  split; [vm_compute; reflexivity|]. split; [vm_compute; reflexivity|].
  split; [vm_compute; reflexivity|].
  intros H. vm_compute in H. discriminate H.
Qed.

End TenureClaims.
